(** * StudyMania: the study helper of [index.tsx]

    A shallow embedding of the page script: the local history store
    (IndexedDB), the history side bar, the upload and ask handlers, the quiz
    flow with its mistake review, and the flashcard game with its
    cancellable generation.

    - The module-level [let] variables of the script are the record [Vars].
    - The page is the record [Page]: per element the class list, the
      [disabled] flag, the text content, and the children the script creates
      (quiz option buttons, history entries).  Colours, [title] and
      [aria-expanded] attributes are left out: no handler reads them.
    - What lies outside the script is the record [World]: the object store,
      the requests sent to the model service, the alerts shown, and the
      asynchronous calls that are still awaited.
    - Every handler is a computation in the monad [M] over these three
      records.  An [await] splits a handler in two: the part before it runs
      on the click, the part after it runs on the event that settles the
      awaited promise.
    - Reading [a[i]] with [i] outside of [a] gives [undefined] in JavaScript.
      The model makes such a read a fault (the handler stops, result [None]),
      so that "no read outside the bounds" is "no handler faults". *)

From Stdlib Require Import String Ascii DecimalString List Bool Arith ZArith Lia.
From Stdlib Require Import Sorting Permutation SpecFloat.
Import ListNotations.
Local Open Scope string_scope.
Local Open Scope list_scope.

(** ** The JavaScript runtime *)

Module JS.

(** [String(n)] and template-literal interpolation of a non-negative
    integer. *)
Definition show_nat (n : nat) : string := NilZero.string_of_uint (Nat.to_uint n).

(** [Date.now().toString()]. *)
Definition show_Z (z : Z) : string := NilZero.string_of_int (Z.to_int z).

Definition dquote : string := String "034"%char EmptyString.
Definition newline : string := String "010"%char EmptyString.

(** Numbers are IEEE 754 binary64 values. *)
Definition number : Type := spec_float.
Definition prec : Z := 53.
Definition emax : Z := 1024.

(** The number of an integer counter or of an array length. *)
Definition of_nat (n : nat) : number := binary_normalize prec emax (Z.of_nat n) 0 false.

(** [a / b] *)
Definition div (a b : number) : number := SFdiv prec emax a b.

(** [a < b] *)
Definition lt (a b : number) : bool := SFltb a b.

(** The literal [0.6]: the binary64 value nearest to 6/10. *)
Definition lit_0_6 : number := S754_finite false 5404319552844595 (-53).

(** [Array.prototype.sort(cmp)]: the stable sort by a comparator whose
    negative result puts its first argument first. *)
Section Sort.
Context {A : Type} (cmp : A -> A -> Z).

Fixpoint insert (x : A) (l : list A) : list A :=
  match l with
  | [] => [x]
  | y :: r => if (cmp x y <=? 0)%Z then x :: y :: r else y :: insert x r
  end.

Definition sort (l : list A) : list A := fold_right insert [] l.
End Sort.

(** [s || fallback] on strings: the empty string is falsy. *)
Definition or_else (s fallback : string) : string :=
  match s with EmptyString => fallback | _ => s end.

(** An instance of the string built-ins on ASCII text, for running the
    model on concrete inputs. *)
Definition is_space (c : ascii) : bool :=
  let n := nat_of_ascii c in
  (Nat.eqb n 32 || (Nat.leb 9 n && Nat.leb n 13))%bool.

Fixpoint trim_start (s : string) : string :=
  match s with
  | String c r => if is_space c then trim_start r else s
  | EmptyString => EmptyString
  end.

Fixpoint trim_end (s : string) : string :=
  match s with
  | String c r =>
      match trim_end r with
      | EmptyString => if is_space c then EmptyString else String c EmptyString
      | r' => String c r'
      end
  | EmptyString => EmptyString
  end.

Definition ascii_trim (s : string) : string := trim_end (trim_start s).

Definition lower_char (c : ascii) : ascii :=
  let n := nat_of_ascii c in
  if (Nat.leb 65 n && Nat.leb n 90)%bool then ascii_of_nat (n + 32) else c.

Fixpoint ascii_toLowerCase (s : string) : string :=
  match s with
  | String c r => String (lower_char c) (ascii_toLowerCase r)
  | EmptyString => EmptyString
  end.

End JS.

(** ** Data of the script ([interface] declarations) *)

Record HistoryItem := {
  id : string;
  name : string;
  content : string;      (* base64 data URL *)
  mimeType : string;
  timestamp : string
}.

Record QuizQuestion := {
  question : string;
  options : list string;
  correctAnswer : string
}.

(** An element of [incorrectAnswers]: [{ question; selected }]. *)
Record Mistake := {
  mistake_question : QuizQuestion;
  selected : string
}.

Record Flashcard := {
  term : string;
  definition : string
}.

(** A [File] of the file picker. *)
Record File := {
  file_name : string;
  file_type : string
}.

(** ** The page *)

(** The elements the script looks up, under the names of its constants. *)
Inductive Elem :=
  | fileInput | processBtn | statusEl | questionInput | askBtn | answerEl
  | fileInputLabel
  | appContainer | qaSection | answerSection | quizSection | resultsSection
  | gameSection
  | startQuizBtn | quizLoadingContainer | quizLoadingStatus
  | quizContentContainer | questionProgressEl | scoreDisplayEl | quizQuestionEl
  | quizOptionsEl | quizFeedbackEl | nextQuestionBtn
  | finalScoreEl | reviewMistakesBtn | restartQuizBtn | exitQuizBtn
  | startGameBtn | gameLoadingContainer | gameLoadingStatus | exitGameLoadingBtn
  | gameContainer | cardProgressEl | flashcardContainer | flashcardEl
  | flashcardTermEl | flashcardDefinitionEl | gameControls | knewItBtn
  | didntKnowBtn | gameResultsSection | gameResultsHeadingEl | restartGameBtn
  | exitGameBtn
  | historyList | clearHistoryBtn | menuToggleBtn | sidebarOverlay.

(** The class names the script adds and removes on those elements. *)
Inductive Class := hidden | sidebar_open | is_flipped | thinking.

Scheme Equality for Elem.
Scheme Equality for Class.

(** A button created by [displayCurrentQuestion] or [displayMistake]. *)
Record OptionButton := {
  btn_text : string;
  btn_disabled : bool;
  btn_correct : bool;                       (* class [correct] *)
  btn_incorrect : bool;                     (* class [incorrect] *)
  btn_listener : option (string * string)   (* [handleOptionClick(option, correctAnswer, _)] *)
}.

(** An [li] created by [renderHistory]. *)
Record HistoryLi := {
  li_text : string;
  li_id : option string;    (* [dataset.id], and the argument of the click listener *)
  li_active : bool          (* class [active] *)
}.

(** ** Module variables, page and world *)

Record Vars := {
  activeFile : option HistoryItem;
  history : list HistoryItem;
  quizQuestions : list QuizQuestion;
  incorrectAnswers : list Mistake;
  currentQuestionIndex : nat;
  score : nat;
  isReviewingMistakes : bool;
  flashcards : list Flashcard;
  currentCardIndex : nat;
  knownCardsCount : nat;
  db : bool                                  (* the database handle is set *)
}.

Record Page := {
  classList : Elem -> Class -> bool;         (* [classList.contains] *)
  disabled : Elem -> bool;
  textContent : Elem -> string;
  value : Elem -> string;
  files : option File;                       (* [fileInput.files[0]] *)
  quizOptions : list OptionButton;           (* children of [quizOptionsEl] *)
  historyItems : list HistoryLi;             (* children of [historyList] *)
  abortListeners : list nat                  (* [abortHandler]s on [exitGameLoadingBtn], by run *)
}.

(** A call of the model service. *)
Inductive Request :=
  | AskRequest (item : HistoryItem) (q : string)
  | QuizRequest (item : HistoryItem)
  | FlashcardRequest (item : HistoryItem).

(** A run of the [startQuizBtn] handler: awaiting the service, waiting for
    the three seconds of its failure notice, or over. *)
Inductive QuizRun := QuizAwaiting | QuizNotice | QuizOver.

(** A run of the [startGameBtn] handler, with the variables of its closure:
    the abort signal, the interval of the loading messages and the message
    index. *)
Record GameRun := {
  awaiting : bool;
  aborted : bool;
  interval : bool;
  messageIndex : nat
}.

Inductive AskRun := AskAwaiting | AskOver.

(** A run of the [processBtn] handler: reading the file, saving the new
    history item, or over. *)
Inductive Upload :=
  | UploadReading (f : File)
  | UploadSaving (f : File) (item : HistoryItem)
  | UploadOver.

Record World := {
  store : list HistoryItem;                  (* object store [history], in key order *)
  alerts : list string;
  requests : list Request;
  quizRuns : list QuizRun;
  gameRuns : list GameRun;
  askRuns : list AskRun;
  uploads : list Upload;
  pendingClears : nat;                       (* awaited [clearHistoryDB()] calls *)
  pendingLoads : nat                         (* awaited [loadHistoryFromDB()] calls *)
}.

Record App := {
  mem : Vars;
  page : Page;
  world : World
}.

(** *** Field updates *)

Class Setter {R T : Type} (proj : R -> T) := set : (T -> T) -> R -> R.
Arguments set {R T} proj {Setter} f s.

#[global] Instance set_activeFile : Setter activeFile :=
  fun f s => {| activeFile := f (activeFile s); history := history s; quizQuestions := quizQuestions s; incorrectAnswers := incorrectAnswers s; currentQuestionIndex := currentQuestionIndex s; score := score s; isReviewingMistakes := isReviewingMistakes s; flashcards := flashcards s; currentCardIndex := currentCardIndex s; knownCardsCount := knownCardsCount s; db := db s |}.
#[global] Instance set_history : Setter history :=
  fun f s => {| activeFile := activeFile s; history := f (history s); quizQuestions := quizQuestions s; incorrectAnswers := incorrectAnswers s; currentQuestionIndex := currentQuestionIndex s; score := score s; isReviewingMistakes := isReviewingMistakes s; flashcards := flashcards s; currentCardIndex := currentCardIndex s; knownCardsCount := knownCardsCount s; db := db s |}.
#[global] Instance set_quizQuestions : Setter quizQuestions :=
  fun f s => {| activeFile := activeFile s; history := history s; quizQuestions := f (quizQuestions s); incorrectAnswers := incorrectAnswers s; currentQuestionIndex := currentQuestionIndex s; score := score s; isReviewingMistakes := isReviewingMistakes s; flashcards := flashcards s; currentCardIndex := currentCardIndex s; knownCardsCount := knownCardsCount s; db := db s |}.
#[global] Instance set_incorrectAnswers : Setter incorrectAnswers :=
  fun f s => {| activeFile := activeFile s; history := history s; quizQuestions := quizQuestions s; incorrectAnswers := f (incorrectAnswers s); currentQuestionIndex := currentQuestionIndex s; score := score s; isReviewingMistakes := isReviewingMistakes s; flashcards := flashcards s; currentCardIndex := currentCardIndex s; knownCardsCount := knownCardsCount s; db := db s |}.
#[global] Instance set_currentQuestionIndex : Setter currentQuestionIndex :=
  fun f s => {| activeFile := activeFile s; history := history s; quizQuestions := quizQuestions s; incorrectAnswers := incorrectAnswers s; currentQuestionIndex := f (currentQuestionIndex s); score := score s; isReviewingMistakes := isReviewingMistakes s; flashcards := flashcards s; currentCardIndex := currentCardIndex s; knownCardsCount := knownCardsCount s; db := db s |}.
#[global] Instance set_score : Setter score :=
  fun f s => {| activeFile := activeFile s; history := history s; quizQuestions := quizQuestions s; incorrectAnswers := incorrectAnswers s; currentQuestionIndex := currentQuestionIndex s; score := f (score s); isReviewingMistakes := isReviewingMistakes s; flashcards := flashcards s; currentCardIndex := currentCardIndex s; knownCardsCount := knownCardsCount s; db := db s |}.
#[global] Instance set_isReviewingMistakes : Setter isReviewingMistakes :=
  fun f s => {| activeFile := activeFile s; history := history s; quizQuestions := quizQuestions s; incorrectAnswers := incorrectAnswers s; currentQuestionIndex := currentQuestionIndex s; score := score s; isReviewingMistakes := f (isReviewingMistakes s); flashcards := flashcards s; currentCardIndex := currentCardIndex s; knownCardsCount := knownCardsCount s; db := db s |}.
#[global] Instance set_flashcards : Setter flashcards :=
  fun f s => {| activeFile := activeFile s; history := history s; quizQuestions := quizQuestions s; incorrectAnswers := incorrectAnswers s; currentQuestionIndex := currentQuestionIndex s; score := score s; isReviewingMistakes := isReviewingMistakes s; flashcards := f (flashcards s); currentCardIndex := currentCardIndex s; knownCardsCount := knownCardsCount s; db := db s |}.
#[global] Instance set_currentCardIndex : Setter currentCardIndex :=
  fun f s => {| activeFile := activeFile s; history := history s; quizQuestions := quizQuestions s; incorrectAnswers := incorrectAnswers s; currentQuestionIndex := currentQuestionIndex s; score := score s; isReviewingMistakes := isReviewingMistakes s; flashcards := flashcards s; currentCardIndex := f (currentCardIndex s); knownCardsCount := knownCardsCount s; db := db s |}.
#[global] Instance set_knownCardsCount : Setter knownCardsCount :=
  fun f s => {| activeFile := activeFile s; history := history s; quizQuestions := quizQuestions s; incorrectAnswers := incorrectAnswers s; currentQuestionIndex := currentQuestionIndex s; score := score s; isReviewingMistakes := isReviewingMistakes s; flashcards := flashcards s; currentCardIndex := currentCardIndex s; knownCardsCount := f (knownCardsCount s); db := db s |}.
#[global] Instance set_db : Setter db :=
  fun f s => {| activeFile := activeFile s; history := history s; quizQuestions := quizQuestions s; incorrectAnswers := incorrectAnswers s; currentQuestionIndex := currentQuestionIndex s; score := score s; isReviewingMistakes := isReviewingMistakes s; flashcards := flashcards s; currentCardIndex := currentCardIndex s; knownCardsCount := knownCardsCount s; db := f (db s) |}.

#[global] Instance set_classList : Setter classList :=
  fun f s => {| classList := f (classList s); disabled := disabled s; textContent := textContent s; value := value s; files := files s; quizOptions := quizOptions s; historyItems := historyItems s; abortListeners := abortListeners s |}.
#[global] Instance set_disabled : Setter disabled :=
  fun f s => {| classList := classList s; disabled := f (disabled s); textContent := textContent s; value := value s; files := files s; quizOptions := quizOptions s; historyItems := historyItems s; abortListeners := abortListeners s |}.
#[global] Instance set_textContent : Setter textContent :=
  fun f s => {| classList := classList s; disabled := disabled s; textContent := f (textContent s); value := value s; files := files s; quizOptions := quizOptions s; historyItems := historyItems s; abortListeners := abortListeners s |}.
#[global] Instance set_value : Setter value :=
  fun f s => {| classList := classList s; disabled := disabled s; textContent := textContent s; value := f (value s); files := files s; quizOptions := quizOptions s; historyItems := historyItems s; abortListeners := abortListeners s |}.
#[global] Instance set_files : Setter files :=
  fun f s => {| classList := classList s; disabled := disabled s; textContent := textContent s; value := value s; files := f (files s); quizOptions := quizOptions s; historyItems := historyItems s; abortListeners := abortListeners s |}.
#[global] Instance set_quizOptions : Setter quizOptions :=
  fun f s => {| classList := classList s; disabled := disabled s; textContent := textContent s; value := value s; files := files s; quizOptions := f (quizOptions s); historyItems := historyItems s; abortListeners := abortListeners s |}.
#[global] Instance set_historyItems : Setter historyItems :=
  fun f s => {| classList := classList s; disabled := disabled s; textContent := textContent s; value := value s; files := files s; quizOptions := quizOptions s; historyItems := f (historyItems s); abortListeners := abortListeners s |}.
#[global] Instance set_abortListeners : Setter abortListeners :=
  fun f s => {| classList := classList s; disabled := disabled s; textContent := textContent s; value := value s; files := files s; quizOptions := quizOptions s; historyItems := historyItems s; abortListeners := f (abortListeners s) |}.

#[global] Instance set_store : Setter store :=
  fun f s => {| store := f (store s); alerts := alerts s; requests := requests s; quizRuns := quizRuns s; gameRuns := gameRuns s; askRuns := askRuns s; uploads := uploads s; pendingClears := pendingClears s; pendingLoads := pendingLoads s |}.
#[global] Instance set_alerts : Setter alerts :=
  fun f s => {| store := store s; alerts := f (alerts s); requests := requests s; quizRuns := quizRuns s; gameRuns := gameRuns s; askRuns := askRuns s; uploads := uploads s; pendingClears := pendingClears s; pendingLoads := pendingLoads s |}.
#[global] Instance set_requests : Setter requests :=
  fun f s => {| store := store s; alerts := alerts s; requests := f (requests s); quizRuns := quizRuns s; gameRuns := gameRuns s; askRuns := askRuns s; uploads := uploads s; pendingClears := pendingClears s; pendingLoads := pendingLoads s |}.
#[global] Instance set_quizRuns : Setter quizRuns :=
  fun f s => {| store := store s; alerts := alerts s; requests := requests s; quizRuns := f (quizRuns s); gameRuns := gameRuns s; askRuns := askRuns s; uploads := uploads s; pendingClears := pendingClears s; pendingLoads := pendingLoads s |}.
#[global] Instance set_gameRuns : Setter gameRuns :=
  fun f s => {| store := store s; alerts := alerts s; requests := requests s; quizRuns := quizRuns s; gameRuns := f (gameRuns s); askRuns := askRuns s; uploads := uploads s; pendingClears := pendingClears s; pendingLoads := pendingLoads s |}.
#[global] Instance set_askRuns : Setter askRuns :=
  fun f s => {| store := store s; alerts := alerts s; requests := requests s; quizRuns := quizRuns s; gameRuns := gameRuns s; askRuns := f (askRuns s); uploads := uploads s; pendingClears := pendingClears s; pendingLoads := pendingLoads s |}.
#[global] Instance set_uploads : Setter uploads :=
  fun f s => {| store := store s; alerts := alerts s; requests := requests s; quizRuns := quizRuns s; gameRuns := gameRuns s; askRuns := askRuns s; uploads := f (uploads s); pendingClears := pendingClears s; pendingLoads := pendingLoads s |}.
#[global] Instance set_pendingClears : Setter pendingClears :=
  fun f s => {| store := store s; alerts := alerts s; requests := requests s; quizRuns := quizRuns s; gameRuns := gameRuns s; askRuns := askRuns s; uploads := uploads s; pendingClears := f (pendingClears s); pendingLoads := pendingLoads s |}.
#[global] Instance set_pendingLoads : Setter pendingLoads :=
  fun f s => {| store := store s; alerts := alerts s; requests := requests s; quizRuns := quizRuns s; gameRuns := gameRuns s; askRuns := askRuns s; uploads := uploads s; pendingClears := pendingClears s; pendingLoads := f (pendingLoads s) |}.

#[global] Instance set_mem : Setter mem :=
  fun f s => {| mem := f (mem s); page := page s; world := world s |}.
#[global] Instance set_page : Setter page :=
  fun f s => {| mem := mem s; page := f (page s); world := world s |}.
#[global] Instance set_world : Setter world :=
  fun f s => {| mem := mem s; page := page s; world := f (world s) |}.

(** ** The monad of the handlers *)

(** A handler runs on the state and gives a result and the next state, or
    stops at a read outside the bounds of an array ([None]). *)
Definition M (A : Type) : Type := App -> option (A * App).

Definition ret {A : Type} (a : A) : M A := fun st => Some (a, st).

Definition bind {A B : Type} (c : M A) (k : A -> M B) : M B :=
  fun st => match c st with Some (a, st') => k a st' | None => None end.

Declare Scope js_scope.
Delimit Scope js_scope with js.
Notation "x <- c ;; k" := (bind c (fun x => k))
  (at level 61, c at next level, right associativity) : js_scope.
Notation "c ;; k" := (bind c (fun _ => k))
  (at level 61, right associativity) : js_scope.
Local Open Scope js_scope.

Definition gets {A : Type} (f : App -> A) : M A := fun st => Some (f st, st).
Definition modify (f : App -> App) : M unit := fun st => Some (tt, f st).
Definition fault {A : Type} : M A := fun _ => None.

(** [a[i]] *)
Definition read {A : Type} (a : list A) (i : nat) : M A :=
  match nth_error a i with Some x => ret x | None => fault end.

Definition when (b : bool) (c : M unit) : M unit := if b then c else ret tt.

Fixpoint forEach {A : Type} (l : list A) (f : A -> M unit) : M unit :=
  match l with
  | [] => ret tt
  | x :: r => f x ;; forEach r f
  end.

(** The state a handler leaves. *)
Definition exec (c : M unit) (st : App) : option App :=
  match c st with Some (_, st') => Some st' | None => None end.

(** *** Variables *)

Definition var {T : Type} (x : Vars -> T) : M T := gets (fun st => x (mem st)).

Notation "x ::= v" := (modify (set mem (set x (fun _ => v))))
  (at level 60, right associativity) : js_scope.

(** *** Elements *)

Definition classList_contains (e : Elem) (c : Class) : M bool :=
  gets (fun st => classList (page st) e c).

Definition classList_put (e : Elem) (c : Class) (b : bool) : M unit :=
  modify (set page (set classList (fun cl e' c' =>
    if (Elem_beq e e' && Class_beq c c')%bool then b else cl e' c'))).

Definition classList_add (e : Elem) (c : Class) : M unit := classList_put e c true.
Definition classList_remove (e : Elem) (c : Class) : M unit := classList_put e c false.

Definition classList_toggle (e : Elem) (c : Class) : M bool :=
  b <- classList_contains e c ;;
  classList_put e c (negb b) ;;
  ret (negb b).

Definition disabled_put (e : Elem) (b : bool) : M unit :=
  modify (set page (set disabled (fun d e' => if Elem_beq e e' then b else d e'))).

Definition textContent_put (e : Elem) (s : string) : M unit :=
  modify (set page (set textContent (fun t e' => if Elem_beq e e' then s else t e'))).

Definition textContent_get (e : Elem) : M string :=
  gets (fun st => textContent (page st) e).

Definition value_put (e : Elem) (s : string) : M unit :=
  modify (set page (set value (fun t e' => if Elem_beq e e' then s else t e'))).

Definition value_get (e : Elem) : M string :=
  gets (fun st => value (page st) e).

(** *** The world *)

Definition alert (msg : string) : M unit :=
  modify (set world (set alerts (fun l => l ++ [msg]))).

(** [ai.models.generateContent] and [generateContentStream]: the request
    goes out. *)
Definition send (r : Request) : M unit :=
  modify (set world (set requests (fun l => l ++ [r]))).

(** [l] with its [i]-th element replaced by [f] of it. *)
Fixpoint adjust {A : Type} (f : A -> A) (i : nat) (l : list A) : list A :=
  match l, i with
  | [], _ => []
  | x :: r, O => f x :: r
  | x :: r, S j => x :: adjust f j r
  end.

(** ** IndexedDB *)

(** What the browser does with one database operation: whether opening the
    database succeeds (asked only while the handle is not set), and the
    name of the error of the request or transaction, if it fails. *)
Record DbOutcome := {
  opens : bool;
  fails : option string
}.

(** [store.put(item)] on an object store with key path [id]: insert, or
    replace the record of the same key; records are kept in key order. *)
Fixpoint store_put (item : HistoryItem) (s : list HistoryItem) : list HistoryItem :=
  match s with
  | [] => [item]
  | x :: r =>
      match String.compare (id item) (id x) with
      | Lt => item :: x :: r
      | Eq => item :: r
      | Gt => x :: store_put item r
      end
  end.

(** A promise settles with a value or is rejected with a reason. *)
Inductive Settled (A : Type) :=
  | Resolved (a : A)
  | RejectedWith (reason : string).
Arguments Resolved {A} a.
Arguments RejectedWith {A} reason.

Definition initDB (o : DbOutcome) : M (Settled unit) :=
  handle <- var db ;;
  if handle then ret (Resolved tt)
  else if opens o then db ::= true ;; ret (Resolved tt)
  else ret (RejectedWith "Error opening local study history database.").

Definition saveHistoryItem (o : DbOutcome) (item : HistoryItem) : M (Settled unit) :=
  r <- initDB o ;;
  match r with
  | RejectedWith e => ret (RejectedWith e)
  | Resolved _ =>
      match fails o with
      | None =>
          modify (set world (set store (store_put item))) ;;
          ret (Resolved tt)
      | Some nm =>
          if String.eqb nm "QuotaExceededError"
          then ret (RejectedWith "Local storage quota exceeded. Please clear some history or use smaller files.")
          else ret (RejectedWith "Error saving history item.")
      end
  end.

Definition clearHistoryDB (o : DbOutcome) : M (Settled unit) :=
  r <- initDB o ;;
  match r with
  | RejectedWith e => ret (RejectedWith e)
  | Resolved _ =>
      match fails o with
      | None =>
          modify (set world (set store (fun _ => []))) ;;
          ret (Resolved tt)
      | Some _ => ret (RejectedWith "Error clearing history from database.")
      end
  end.

(** ** What the user can reach *)

(** The markup of the page is not among the sources.  The nesting below is
    the one the handlers rely on when they show and hide containers: the
    quiz content and the quiz loader inside the quiz section, the result
    buttons inside the results section, the game container, loader and
    results inside the game section.  Elements without an entry are taken to
    be reachable whenever they are not hidden themselves. *)
Definition containers (e : Elem) : list Elem :=
  match e with
  | quizLoadingContainer | quizContentContainer => [quizSection]
  | quizLoadingStatus => [quizLoadingContainer; quizSection]
  | questionProgressEl | scoreDisplayEl | quizQuestionEl | quizOptionsEl
  | quizFeedbackEl | nextQuestionBtn => [quizContentContainer; quizSection]
  | finalScoreEl | reviewMistakesBtn | restartQuizBtn | exitQuizBtn => [resultsSection]
  | gameLoadingContainer | gameContainer | gameResultsSection => [gameSection]
  | gameLoadingStatus | exitGameLoadingBtn => [gameLoadingContainer; gameSection]
  | cardProgressEl | flashcardContainer | gameControls => [gameContainer; gameSection]
  | flashcardEl | flashcardTermEl | flashcardDefinitionEl =>
      [flashcardContainer; gameContainer; gameSection]
  | knewItBtn | didntKnowBtn => [gameControls; gameContainer; gameSection]
  | gameResultsHeadingEl | restartGameBtn | exitGameBtn => [gameResultsSection; gameSection]
  | _ => []
  end.

(** An element is displayed when neither it nor a container of it carries
    the class [hidden]. *)
Definition displayed (p : Page) (e : Elem) : bool :=
  forallb (fun a => negb (classList p a hidden)) (e :: containers e).

(** A control takes a click when it is displayed and not disabled. *)
Definition clickable (p : Page) (e : Elem) : bool :=
  (displayed p e && negb (disabled p e))%bool.

(** ** Replies of the model service *)

(** What a [catch] block receives: an [Error] with its message, or some
    other value. *)
Inductive Exn :=
  | JsError (message : string)
  | NotAnError.

(** How an awaited [generateContent] call ends: it rejects; or it resolves
    and [JSON.parse(response.text)] throws a [SyntaxError]; or the text
    parses, and [data] is the array under [questions] (or [flashcards]),
    [None] when the parsed value or that property is falsy. *)
Inductive Reply (A : Type) :=
  | Rejected (e : Exn)
  | Unparsable (message : string)
  | Parsed (data : option (list A)).
Arguments Rejected {A} e.
Arguments Unparsable {A} message.
Arguments Parsed {A} data.

(** How a block ends: it runs to its end, it returns from the listener,
    or it throws. *)
Inductive Completion :=
  | Normal
  | Return
  | Throw (e : Exn).

(** ** Events *)

(** What can happen to the page: the user acts on a control, or something
    the script waits for arrives. *)
Inductive Event :=
  | ChooseFile (f : option File)
  | ClickProcess
  | FileRead (run : nat) (r : option string) (now stamp : Z)
  | ItemSaved (run : nat) (o : DbOutcome)
  | TypeQuestion (s : string)
  | ClickAsk
  | AskChunk (run : nat) (text : string)
  | AskSettled (run : nat) (err : option string)
  | ClickStartQuiz
  | QuizReply (run : nat) (reply : Reply QuizQuestion)
  | QuizTimeout (run : nat)
  | ClickOption (button : nat)
  | ClickNext
  | ClickReviewMistakes
  | ClickRestartQuiz
  | ClickExitQuiz
  | ClickStartGame
  | GameReply (run : nat) (reply : Reply Flashcard)
  | GameTick (run : nat)
  | ClickExitGameLoading
  | ClickFlashcard
  | ClickKnewIt
  | ClickDidntKnow
  | ClickRestartGame
  | ClickExitGame
  | ClickClearHistory (confirmed : bool)
  | HistoryCleared (o : DbOutcome)
  | HistoryLoaded (o : DbOutcome)
  | ClickHistoryItem (li : nat)
  | ClickMenuToggle
  | ClickSidebarOverlay.

(** ** The first state *)

(** The state when the script has run: the variables at their
    initialisers, no child, listener or pending call of the script's
    making yet except the history load of [DOMContentLoaded]; [p] is the
    page as the markup gives it, [records] is what the object store holds
    from earlier visits. *)
Definition initial (p : Page) (records : list HistoryItem) : App := {|
  mem := {|
    activeFile := None; history := [];
    quizQuestions := []; incorrectAnswers := [];
    currentQuestionIndex := 0; score := 0; isReviewingMistakes := false;
    flashcards := []; currentCardIndex := 0; knownCardsCount := 0;
    db := false |};
  page := {|
    classList := classList p; disabled := disabled p;
    textContent := textContent p; value := value p;
    files := None; quizOptions := []; historyItems := historyItems p;
    abortListeners := [] |};
  world := {|
    store := records; alerts := []; requests := [];
    quizRuns := []; gameRuns := []; askRuns := []; uploads := [];
    pendingClears := 0; pendingLoads := 1 |}
|}.

(** ** Observations on states *)

(** The options of the question on display still take a click. *)
Definition anyEnabled (p : Page) : bool :=
  existsb (fun b => negb (btn_disabled b)) (quizOptions p).

(** The test of [showResults]:
    [score / quizQuestions.length < 0.6 && incorrectAnswers.length > 0]. *)
Definition reviewRule (m : Vars) : bool :=
  (JS.lt (JS.div (JS.of_nat (score m)) (JS.of_nat (length (quizQuestions m)))) JS.lit_0_6
   && Nat.ltb 0 (length (incorrectAnswers m)))%bool.

(** On every total up to [n] and every score up to the total, the test
    [score / total < 0.6] on binary64 numbers says what [5 * score < 3 * total]
    says on integers. *)
Definition percentageExactUpTo (n : nat) : bool :=
  forallb (fun total =>
    forallb (fun s =>
      Bool.eqb (JS.lt (JS.div (JS.of_nat s) (JS.of_nat total)) JS.lit_0_6)
               (Nat.ltb (5 * s) (3 * total)))
      (seq 0 (S total)))
    (seq 0 (S n)).

(** The review of mistakes is on offer: its button is displayed. *)
Definition reviewOffered (p : Page) : bool := displayed p reviewMistakesBtn.

(** The length of the sequence [currentQuestionIndex] runs over: the
    mistakes during a review, the questions otherwise. *)
Definition activeLength (m : Vars) : nat :=
  if isReviewingMistakes m then length (incorrectAnswers m) else length (quizQuestions m).

(** The page at rest: the ask view displayed, the game section hidden, the
    three start controls enabled. *)
Definition idle (p : Page) : bool :=
  (negb (classList p qaSection hidden) && classList p gameSection hidden
   && negb (disabled p askBtn) && negb (disabled p startQuizBtn)
   && negb (disabled p startGameBtn))%bool.

(** What the user selects on the questions [qs] when clicking the option
    buttons [ks], one per question in turn: the question and the text of the
    option.  [None] when there is no such question or no such button. *)
Fixpoint selections (qs : list QuizQuestion) (ks : list nat)
    : option (list (QuizQuestion * string)) :=
  match ks, qs with
  | [], _ => Some []
  | k :: ks', q :: qs' =>
      match nth_error (options q) k, selections qs' ks' with
      | Some o, Some r => Some ((q, o) :: r)
      | _, _ => None
      end
  | _ :: _, [] => None
  end.

(** The buttons [displayCurrentQuestion] creates for a question. *)
Definition freshOptions (q : QuizQuestion) : list OptionButton :=
  map (fun option => {|
    btn_text := option;
    btn_disabled := false;
    btn_correct := false;
    btn_incorrect := false;
    btn_listener := Some (option, correctAnswer q) |}) (options q).

(** The quiz presents the question [q]: it is the current question, its
    options are on display as created, and nothing in the markup keeps the
    user from [nextQuestionBtn]. *)
Record Presenting (st : App) (q : QuizQuestion) : Prop := {
  presenting_quiz : isReviewingMistakes (mem st) = false;
  presenting_question :
    nth_error (quizQuestions (mem st)) (currentQuestionIndex (mem st)) = Some q;
  presenting_options : quizOptions (page st) = freshOptions q;
  presenting_displayed : displayed (page st) quizOptionsEl = true;
  presenting_next : disabled (page st) nextQuestionBtn = false
}.

Definition mistakeOf (s : QuizQuestion * string) : Mistake :=
  {| mistake_question := fst s; selected := snd s |}.

(** Answering: a click on an option, then on [nextQuestionBtn], per
    question. *)
Definition answering (ks : list nat) : list Event :=
  flat_map (fun k => [ClickOption k; ClickNext]) ks.

(** Every run of the flashcard listener that was cancelled in [l] is still
    there, and cancelled, in [l']. *)
Definition keepsAborted (l l' : list GameRun) : Prop :=
  forall r g, nth_error l r = Some g -> aborted g = true ->
  exists g', nth_error l' r = Some g' /\ aborted g' = true.

(** The run [r] of the flashcard listener can be cancelled: it is awaited,
    it was not cancelled, and its cancel listener is registered. *)
Definition cancellable (r : nat) (st : App) : Prop :=
  exists g,
    nth_error (gameRuns (world st)) r = Some g /\
    awaiting g = true /\ aborted g = false /\
    In r (abortListeners (page st)).

(** What holds of the quiz and of the game in every state the page reaches
    (see [Inv_initial] and [Inv_step]). *)
Record Inv (st : App) : Prop := {
  inv_results_or_quiz :
    (displayed (page st) resultsSection && displayed (page st) quizContentContainer)%bool = false;
  inv_enabled :
    anyEnabled (page st) = true ->
    isReviewingMistakes (mem st) = false /\
    currentQuestionIndex (mem st) < length (quizQuestions (mem st)) /\
    score (mem st) + length (incorrectAnswers (mem st)) <= currentQuestionIndex (mem st) /\
    displayed (page st) resultsSection = false;
  inv_next_answered :
    classList (page st) nextQuestionBtn hidden = false -> anyEnabled (page st) = false;
  inv_next :
    displayed (page st) nextQuestionBtn = true ->
    currentQuestionIndex (mem st) < activeLength (mem st);
  inv_answered :
    displayed (page st) quizContentContainer = true ->
    isReviewingMistakes (mem st) = false ->
    score (mem st) + length (incorrectAnswers (mem st)) <= currentQuestionIndex (mem st) + 1;
  inv_total :
    score (mem st) + length (incorrectAnswers (mem st)) <= length (quizQuestions (mem st));
  inv_index :
    currentQuestionIndex (mem st) <= activeLength (mem st);
  inv_offer :
    displayed (page st) resultsSection = true ->
    classList (page st) reviewMistakesBtn hidden = negb (reviewRule (mem st));
  inv_results :
    displayed (page st) resultsSection = true -> 0 < length (quizQuestions (mem st));
  inv_review :
    isReviewingMistakes (mem st) = true ->
    reviewRule (mem st) = true /\ 0 < length (quizQuestions (mem st)) /\
    anyEnabled (page st) = false;
  inv_card :
    displayed (page st) gameContainer = true ->
    currentCardIndex (mem st) < length (flashcards (mem st));
  inv_game_results :
    displayed (page st) gameResultsSection = true ->
    currentCardIndex (mem st) <= length (flashcards (mem st))
}.

(** The page as the markup gives it shows neither the quiz, nor the results,
    nor the game. *)
Definition opening (p : Page) : bool :=
  (classList p quizSection hidden && classList p resultsSection hidden
   && classList p gameSection hidden)%bool.

(** ** Observations on the game, the side bar and the requests *)

(** The clicks of a player who goes through cards: each card is flipped and
    then answered, [true] for a click on [knewItBtn], [false] for one on
    [didntKnowBtn]. *)
Definition playing (knew : list bool) : list Event :=
  flat_map (fun b : bool => [ClickFlashcard; if b then ClickKnewIt else ClickDidntKnow]) knew.

(** A card of the game is on display, front up, and nothing in the markup
    keeps the user from the card and the two controls behind it. *)
Record CardShown (st : App) : Prop := {
  card_section : classList (page st) gameSection hidden = false;
  card_container : classList (page st) gameContainer hidden = false;
  card_flashcard : classList (page st) flashcardContainer hidden = false;
  card_front : classList (page st) flashcardEl is_flipped = false;
  card_knew :
    classList (page st) knewItBtn hidden = false /\ disabled (page st) knewItBtn = false;
  card_didnt :
    classList (page st) didntKnowBtn hidden = false /\ disabled (page st) didntKnowBtn = false;
  card_index : currentCardIndex (mem st) < length (flashcards (mem st))
}.

(** The heading of the game results for [k] known cards out of [n]. *)
Definition gameOver (k n : nat) : string :=
  "Game Over! You knew " ++ JS.show_nat k ++ " out of " ++ JS.show_nat n ++ " cards.".

(** The material a request carries. *)
Definition request_item (r : Request) : HistoryItem :=
  match r with
  | AskRequest item _ | QuizRequest item | FlashcardRequest item => item
  end.

(** The children [renderHistory] gives [historyList] for the history [h]
    with the active material [a]: a placeholder without listener when [h]
    is empty, otherwise an entry per item, marked active when the active
    material has its id. *)
Definition rendered (a : option HistoryItem) (h : list HistoryItem) : list HistoryLi :=
  match h with
  | [] => [{| li_text := "No history yet."; li_id := None; li_active := false |}]
  | _ =>
      map (fun item => {|
        li_text := name item;
        li_id := Some (id item);
        li_active := match a with
                     | Some af => String.eqb (id af) (id item)
                     | None => false
                     end |}) h
  end.

(** The three controls that start a question, a quiz and a game. *)
Definition starters : list Elem := [askBtn; startQuizBtn; startGameBtn].

(** The text of the quiz results for the score [s] out of [n]. *)
Definition finalScore (s n : nat) : string :=
  "Your final score is " ++ JS.show_nat s ++ " out of " ++ JS.show_nat n ++ ".".

(** What holds of the counts of the quiz and of the game and of their result
    texts in every state the page reaches (see [Tally_initial] and
    [Tally_step]). *)
Record Tally (st : App) : Prop := {
  tally_open :
    anyEnabled (page st) = true ->
    score (mem st) + length (incorrectAnswers (mem st)) = currentQuestionIndex (mem st);
  tally_answered :
    classList (page st) nextQuestionBtn hidden = false ->
    displayed (page st) quizContentContainer = true ->
    isReviewingMistakes (mem st) = false ->
    score (mem st) + length (incorrectAnswers (mem st)) = currentQuestionIndex (mem st) + 1;
  tally_results :
    displayed (page st) resultsSection = true ->
    score (mem st) + length (incorrectAnswers (mem st)) = length (quizQuestions (mem st));
  tally_review :
    isReviewingMistakes (mem st) = true ->
    score (mem st) + length (incorrectAnswers (mem st)) = length (quizQuestions (mem st));
  tally_final :
    displayed (page st) resultsSection = true ->
    textContent (page st) finalScoreEl
    = finalScore (score (mem st)) (length (quizQuestions (mem st)));
  tally_known : knownCardsCount (mem st) <= currentCardIndex (mem st);
  tally_done :
    displayed (page st) gameResultsSection = true ->
    length (flashcards (mem st)) <= currentCardIndex (mem st);
  tally_heading :
    displayed (page st) gameResultsSection = true ->
    textContent (page st) gameResultsHeadingEl
    = gameOver (knownCardsCount (mem st)) (length (flashcards (mem st)))
}.

(** Every interval of loading messages that still runs belongs to a
    generation that is awaited and was not cancelled. *)
Definition intervalsAwaited (l : list GameRun) : Prop :=
  forall r g, nth_error l r = Some g -> interval g = true ->
  awaiting g = true /\ aborted g = false.

(** The three start controls are enabled, or disabled, together. *)
Definition startersAgree (p : Page) : Prop :=
  disabled p startQuizBtn = disabled p askBtn /\
  disabled p startGameBtn = disabled p askBtn.

(** ** Sample data, for running the model *)

Module Sample.

(** A page whose markup hides the answer, quiz, results and game sections
    and disables the three start controls. *)
Definition page0 : Page := {|
  classList := fun e c =>
    match c, e with
    | hidden, (answerSection | quizSection | resultsSection | gameSection) => true
    | _, _ => false
    end;
  disabled := fun e =>
    match e with askBtn | startQuizBtn | startGameBtn => true | _ => false end;
  textContent := fun _ => EmptyString;
  value := fun _ => EmptyString;
  files := None; quizOptions := []; historyItems := []; abortListeners := [] |}.

(** Stand-ins for the two [Date] built-ins: the timestamp of an instant is
    its count of milliseconds in decimal, and the count is read back from
    it. *)
Definition toISOString (z : Z) : string := JS.show_Z z.
Definition getTime (s : string) : Z :=
  match NilZero.int_of_string s with Some i => Z.of_int i | None => 0%Z end.

Definition notes : File := {| file_name := "notes.txt"; file_type := "text/plain" |}.

Definition ok : DbOutcome := {| opens := true; fails := None |}.
Definition broken : DbOutcome := {| opens := true; fails := Some "UnknownError" |}.

Definition q1 : QuizQuestion :=
  {| question := "2 + 2 = ?"; options := ["3"; " 4 "; "5"; "6"]; correctAnswer := "4" |}.
Definition q2 : QuizQuestion :=
  {| question := "Capital of France?"; options := ["Paris"; "Rome"; "Oslo"; "Bern"];
     correctAnswer := "paris" |}.
Definition q3 : QuizQuestion :=
  {| question := "H2O is?"; options := ["Salt"; "Water"; "Sand"; "Air"];
     correctAnswer := "Water" |}.

Definition card1 : Flashcard := {| term := "Cell"; definition := "The unit of life." |}.

Definition item (i t : string) : HistoryItem :=
  {| id := i; name := "notes.txt"; content := "data:text/plain;base64,QQ=="; mimeType := "text/plain";
     timestamp := t |}.

(** A store of three records, not in the order of their timestamps. *)
Definition stored : App :=
  initial page0 [item "1" "1000"; item "2" "3000"; item "3" "2000"].

(** A state with two questions loaded, before [startQuiz]. *)
Definition ready : App :=
  set mem (set quizQuestions (fun _ => [q1; q2])) (initial page0 []).

(** A state in which the first run of the quiz listener awaits the
    service. *)
Definition loadingQuiz : App :=
  set world (set quizRuns (fun _ => [QuizAwaiting])) (initial page0 []).

(** The history load settles, and [notes.txt] is picked, read and saved. *)
Definition upload : list Event :=
  [ HistoryLoaded ok; ChooseFile (Some notes); ClickProcess;
    FileRead 0 (Some "data:text/plain;base64,QQ==") 1700 1701; ItemSaved 0 ok ].

(** A quiz of [q1] and [q2]: the first answered rightly, the second wrongly,
    up to the results. *)
Definition quiz12 : list Event :=
  upload ++ [ ClickStartQuiz; QuizReply 0 (Parsed (Some [q1; q2]));
              ClickOption 1; ClickNext; ClickOption 1; ClickNext ].

(** A game of one card, up to its results. *)
Definition game1 : list Event :=
  upload ++ [ ClickStartGame; GameReply 0 (Parsed (Some [card1]));
              ClickFlashcard; ClickKnewIt ].

Definition card2 : Flashcard := {| term := "Gene"; definition := "A unit of heredity." |}.

(** A file is picked and [processBtn] clicked: the read is awaited. *)
Definition reading : list Event := [ HistoryLoaded ok; ChooseFile (Some notes); ClickProcess ].

(** A question is typed and asked: the answer is awaited. *)
Definition asking : list Event := upload ++ [ TypeQuestion " What is a cell? "; ClickAsk ].

(** The flashcard generation is awaited. *)
Definition loadingGame : list Event := upload ++ [ ClickStartGame ].

(** A game of two cards, the first one on display. *)
Definition game2 : list Event :=
  loadingGame ++ [ GameReply 0 (Parsed (Some [card1; card2])) ].

End Sample.

(** ** The script *)

Section Program.

(** Built-ins of the runtime that the script calls: [String.prototype.trim]
    and [toLowerCase], [Date.prototype.toISOString] of an instant in
    milliseconds, and [new Date(s).getTime()] of a timestamp string. *)
Variable trim : string -> string.
Variable toLowerCase : string -> string.
Variable toISOString : Z -> string.
Variable getTime : string -> Z.

(** *** IndexedDB history logic *)

Definition loadHistoryFromDB (o : DbOutcome) : M (Settled (list HistoryItem)) :=
  r <- initDB o ;;
  match r with
  | RejectedWith e => ret (RejectedWith e)
  | Resolved _ =>
      match fails o with
      | None =>
          result <- gets (fun st => store (world st)) ;;
          let sortedHistory :=
            JS.sort (fun a b => getTime (timestamp b) - getTime (timestamp a))%Z result in
          ret (Resolved sortedHistory)
      | Some _ => ret (RejectedWith "Error loading history from database.")
      end
  end.

Definition appendHistoryLi (li : HistoryLi) : M unit :=
  modify (set page (set historyItems (fun l => l ++ [li]))).

Definition renderHistory : M unit :=
  modify (set page (set historyItems (fun _ => []))) ;;
  h <- var history ;;
  if Nat.eqb (length h) 0
  then appendHistoryLi {| li_text := "No history yet."; li_id := None; li_active := false |}
  else
    forEach h (fun item =>
      a <- var activeFile ;;
      appendHistoryLi {|
        li_text := name item;
        li_id := Some (id item);
        li_active := match a with
                     | Some af => String.eqb (id af) (id item)
                     | None => false
                     end |}).

Definition closeSidebar : M unit :=
  isOpen <- classList_contains appContainer sidebar_open ;;
  when isOpen (classList_remove appContainer sidebar_open).

Definition toggleSidebar : M unit :=
  _ <- classList_toggle appContainer sidebar_open ;; ret tt.

Definition loadHistoryItem (i : string) : M unit :=
  h <- var history ;;
  match find (fun x => String.eqb (id x) i) h with
  | Some item =>
      activeFile ::= Some item ;;
      textContent_put statusEl ("Active material: " ++ JS.dquote ++ name item ++ JS.dquote) ;;
      value_put questionInput EmptyString ;;
      classList_add answerSection hidden ;;
      classList_add quizSection hidden ;;
      classList_add resultsSection hidden ;;
      classList_add gameSection hidden ;;
      classList_remove qaSection hidden ;;
      disabled_put askBtn false ;;
      disabled_put startQuizBtn false ;;
      disabled_put startGameBtn false ;;
      renderHistory ;;
      closeSidebar
  | None => ret tt
  end.

(** [clearHistory] up to its [await]. *)
Definition clearHistory (confirmed : bool) : M unit :=
  when confirmed (modify (set world (set pendingClears S))).

(** [clearHistory] from the moment [clearHistoryDB()] settles. *)
Definition clearHistory_settled (o : DbOutcome) : M unit :=
  modify (set world (set pendingClears Nat.pred)) ;;
  r <- clearHistoryDB o ;;
  match r with
  | Resolved _ =>
      history ::= [] ;;
      activeFile ::= None ;;
      renderHistory ;;
      textContent_put statusEl "History cleared." ;;
      disabled_put askBtn true ;;
      disabled_put startQuizBtn true ;;
      disabled_put startGameBtn true
  | RejectedWith _ =>
      textContent_put statusEl "Error clearing history."
  end.

(** The [DOMContentLoaded] listener from the moment [loadHistoryFromDB()]
    settles. *)
Definition DOMContentLoaded_settled (o : DbOutcome) : M unit :=
  modify (set world (set pendingLoads Nat.pred)) ;;
  r <- loadHistoryFromDB o ;;
  match r with
  | Resolved h => history ::= h ;; renderHistory
  | RejectedWith _ =>
      textContent_put statusEl "Could not load study history from the local database."
  end.

(** *** Upload *)

Definition chooseFileLabel : string := "Choose a file (.txt, .pdf, .docx)".

(** The user picks a file, or none; then the [change] listener. *)
Definition fileInput_change (f : option File) : M unit :=
  modify (set page (set files (fun _ => f))) ;;
  match f with
  | Some file => textContent_put fileInputLabel (file_name file)
  | None => textContent_put fileInputLabel chooseFileLabel
  end.

Definition setUpload (run : nat) (u : Upload) : M unit :=
  modify (set world (set uploads (adjust (fun _ => u) run))).

Definition processBtn_click : M unit :=
  f <- gets (fun st => files (page st)) ;;
  match f with
  | None => textContent_put statusEl "Please select a file first!"
  | Some file =>
      textContent_put statusEl "Processing file..." ;;
      modify (set world (set uploads (fun l => l ++ [UploadReading file])))
  end.

(** The [catch] block; [err] is the reason when it is a string or the
    message when it is an [Error]. *)
Definition processBtn_catch (err : option string) : M unit :=
  activeFile ::= None ;;
  textContent_put statusEl
    match err with Some m => m | None => "Error reading or saving file." end ;;
  disabled_put askBtn true ;;
  disabled_put startQuizBtn true ;;
  disabled_put startGameBtn true.

(** From the moment [fileToBase64(file)] settles, at the instants [now]
    and [stamp] of the two clock reads. *)
Definition processBtn_read (run : nat) (file : File) (r : option string) (now stamp : Z) : M unit :=
  match r with
  | Some fileContent =>
      let newHistoryItem := {|
        id := JS.show_Z now;
        name := file_name file;
        content := fileContent;
        mimeType := JS.or_else (file_type file) "application/octet-stream";
        timestamp := toISOString stamp |} in
      h <- var history ;;
      history ::= newHistoryItem :: h ;;
      setUpload run (UploadSaving file newHistoryItem)
  | None =>
      setUpload run UploadOver ;;
      processBtn_catch None
  end.

(** From the moment [saveHistoryItem(newHistoryItem)] settles. *)
Definition processBtn_saved (run : nat) (file : File) (newHistoryItem : HistoryItem)
    (o : DbOutcome) : M unit :=
  setUpload run UploadOver ;;
  r <- saveHistoryItem o newHistoryItem ;;
  match r with
  | Resolved _ =>
      activeFile ::= Some newHistoryItem ;;
      textContent_put statusEl
        ("File " ++ JS.dquote ++ file_name file ++ JS.dquote ++ " processed successfully!") ;;
      disabled_put askBtn false ;;
      disabled_put startQuizBtn false ;;
      disabled_put startGameBtn false ;;
      renderHistory ;;
      value_put fileInput EmptyString ;;
      modify (set page (set files (fun _ => None))) ;;
      textContent_put fileInputLabel chooseFileLabel
  | RejectedWith e => processBtn_catch (Some e)
  end.

(** The history item [processBtn] builds for [file] read as [fileContent],
    at the instants [now] and [stamp] of its two clock reads. *)
Definition uploaded (file : File) (fileContent : string) (now stamp : Z) : HistoryItem := {|
  id := JS.show_Z now;
  name := file_name file;
  content := fileContent;
  mimeType := JS.or_else (file_type file) "application/octet-stream";
  timestamp := toISOString stamp |}.

(** The reason [saveHistoryItem] rejects with. *)
Definition saveFailure (st : App) (o : DbOutcome) : option string :=
  if (negb (db (mem st)) && negb (opens o))%bool
  then Some "Error opening local study history database."
  else match fails o with
       | None => None
       | Some nm =>
           if String.eqb nm "QuotaExceededError"
           then Some "Local storage quota exceeded. Please clear some history or use smaller files."
           else Some "Error saving history item."
       end.

(** *** Ask *)

Definition setAsk (run : nat) (a : AskRun) : M unit :=
  modify (set world (set askRuns (adjust (fun _ => a) run))).

Definition askBtn_click : M unit :=
  v <- value_get questionInput ;;
  let q := trim v in
  a <- var activeFile ;;
  match a with
  | None => alert "Please upload and process your study material first!"
  | Some af =>
      match q with
      | EmptyString => alert "Please enter a question!"
      | _ =>
          classList_remove answerSection hidden ;;
          classList_add answerSection thinking ;;
          textContent_put answerEl EmptyString ;;
          disabled_put askBtn true ;;
          disabled_put questionInput true ;;
          disabled_put startQuizBtn true ;;
          disabled_put startGameBtn true ;;
          send (AskRequest af q) ;;
          modify (set world (set askRuns (fun l => l ++ [AskAwaiting])))
      end
  end.

(** One chunk of the response stream. *)
Definition askBtn_chunk (text : string) : M unit :=
  t <- textContent_get answerEl ;;
  textContent_put answerEl (t ++ text).

(** The stream ends, or the call or the stream fails with a message. *)
Definition askBtn_settled (run : nat) (err : option string) : M unit :=
  setAsk run AskOver ;;
  match err with
  | Some m =>
      textContent_put answerEl
        ("An error occurred while fetching the answer. Please try again. " ++ JS.newline ++ m)
  | None => ret tt
  end ;;
  disabled_put askBtn false ;;
  disabled_put questionInput false ;;
  disabled_put startQuizBtn false ;;
  disabled_put startGameBtn false ;;
  classList_remove answerSection thinking.


(** *** Quiz logic *)

(** The comparison of [handleOptionClick] and [displayMistake]:
    [a.trim().toLowerCase() === b.trim().toLowerCase()]. *)
Definition sameAnswer (a b : string) : bool :=
  String.eqb (toLowerCase (trim a)) (toLowerCase (trim b)).

(** A selection is right, by that comparison. *)
Definition selectedRightly (s : QuizQuestion * string) : bool :=
  sameAnswer (snd s) (correctAnswer (fst s)).

Definition appendOption (b : OptionButton) : M unit :=
  modify (set page (set quizOptions (fun l => l ++ [b]))).

Definition displayCurrentQuestion : M unit :=
  qs <- var quizQuestions ;;
  if Nat.eqb (length qs) 0 then ret tt
  else
    i <- var currentQuestionIndex ;;
    q <- read qs i ;;
    textContent_put quizFeedbackEl EmptyString ;;
    modify (set page (set quizOptions (fun _ => []))) ;;
    classList_add nextQuestionBtn hidden ;;
    classList_remove scoreDisplayEl hidden ;;
    textContent_put questionProgressEl
      ("Question " ++ JS.show_nat (i + 1) ++ " of " ++ JS.show_nat (length qs)) ;;
    s <- var score ;;
    textContent_put scoreDisplayEl ("Score: " ++ JS.show_nat s) ;;
    textContent_put quizQuestionEl (question q) ;;
    forEach (options q) (fun option =>
      appendOption {|
        btn_text := option;
        btn_disabled := false;
        btn_correct := false;
        btn_incorrect := false;
        btn_listener := Some (option, correctAnswer q) |}).

Definition startQuiz : M unit :=
  currentQuestionIndex ::= 0 ;;
  score ::= 0 ;;
  incorrectAnswers ::= [] ;;
  isReviewingMistakes ::= false ;;
  classList_add resultsSection hidden ;;
  classList_add reviewMistakesBtn hidden ;;
  classList_remove quizSection hidden ;;
  classList_remove quizContentContainer hidden ;;
  classList_add quizLoadingContainer hidden ;;
  displayCurrentQuestion.

(** [button] is the position of the clicked button among the options. *)
Definition handleOptionClick (selectedAnswer correctAnswer : string) (button : nat) : M unit :=
  let isCorrect := sameAnswer selectedAnswer correctAnswer in
  (if isCorrect then
     s <- var score ;;
     score ::= S s ;;
     textContent_put quizFeedbackEl "Correct!" ;;
     modify (set page (set quizOptions (adjust (fun b => {|
       btn_text := btn_text b; btn_disabled := btn_disabled b;
       btn_correct := true; btn_incorrect := btn_incorrect b;
       btn_listener := btn_listener b |}) button)))
   else
     textContent_put quizFeedbackEl ("Incorrect! The correct answer was: " ++ correctAnswer) ;;
     modify (set page (set quizOptions (adjust (fun b => {|
       btn_text := btn_text b; btn_disabled := btn_disabled b;
       btn_correct := btn_correct b; btn_incorrect := true;
       btn_listener := btn_listener b |}) button))) ;;
     qs <- var quizQuestions ;;
     i <- var currentQuestionIndex ;;
     q <- read qs i ;;
     ia <- var incorrectAnswers ;;
     incorrectAnswers ::= ia ++ [{| mistake_question := q; selected := selectedAnswer |}]) ;;
  modify (set page (set quizOptions (map (fun b => {|
    btn_text := btn_text b;
    btn_disabled := true;
    btn_correct := (btn_correct b || sameAnswer (btn_text b) correctAnswer)%bool;
    btn_incorrect := btn_incorrect b;
    btn_listener := btn_listener b |})))) ;;
  s <- var score ;;
  textContent_put scoreDisplayEl ("Score: " ++ JS.show_nat s) ;;
  classList_remove nextQuestionBtn hidden.

Definition showResults : M unit :=
  classList_add quizSection hidden ;;
  classList_remove resultsSection hidden ;;
  s <- var score ;;
  qs <- var quizQuestions ;;
  textContent_put finalScoreEl
    ("Your final score is " ++ JS.show_nat s ++ " out of " ++ JS.show_nat (length qs) ++ ".") ;;
  let scorePercentage := JS.div (JS.of_nat s) (JS.of_nat (length qs)) in
  ia <- var incorrectAnswers ;;
  if (JS.lt scorePercentage JS.lit_0_6 && Nat.ltb 0 (length ia))%bool
  then classList_remove reviewMistakesBtn hidden
  else classList_add reviewMistakesBtn hidden.

Definition displayMistake : M unit :=
  ia <- var incorrectAnswers ;;
  i <- var currentQuestionIndex ;;
  mistake <- read ia i ;;
  textContent_put quizFeedbackEl EmptyString ;;
  modify (set page (set quizOptions (fun _ => []))) ;;
  classList_remove nextQuestionBtn hidden ;;
  classList_add scoreDisplayEl hidden ;;
  textContent_put questionProgressEl
    ("Reviewing Mistake " ++ JS.show_nat (i + 1) ++ " of " ++ JS.show_nat (length ia)) ;;
  textContent_put quizQuestionEl (question (mistake_question mistake)) ;;
  forEach (options (mistake_question mistake)) (fun option =>
    appendOption {|
      btn_text := option;
      btn_disabled := true;
      btn_correct := sameAnswer option (correctAnswer (mistake_question mistake));
      btn_incorrect := sameAnswer option (selected mistake);
      btn_listener := None |}).

(** The buttons [displayMistake] creates for a mistake. *)
Definition reviewOptions (mistake : Mistake) : list OptionButton :=
  map (fun option => {|
    btn_text := option;
    btn_disabled := true;
    btn_correct := sameAnswer option (correctAnswer (mistake_question mistake));
    btn_incorrect := sameAnswer option (selected mistake);
    btn_listener := None |}) (options (mistake_question mistake)).

(** The review shows the mistake [mistake], the one at position [j] of the
    log. *)
Record Reviewing (st : App) (j : nat) (mistake : Mistake) : Prop := {
  reviewing_on : isReviewingMistakes (mem st) = true;
  reviewing_index : currentQuestionIndex (mem st) = j;
  reviewing_mistake : nth_error (incorrectAnswers (mem st)) j = Some mistake;
  reviewing_next : clickable (page st) nextQuestionBtn = true;
  reviewing_question :
    textContent (page st) quizQuestionEl = question (mistake_question mistake);
  reviewing_progress :
    textContent (page st) questionProgressEl
    = ("Reviewing Mistake " ++ JS.show_nat (j + 1) ++ " of "
       ++ JS.show_nat (length (incorrectAnswers (mem st))))%string;
  reviewing_options : quizOptions (page st) = reviewOptions mistake;
  reviewing_score : classList (page st) scoreDisplayEl hidden = true
}.

Definition nextQuestionBtn_click : M unit :=
  i <- var currentQuestionIndex ;;
  currentQuestionIndex ::= S i ;;
  reviewing <- var isReviewingMistakes ;;
  i <- var currentQuestionIndex ;;
  if reviewing then
    ia <- var incorrectAnswers ;;
    if Nat.ltb i (length ia) then displayMistake
    else isReviewingMistakes ::= false ;; showResults
  else
    qs <- var quizQuestions ;;
    if Nat.ltb i (length qs) then displayCurrentQuestion
    else showResults.

Definition reviewMistakesBtn_click : M unit :=
  isReviewingMistakes ::= true ;;
  currentQuestionIndex ::= 0 ;;
  classList_add resultsSection hidden ;;
  classList_remove quizSection hidden ;;
  classList_remove quizContentContainer hidden ;;
  displayMistake.

Definition restartQuizBtn_click : M unit := startQuiz.

Definition exitQuizBtn_click : M unit :=
  classList_add resultsSection hidden ;;
  classList_remove qaSection hidden ;;
  quizQuestions ::= [] ;;
  incorrectAnswers ::= [] ;;
  currentQuestionIndex ::= 0 ;;
  score ::= 0 ;;
  isReviewingMistakes ::= false.

Definition setQuizRun (run : nat) (r : QuizRun) : M unit :=
  modify (set world (set quizRuns (adjust (fun _ => r) run))).

(** The [startQuizBtn] listener up to its [await]. *)
Definition startQuizBtn_click : M unit :=
  a <- var activeFile ;;
  match a with
  | None => alert "Please upload and process your study material first!"
  | Some af =>
      classList_add qaSection hidden ;;
      classList_add answerSection hidden ;;
      classList_remove quizSection hidden ;;
      classList_add quizContentContainer hidden ;;
      classList_remove quizLoadingContainer hidden ;;
      textContent_put quizLoadingStatus "Generating quiz..." ;;
      disabled_put askBtn true ;;
      disabled_put startQuizBtn true ;;
      disabled_put startGameBtn true ;;
      send (QuizRequest af) ;;
      modify (set world (set quizRuns (fun l => l ++ [QuizAwaiting])))
  end.

(** The [try] block from the moment the call settles; the result is what
    it throws, if it throws. *)
Definition startQuizBtn_try (reply : Reply QuizQuestion) : M (option Exn) :=
  match reply with
  | Rejected e => ret (Some e)
  | Unparsable m => ret (Some (JsError m))
  | Parsed (Some (q :: qs)) =>
      quizQuestions ::= q :: qs ;;
      classList_add quizLoadingContainer hidden ;;
      classList_remove quizContentContainer hidden ;;
      startQuiz ;;
      ret None
  | Parsed _ => ret (Some (JsError "Invalid quiz format received from AI."))
  end.

(** The [startQuizBtn] listener from the moment the call settles: [try],
    [catch], [finally]. *)
Definition startQuizBtn_settled (run : nat) (reply : Reply QuizQuestion) : M unit :=
  setQuizRun run QuizOver ;;
  thrown <- startQuizBtn_try reply ;;
  match thrown with
  | Some _ =>
      textContent_put quizLoadingStatus
        "Could not generate a quiz. The material might be too short or unsupported. Please try again with a different file." ;;
      setQuizRun run QuizNotice
  | None => ret tt
  end ;;
  disabled_put askBtn false ;;
  disabled_put startQuizBtn false ;;
  disabled_put startGameBtn false.

(** The callback of [setTimeout(..., 3000)] in the [catch] block. *)
Definition startQuizBtn_timeout (run : nat) : M unit :=
  setQuizRun run QuizOver ;;
  classList_add quizSection hidden ;;
  classList_remove qaSection hidden.

(** *** Flashcard game logic *)

Definition loadingMessages : list string :=
  [ "Analyzing your document...";
    "Identifying key concepts...";
    "Crafting flashcard definitions...";
    "Building the flashcard deck...";
    "Just a moment more..." ].

Definition noFlashcards : string :=
  "No flashcards were generated. The material might be too short or unsuitable.".

Definition getGameRun (run : nat) : M GameRun :=
  l <- gets (fun st => gameRuns (world st)) ;;
  read l run.

Definition setGameRun (run : nat) (f : GameRun -> GameRun) : M unit :=
  modify (set world (set gameRuns (adjust f run))).

(** [clearInterval(loadingInterval)] *)
Definition clearInterval (run : nat) : M unit :=
  setGameRun run (fun g => {|
    awaiting := awaiting g; aborted := aborted g; interval := false;
    messageIndex := messageIndex g |}).

Definition showGameResults : M unit :=
  classList_add gameContainer hidden ;;
  classList_remove gameResultsSection hidden ;;
  k <- var knownCardsCount ;;
  fc <- var flashcards ;;
  textContent_put gameResultsHeadingEl
    ("Game Over! You knew " ++ JS.show_nat k ++ " out of " ++ JS.show_nat (length fc) ++ " cards.").

Definition displayCurrentCard : M unit :=
  i <- var currentCardIndex ;;
  fc <- var flashcards ;;
  if Nat.leb (length fc) i then showGameResults
  else
    classList_remove flashcardEl is_flipped ;;
    classList_add gameControls hidden ;;
    card <- read fc i ;;
    textContent_put cardProgressEl
      ("Card " ++ JS.show_nat (i + 1) ++ " of " ++ JS.show_nat (length fc)) ;;
    textContent_put flashcardTermEl (term card) ;;
    textContent_put flashcardDefinitionEl (definition card).

Definition startGame : M unit :=
  currentCardIndex ::= 0 ;;
  knownCardsCount ::= 0 ;;
  classList_remove gameContainer hidden ;;
  classList_add gameResultsSection hidden ;;
  displayCurrentCard.

Definition advanceCard : M unit :=
  i <- var currentCardIndex ;;
  currentCardIndex ::= S i ;;
  displayCurrentCard.

Definition flashcardContainer_click : M unit :=
  flipped <- classList_toggle flashcardEl is_flipped ;;
  if flipped then classList_remove gameControls hidden
  else classList_add gameControls hidden.

Definition knewItBtn_click : M unit :=
  k <- var knownCardsCount ;;
  knownCardsCount ::= S k ;;
  advanceCard.

Definition didntKnowBtn_click : M unit := advanceCard.

Definition restartGameBtn_click : M unit := startGame.

Definition exitGameBtn_click : M unit :=
  classList_add gameSection hidden ;;
  classList_remove qaSection hidden ;;
  flashcards ::= [] ;;
  disabled_put askBtn false ;;
  disabled_put startQuizBtn false ;;
  disabled_put startGameBtn false.

(** The [abortHandler] of the run [run]. *)
Definition abortHandler (run : nat) : M unit :=
  setGameRun run (fun g => {|
    awaiting := awaiting g; aborted := true; interval := interval g;
    messageIndex := messageIndex g |}) ;;
  clearInterval run ;;
  classList_add gameLoadingContainer hidden ;;
  classList_remove qaSection hidden ;;
  classList_add gameSection hidden ;;
  disabled_put askBtn false ;;
  disabled_put startQuizBtn false ;;
  disabled_put startGameBtn false.

(** A click on [exitGameLoadingBtn]: every registered [abortHandler] runs,
    in the order of registration; each was registered with [once]. *)
Definition exitGameLoadingBtn_click : M unit :=
  listeners <- gets (fun st => abortListeners (page st)) ;;
  modify (set page (set abortListeners (fun _ => []))) ;;
  forEach listeners abortHandler.

(** [exitGameLoadingBtn.removeEventListener('click', abortHandler)] *)
Definition removeAbortListener (run : nat) : M unit :=
  modify (set page (set abortListeners (filter (fun r => negb (Nat.eqb r run))))).

(** The [startGameBtn] listener up to its [await]. *)
Definition startGameBtn_click : M unit :=
  a <- var activeFile ;;
  match a with
  | None => alert "Please upload and process your study material first!"
  | Some af =>
      classList_add qaSection hidden ;;
      classList_add answerSection hidden ;;
      classList_remove gameSection hidden ;;
      classList_add gameContainer hidden ;;
      classList_add gameResultsSection hidden ;;
      classList_remove gameLoadingContainer hidden ;;
      disabled_put askBtn true ;;
      disabled_put startQuizBtn true ;;
      disabled_put startGameBtn true ;;
      textContent_put exitGameLoadingBtn "Cancel" ;;
      m <- read loadingMessages 0 ;;
      textContent_put gameLoadingStatus m ;;
      run <- gets (fun st => length (gameRuns (world st))) ;;
      modify (set world (set gameRuns (fun l => l ++
        [{| awaiting := true; aborted := false; interval := true; messageIndex := 0 |}]))) ;;
      modify (set page (set abortListeners (fun l => l ++ [run]))) ;;
      send (FlashcardRequest af)
  end.

(** The callback of [setInterval(..., 3000)]. *)
Definition startGameBtn_tick (run : nat) : M unit :=
  g <- getGameRun run ;;
  let messageIndex' := Nat.modulo (messageIndex g + 1) (length loadingMessages) in
  setGameRun run (fun g => {|
    awaiting := awaiting g; aborted := aborted g; interval := interval g;
    messageIndex := messageIndex' |}) ;;
  m <- read loadingMessages messageIndex' ;;
  textContent_put gameLoadingStatus m.


(** The [try] block from the moment the call settles. *)
Definition startGameBtn_try (run : nat) (reply : Reply Flashcard) : M Completion :=
  match reply with
  | Rejected e => ret (Throw e)
  | _ =>
      g <- getGameRun run ;;
      if aborted g then ret Return
      else
        clearInterval run ;;
        removeAbortListener run ;;
        match reply with
        | Parsed (Some (c :: cs)) =>
            flashcards ::= c :: cs ;;
            classList_add gameLoadingContainer hidden ;;
            classList_remove gameContainer hidden ;;
            startGame ;;
            ret Normal
        | Unparsable m => ret (Throw (JsError m))
        | _ => ret (Throw (JsError noFlashcards))
        end
  end.

Definition startGameBtn_catch (run : nat) (err : Exn) : M unit :=
  g <- getGameRun run ;;
  if aborted g then ret tt
  else
    clearInterval run ;;
    textContent_put gameLoadingStatus
      match err with
      | JsError m => m
      | NotAnError => "Could not generate flashcards. Please try again or cancel."
      end ;;
    textContent_put exitGameLoadingBtn "Exit".

(** The [startGameBtn] listener from the moment the call settles. *)
Definition startGameBtn_settled (run : nat) (reply : Reply Flashcard) : M unit :=
  setGameRun run (fun g => {|
    awaiting := false; aborted := aborted g; interval := interval g;
    messageIndex := messageIndex g |}) ;;
  c <- startGameBtn_try run reply ;;
  match c with
  | Throw e => startGameBtn_catch run e
  | _ => ret tt
  end.

(** The message the [catch] block of the flashcard listener shows. *)
Definition gameFailureText (reply : Reply Flashcard) : string :=
  match reply with
  | Rejected (JsError m) | Unparsable m => m
  | Rejected NotAnError => "Could not generate flashcards. Please try again or cancel."
  | Parsed _ => noFlashcards
  end.

(** *** Dispatch *)

(** The listener an event runs, when the event can happen in the state:
    a click needs a control that takes it, an arrival needs a run that
    waits for it. *)
Definition listener (ev : Event) (st : App) : option (M unit) :=
  let p := page st in
  let w := world st in
  let on (b : bool) (c : M unit) := if b then Some c else None in
  match ev with
  | ChooseFile f => on (clickable p fileInput) (fileInput_change f)
  | ClickProcess => on (clickable p processBtn) processBtn_click
  | FileRead run r now stamp =>
      match nth_error (uploads w) run with
      | Some (UploadReading file) => Some (processBtn_read run file r now stamp)
      | _ => None
      end
  | ItemSaved run o =>
      match nth_error (uploads w) run with
      | Some (UploadSaving file item) => Some (processBtn_saved run file item o)
      | _ => None
      end
  | TypeQuestion s => on (clickable p questionInput) (value_put questionInput s)
  | ClickAsk => on (clickable p askBtn) askBtn_click
  | AskChunk run text =>
      match nth_error (askRuns w) run with
      | Some AskAwaiting => Some (askBtn_chunk text)
      | _ => None
      end
  | AskSettled run err =>
      match nth_error (askRuns w) run with
      | Some AskAwaiting => Some (askBtn_settled run err)
      | _ => None
      end
  | ClickStartQuiz => on (clickable p startQuizBtn) startQuizBtn_click
  | QuizReply run reply =>
      match nth_error (quizRuns w) run with
      | Some QuizAwaiting => Some (startQuizBtn_settled run reply)
      | _ => None
      end
  | QuizTimeout run =>
      match nth_error (quizRuns w) run with
      | Some QuizNotice => Some (startQuizBtn_timeout run)
      | _ => None
      end
  | ClickOption button =>
      match nth_error (quizOptions p) button with
      | Some b =>
          match btn_listener b with
          | Some (option, correctAnswer) =>
              on (displayed p quizOptionsEl && negb (btn_disabled b))%bool
                 (handleOptionClick option correctAnswer button)
          | None => None
          end
      | None => None
      end
  | ClickNext => on (clickable p nextQuestionBtn) nextQuestionBtn_click
  | ClickReviewMistakes => on (clickable p reviewMistakesBtn) reviewMistakesBtn_click
  | ClickRestartQuiz => on (clickable p restartQuizBtn) restartQuizBtn_click
  | ClickExitQuiz => on (clickable p exitQuizBtn) exitQuizBtn_click
  | ClickStartGame => on (clickable p startGameBtn) startGameBtn_click
  | GameReply run reply =>
      match nth_error (gameRuns w) run with
      | Some g => on (awaiting g) (startGameBtn_settled run reply)
      | None => None
      end
  | GameTick run =>
      match nth_error (gameRuns w) run with
      | Some g => on (interval g) (startGameBtn_tick run)
      | None => None
      end
  | ClickExitGameLoading => on (clickable p exitGameLoadingBtn) exitGameLoadingBtn_click
  | ClickFlashcard => on (displayed p flashcardContainer) flashcardContainer_click
  | ClickKnewIt => on (clickable p knewItBtn) knewItBtn_click
  | ClickDidntKnow => on (clickable p didntKnowBtn) didntKnowBtn_click
  | ClickRestartGame => on (clickable p restartGameBtn) restartGameBtn_click
  | ClickExitGame => on (clickable p exitGameBtn) exitGameBtn_click
  | ClickClearHistory confirmed => on (clickable p clearHistoryBtn) (clearHistory confirmed)
  | HistoryCleared o => on (Nat.ltb 0 (pendingClears w)) (clearHistory_settled o)
  | HistoryLoaded o => on (Nat.ltb 0 (pendingLoads w)) (DOMContentLoaded_settled o)
  | ClickHistoryItem li =>
      match nth_error (historyItems p) li with
      | Some {| li_id := Some i |} => on (displayed p historyList) (loadHistoryItem i)
      | _ => None
      end
  | ClickMenuToggle => on (clickable p menuToggleBtn) toggleSidebar
  | ClickSidebarOverlay => on (displayed p sidebarOverlay) closeSidebar
  end.

(** One event: the state afterwards ([None] when the listener reads
    outside an array).  An event that cannot happen leaves the state as it
    is. *)
Definition step (ev : Event) (st : App) : option App :=
  match listener ev st with
  | Some c => exec c st
  | None => Some st
  end.

(** A sequence of events, one after the other. *)
Fixpoint run (evs : list Event) (st : App) : option App :=
  match evs with
  | [] => Some st
  | ev :: rest =>
      match step ev st with
      | Some st' => run rest st'
      | None => None
      end
  end.

(** The states the page can be in, started from [st0]. *)
Inductive reachable (st0 : App) : App -> Prop :=
  | reachable_start : reachable st0 st0
  | reachable_step st ev st' :
      reachable st0 st -> step ev st = Some st' -> reachable st0 st'.

(** * Facts *)

Arguments JS.lt : simpl never.
Arguments JS.div : simpl never.
Arguments JS.of_nat : simpl never.
Arguments JS.show_nat : simpl never.
Arguments JS.show_Z : simpl never.
Arguments String.append : simpl never.
Arguments String.eqb : simpl never.
Arguments JS.sort : simpl never.
Arguments Nat.modulo : simpl never.

(** ** Running handlers symbolically *)

Ltac unfold_js :=
  cbv beta iota zeta delta
    [step listener exec bind ret gets modify var when fault read
     classList_contains classList_put classList_add classList_remove classList_toggle
     disabled_put textContent_put textContent_get value_put value_get alert send
     initDB saveHistoryItem clearHistoryDB loadHistoryFromDB
     closeSidebar toggleSidebar loadHistoryItem clearHistory clearHistory_settled
     DOMContentLoaded_settled fileInput_change setUpload processBtn_click processBtn_catch
     processBtn_read processBtn_saved setAsk askBtn_click askBtn_chunk askBtn_settled
     showResults displayMistake displayCurrentQuestion startQuiz handleOptionClick
     nextQuestionBtn_click reviewMistakesBtn_click restartQuizBtn_click exitQuizBtn_click
     setQuizRun startQuizBtn_click startQuizBtn_try startQuizBtn_settled startQuizBtn_timeout
     getGameRun setGameRun clearInterval showGameResults displayCurrentCard startGame
     advanceCard flashcardContainer_click knewItBtn_click didntKnowBtn_click
     restartGameBtn_click exitGameBtn_click abortHandler removeAbortListener
     startGameBtn_click startGameBtn_tick startGameBtn_try startGameBtn_catch
     startGameBtn_settled loadingMessages option_map].

Ltac simpl_state :=
  cbn [mem page world
       activeFile history quizQuestions incorrectAnswers currentQuestionIndex score
       isReviewingMistakes flashcards currentCardIndex knownCardsCount db
       classList disabled textContent value files quizOptions historyItems abortListeners
       store alerts requests quizRuns gameRuns askRuns uploads pendingClears pendingLoads
       awaiting aborted interval messageIndex opens fails
       set set_mem set_page set_world
       set_activeFile set_history set_quizQuestions set_incorrectAnswers
       set_currentQuestionIndex set_score set_isReviewingMistakes set_flashcards
       set_currentCardIndex set_knownCardsCount set_db
       set_classList set_disabled set_textContent set_value set_files set_quizOptions
       set_historyItems set_abortListeners
       set_store set_alerts set_requests set_quizRuns set_gameRuns set_askRuns set_uploads
       set_pendingClears set_pendingLoads
       Elem_beq Class_beq andb orb negb
       displayed clickable containers forallb option_map] in *.

(** One case split on what a handler tests next: the innermost test that
    stands where the run of the handler needs its value. *)
Ltac plain c :=
  lazymatch c with
  | context [match _ with _ => _ end] => fail
  | _ => idtac
  end.

Ltac branch :=
  match goal with
  | |- context [match (if ?c then _ else _) _ with _ => _ end] =>
      plain c; let E := fresh "E" in destruct c eqn:E
  | |- context [match (match ?c with _ => _ end) _ with _ => _ end] =>
      plain c; let E := fresh "E" in destruct c eqn:E
  | |- context [match (if ?c then _ else _) with _ => _ end] =>
      plain c; let E := fresh "E" in destruct c eqn:E
  | |- context [match (match ?c with _ => _ end) with _ => _ end] =>
      plain c; let E := fresh "E" in destruct c eqn:E
  end.

Create Rewrite HintDb js.

Lemma forEach_appendOption (f : string -> OptionButton) l st :
  forEach l (fun o => appendOption (f o)) st
  = Some (tt, set page (set quizOptions (fun q => q ++ map f l)) st).
Proof.
  revert st. induction l as [|x r IH]; intros [m p w]; destruct p.
  - cbv [forEach ret set set_page set_quizOptions]. cbn. rewrite app_nil_r. reflexivity.
  - cbn [forEach]. unfold bind at 1. unfold appendOption at 1, modify at 1. rewrite IH.
    cbv [set set_page set_quizOptions]. cbn. rewrite <- app_assoc. reflexivity.
Qed.

Lemma forEach_appendHistoryLi (f : HistoryItem -> HistoryLi) l st :
  forEach l (fun o => appendHistoryLi (f o)) st
  = Some (tt, set page (set historyItems (fun q => q ++ map f l)) st).
Proof.
  revert st. induction l as [|x r IH]; intros [m p w]; destruct p.
  - cbv [forEach ret set set_page set_historyItems]. cbn. rewrite app_nil_r. reflexivity.
  - cbn [forEach]. unfold bind at 1. unfold appendHistoryLi at 1, modify at 1. rewrite IH.
    cbv [set set_page set_historyItems]. cbn. rewrite <- app_assoc. reflexivity.
Qed.

(** [renderHistory] only rewrites the children of [historyList]. *)
Lemma renderHistory_run st :
  exists items,
    renderHistory st = Some (tt, set page (set historyItems (fun _ => items)) st).
Proof.
  unfold renderHistory. unfold bind at 1, modify at 1. unfold bind at 1, var at 1, gets at 1.
  cbn [mem set set_page].
  destruct (Nat.eqb (length (history (mem st))) 0).
  - destruct st as [m p w]; destruct p. eexists. unfold appendHistoryLi, modify. cbn. reflexivity.
  - set (f := fun item : HistoryItem =>
        {| li_text := name item; li_id := Some (id item);
           li_active := match activeFile (mem st) with
                        | Some af => String.eqb (id af) (id item)
                        | None => false
                        end |}).
    assert (H : forall l s, activeFile (mem s) = activeFile (mem st) ->
      forEach l (fun item => a <- var activeFile;; appendHistoryLi
        {| li_text := name item; li_id := Some (id item);
           li_active := match a with
                        | Some af => String.eqb (id af) (id item)
                        | None => false
                        end |}) s
      = forEach l (fun o => appendHistoryLi (f o)) s).
    { induction l as [|x r IH]; intros s Hs; [reflexivity|].
      cbn [forEach]. unfold bind at 1. unfold bind at 1, var at 1, gets at 1.
      rewrite Hs. fold (f x). unfold bind at 2.
      destruct (appendHistoryLi (f x) s) as [[u s']|] eqn:E; [|reflexivity].
      apply IH. unfold appendHistoryLi, modify in E. injection E as _ <-.
      cbn. exact Hs. }
    rewrite H by reflexivity. rewrite forEach_appendHistoryLi.
    exists (map f (history (mem st))).
    destruct st as [m p w]; destruct p. cbn. reflexivity.
Qed.

Ltac render :=
  match goal with
  | |- context [renderHistory ?s] =>
      let items := fresh "items" in
      let E := fresh "E" in
      destruct (renderHistory_run s) as [items E]; rewrite E; clear E
  end.

Ltac rew_hyps :=
  match goal with
  | E : ?c = _ |- context [?c] => rewrite E
  end.

Ltac go :=
  unfold_js; unfold clickable in *; simpl_state;
  repeat (first [ progress autorewrite with js | rew_hyps | render | branch ]; simpl_state).

Lemma nth_error_adjust {A} (f : A -> A) i (l : list A) :
  nth_error (adjust f i l) i = option_map f (nth_error l i).
Proof.
  revert i; induction l as [|x r IH]; intros [|i]; cbn; auto.
Qed.

Lemma length_adjust {A} (f : A -> A) i (l : list A) : length (adjust f i l) = length l.
Proof.
  revert i; induction l as [|x r IH]; intros [|i]; cbn; auto.
Qed.

#[local] Hint Rewrite forEach_appendOption @nth_error_adjust : js.

Lemma existsb_disabled_map (f : string -> OptionButton) l :
  (forall o, btn_disabled (f o) = true) ->
  existsb (fun b => negb (btn_disabled b)) (map f l) = false.
Proof.
  intros H. induction l as [|x r IH]; cbn; [reflexivity|]. rewrite H, IH. reflexivity.
Qed.

Lemma existsb_disabled_all (f : OptionButton -> OptionButton) l :
  (forall b, btn_disabled (f b) = true) ->
  existsb (fun b => negb (btn_disabled b)) (map f l) = false.
Proof.
  intros H. induction l as [|x r IH]; cbn; [reflexivity|]. rewrite H, IH. reflexivity.
Qed.

Lemma existsb_enabled_nth l k b :
  nth_error l k = Some b -> btn_disabled b = false ->
  existsb (fun b => negb (btn_disabled b)) l = true.
Proof.
  intros H D. apply existsb_exists. exists b. split.
  - eapply nth_error_In; eassumption.
  - rewrite D. reflexivity.
Qed.

Lemma nth_error_in_bounds {A} (l : list A) i : i < length l -> nth_error l i <> None.
Proof. intros H. apply nth_error_Some. exact H. Qed.

Lemma lt_activeLength m i :
  i < activeLength m <->
  (isReviewingMistakes m = true -> i < length (incorrectAnswers m)) /\
  (isReviewingMistakes m = false -> i < length (quizQuestions m)).
Proof. unfold activeLength. destruct (isReviewingMistakes m); intuition congruence. Qed.

Lemma le_activeLength m i :
  i <= activeLength m <->
  (isReviewingMistakes m = true -> i <= length (incorrectAnswers m)) /\
  (isReviewingMistakes m = false -> i <= length (quizQuestions m)).
Proof. unfold activeLength. destruct (isReviewingMistakes m); intuition congruence. Qed.

Ltac bool_norm :=
  repeat match goal with
  | H : _ && _ = true |- _ => apply andb_true_iff in H; destruct H
  | H : negb _ = true |- _ => apply negb_true_iff in H
  | H : negb _ = false |- _ => apply negb_false_iff in H
  | H : (_ <? _)%nat = true |- _ => apply Nat.ltb_lt in H
  | H : (_ <? _)%nat = false |- _ => apply Nat.ltb_ge in H
  | H : (_ <=? _)%nat = true |- _ => apply Nat.leb_le in H
  | H : (_ <=? _)%nat = false |- _ => apply Nat.leb_gt in H
  | H : (_ =? _)%nat = true |- _ => apply Nat.eqb_eq in H
  | H : (_ =? _)%nat = false |- _ => apply Nat.eqb_neq in H
  | H : true = true |- _ => clear H
  | H : false = true |- _ => discriminate H
  | H : true = false |- _ => discriminate H
  | H : Some _ = None |- _ => discriminate H
  | H : None = Some _ |- _ => discriminate H
  end.

Ltac nofault :=
  match goal with
  | H : nth_error ?l ?i = None |- _ =>
      exfalso; apply (nth_error_in_bounds l i);
      [cbn [length]; first [lia | apply Nat.mod_upper_bound; lia] | exact H]
  end.

Ltac rew_conds :=
  repeat match goal with
  | E : ?c = true |- context [?c] => rewrite E
  | E : ?c = false |- context [?c] => rewrite E
  end.

(** The part of a state the invariant speaks of. *)
Lemma Inv_frame st st' :
  quizQuestions (mem st') = quizQuestions (mem st) ->
  incorrectAnswers (mem st') = incorrectAnswers (mem st) ->
  currentQuestionIndex (mem st') = currentQuestionIndex (mem st) ->
  score (mem st') = score (mem st) ->
  isReviewingMistakes (mem st') = isReviewingMistakes (mem st) ->
  flashcards (mem st') = flashcards (mem st) ->
  currentCardIndex (mem st') = currentCardIndex (mem st) ->
  map (fun e => classList (page st') e hidden)
      [resultsSection; quizSection; quizContentContainer; nextQuestionBtn;
       reviewMistakesBtn; gameSection; gameContainer; gameResultsSection]
  = map (fun e => classList (page st) e hidden)
      [resultsSection; quizSection; quizContentContainer; nextQuestionBtn;
       reviewMistakesBtn; gameSection; gameContainer; gameResultsSection] ->
  anyEnabled (page st') = anyEnabled (page st) ->
  Inv st -> Inv st'.
Proof.
  intros Hq Hi Hx Hs Hr Hf Hc Hh He [I1 I2 I3 I4 I5 I6 I7 I8 I9 I10 I11 I12].
  cbn [map] in Hh. injection Hh as H1 H2 H3 H4 H5 H6 H7 H8.
  constructor; unfold reviewRule, activeLength in *; cbn [displayed containers forallb] in *;
    rewrite ?Hq, ?Hi, ?Hx, ?Hs, ?Hr, ?Hf, ?Hc, ?He, ?H1, ?H2, ?H3, ?H4, ?H5, ?H6, ?H7, ?H8;
    assumption.
Qed.

(** The invariant of the state before the event, as propositions over the
    flags of the page. *)
Ltac open_inv I :=
  destruct I as [I1 I2 I3 I4 I5 I6 I7 I8 I9 I10 I11 I12];
  unfold anyEnabled, reviewOffered, reviewRule in *; simpl_state;
  rewrite ?lt_activeLength, ?le_activeLength in *;
  rewrite ?andb_true_r in *;
  rewrite ?andb_true_iff, ?andb_false_iff, ?negb_true_iff, ?negb_false_iff in *.

(** The invariant of the state after the event, likewise. *)
Ltac goal_props :=
  unfold anyEnabled, reviewOffered, reviewRule; simpl_state; rew_conds;
  rewrite ?lt_activeLength, ?le_activeLength; simpl_state;
  rewrite ?andb_true_r, ?andb_true_l, ?app_nil_l, ?length_app;
  rewrite ?existsb_disabled_map, ?existsb_disabled_all by reflexivity;
  rewrite ?andb_true_iff, ?andb_false_iff, ?negb_true_iff, ?negb_false_iff.

Ltac framed I :=
  solve [ eexists; split; [reflexivity | exact I]
        | eexists; split;
          [ reflexivity
          | match type of I with Inv ?s => apply (Inv_frame s) end;
            [reflexivity .. | exact I] ] ].

Ltac changed :=
  eexists; (split; [reflexivity|]);
  constructor; goal_props;
  cbn [length] in *; intros; bool_norm; try lia;
  try (intuition (try lia; try congruence); fail).

Ltac preserve I :=
  let I0 := fresh "I0" in
  pose proof I as I0; open_inv I0;
  go; try (bool_norm; nofault);
  first [ framed I | changed ].


Lemma Inv_ClickOption st button (I : Inv st) :
  exists st', step (ClickOption button) st = Some st' /\ Inv st'.
Proof.
  pose proof I as I0; open_inv I0. go.
  all: try framed I.
  all: assert (A : existsb (fun b => negb (btn_disabled b)) (quizOptions (page st)) = true)
         by (bool_norm; eapply existsb_enabled_nth; eassumption).
  all: specialize (I2 A); try (bool_norm; nofault).
  all: changed.
Qed.

Lemma Inv_ClickReviewMistakes st (I : Inv st) :
  exists st', step ClickReviewMistakes st = Some st' /\ Inv st'.
Proof.
  pose proof I as I0; open_inv I0. go.
  all: try framed I.
  all: bool_norm.
  all: match goal with
       | Hr : classList _ resultsSection hidden = false,
         Hb : classList _ reviewMistakesBtn hidden = false,
         I8 : classList _ resultsSection hidden = false -> _ = negb ?r |- _ =>
           assert (R : r = true)
             by (specialize (I8 Hr); rewrite Hb in I8; destruct r; [reflexivity | discriminate I8])
       end.
  all: pose proof R as R'; apply andb_true_iff in R'; destruct R' as [R1 R2];
       apply Nat.ltb_lt in R2.
  all: try nofault.
  all: changed.
Qed.

Lemma Inv_ChooseFile st f (I : Inv st) :
  exists st', step (ChooseFile f) st = Some st' /\ Inv st'.
Proof. preserve I. Qed.

Lemma Inv_ClickProcess st  (I : Inv st) :
  exists st', step (ClickProcess ) st = Some st' /\ Inv st'.
Proof. preserve I. Qed.

Lemma Inv_FileRead st run r now stamp (I : Inv st) :
  exists st', step (FileRead run r now stamp) st = Some st' /\ Inv st'.
Proof. preserve I. Qed.

Lemma Inv_ItemSaved st run o (I : Inv st) :
  exists st', step (ItemSaved run o) st = Some st' /\ Inv st'.
Proof. preserve I. Qed.

Lemma Inv_TypeQuestion st s (I : Inv st) :
  exists st', step (TypeQuestion s) st = Some st' /\ Inv st'.
Proof. preserve I. Qed.

Lemma Inv_ClickAsk st  (I : Inv st) :
  exists st', step (ClickAsk ) st = Some st' /\ Inv st'.
Proof. preserve I. Qed.

Lemma Inv_AskChunk st run text (I : Inv st) :
  exists st', step (AskChunk run text) st = Some st' /\ Inv st'.
Proof. preserve I. Qed.

Lemma Inv_AskSettled st run err (I : Inv st) :
  exists st', step (AskSettled run err) st = Some st' /\ Inv st'.
Proof. preserve I. Qed.

Lemma Inv_ClickStartQuiz st  (I : Inv st) :
  exists st', step (ClickStartQuiz ) st = Some st' /\ Inv st'.
Proof. preserve I. Qed.

Lemma Inv_QuizReply st run reply (I : Inv st) :
  exists st', step (QuizReply run reply) st = Some st' /\ Inv st'.
Proof. preserve I. Qed.

Lemma Inv_QuizTimeout st run (I : Inv st) :
  exists st', step (QuizTimeout run) st = Some st' /\ Inv st'.
Proof. preserve I. Qed.

Lemma Inv_ClickNext st  (I : Inv st) :
  exists st', step (ClickNext ) st = Some st' /\ Inv st'.
Proof. preserve I. Qed.

Lemma Inv_ClickRestartQuiz st  (I : Inv st) :
  exists st', step (ClickRestartQuiz ) st = Some st' /\ Inv st'.
Proof. preserve I. Qed.

Lemma Inv_ClickExitQuiz st  (I : Inv st) :
  exists st', step (ClickExitQuiz ) st = Some st' /\ Inv st'.
Proof. preserve I. Qed.

Lemma Inv_ClickStartGame st  (I : Inv st) :
  exists st', step (ClickStartGame ) st = Some st' /\ Inv st'.
Proof. preserve I. Qed.

Lemma Inv_GameReply st run reply (I : Inv st) :
  exists st', step (GameReply run reply) st = Some st' /\ Inv st'.
Proof. preserve I. Qed.

Lemma Inv_GameTick st run (I : Inv st) :
  exists st', step (GameTick run) st = Some st' /\ Inv st'.
Proof. preserve I. Qed.

Lemma Inv_ClickFlashcard st  (I : Inv st) :
  exists st', step (ClickFlashcard ) st = Some st' /\ Inv st'.
Proof. preserve I. Qed.

Lemma Inv_ClickKnewIt st  (I : Inv st) :
  exists st', step (ClickKnewIt ) st = Some st' /\ Inv st'.
Proof. preserve I. Qed.

Lemma Inv_ClickDidntKnow st  (I : Inv st) :
  exists st', step (ClickDidntKnow ) st = Some st' /\ Inv st'.
Proof. preserve I. Qed.

Lemma Inv_ClickRestartGame st  (I : Inv st) :
  exists st', step (ClickRestartGame ) st = Some st' /\ Inv st'.
Proof. preserve I. Qed.

Lemma Inv_ClickExitGame st  (I : Inv st) :
  exists st', step (ClickExitGame ) st = Some st' /\ Inv st'.
Proof. preserve I. Qed.

Lemma Inv_ClickClearHistory st confirmed (I : Inv st) :
  exists st', step (ClickClearHistory confirmed) st = Some st' /\ Inv st'.
Proof. preserve I. Qed.

Lemma Inv_HistoryCleared st o (I : Inv st) :
  exists st', step (HistoryCleared o) st = Some st' /\ Inv st'.
Proof. preserve I. Qed.

Lemma Inv_HistoryLoaded st o (I : Inv st) :
  exists st', step (HistoryLoaded o) st = Some st' /\ Inv st'.
Proof. preserve I. Qed.

Lemma Inv_ClickHistoryItem st li (I : Inv st) :
  exists st', step (ClickHistoryItem li) st = Some st' /\ Inv st'.
Proof. preserve I. Qed.

Lemma Inv_ClickMenuToggle st  (I : Inv st) :
  exists st', step (ClickMenuToggle ) st = Some st' /\ Inv st'.
Proof. preserve I. Qed.

Lemma Inv_ClickSidebarOverlay st  (I : Inv st) :
  exists st', step (ClickSidebarOverlay ) st = Some st' /\ Inv st'.
Proof. preserve I. Qed.

Lemma Inv_abortHandler run st (I : Inv st) :
  exists st', abortHandler run st = Some (tt, st') /\ Inv st'.
Proof.
  pose proof I as I0; open_inv I0. unfold_js. simpl_state.
  eexists; split; [reflexivity|].
  constructor; goal_props; intros; bool_norm; intuition (try lia; try congruence).
Qed.

Lemma Inv_forEach_abortHandler l : forall st, Inv st ->
  exists st', forEach l abortHandler st = Some (tt, st') /\ Inv st'.
Proof.
  induction l as [|r l IH]; intros st I.
  - exists st. split; [reflexivity | exact I].
  - cbn [forEach]. unfold bind.
    destruct (Inv_abortHandler r st I) as (st1 & E1 & I1). rewrite E1.
    exact (IH st1 I1).
Qed.

Lemma Inv_ClickExitGameLoading st (I : Inv st) :
  exists st', step ClickExitGameLoading st = Some st' /\ Inv st'.
Proof.
  unfold step, listener.
  destruct (clickable (page st) exitGameLoadingBtn); [|exists st; split; [reflexivity | exact I]].
  unfold exec, exitGameLoadingBtn_click.
  unfold bind at 1, gets at 1. unfold bind at 1, modify at 1.
  match goal with
  | |- context [forEach ?l abortHandler ?s] =>
      destruct (Inv_forEach_abortHandler l s) as (st' & E & I')
  end.
  - match type of I with Inv ?s => apply (Inv_frame s) end; [reflexivity .. | exact I].
  - rewrite E. exists st'. split; [reflexivity | exact I'].
Qed.

(** Every event can be taken in every state that satisfies the invariant:
    no listener reads outside an array, and the invariant holds again. *)
Lemma Inv_step st ev : Inv st -> exists st', step ev st = Some st' /\ Inv st'.
Proof.
  intros I. destruct ev.
  - apply Inv_ChooseFile; exact I.
  - apply Inv_ClickProcess; exact I.
  - apply Inv_FileRead; exact I.
  - apply Inv_ItemSaved; exact I.
  - apply Inv_TypeQuestion; exact I.
  - apply Inv_ClickAsk; exact I.
  - apply Inv_AskChunk; exact I.
  - apply Inv_AskSettled; exact I.
  - apply Inv_ClickStartQuiz; exact I.
  - apply Inv_QuizReply; exact I.
  - apply Inv_QuizTimeout; exact I.
  - apply Inv_ClickOption; exact I.
  - apply Inv_ClickNext; exact I.
  - apply Inv_ClickReviewMistakes; exact I.
  - apply Inv_ClickRestartQuiz; exact I.
  - apply Inv_ClickExitQuiz; exact I.
  - apply Inv_ClickStartGame; exact I.
  - apply Inv_GameReply; exact I.
  - apply Inv_GameTick; exact I.
  - apply Inv_ClickExitGameLoading; exact I.
  - apply Inv_ClickFlashcard; exact I.
  - apply Inv_ClickKnewIt; exact I.
  - apply Inv_ClickDidntKnow; exact I.
  - apply Inv_ClickRestartGame; exact I.
  - apply Inv_ClickExitGame; exact I.
  - apply Inv_ClickClearHistory; exact I.
  - apply Inv_HistoryCleared; exact I.
  - apply Inv_HistoryLoaded; exact I.
  - apply Inv_ClickHistoryItem; exact I.
  - apply Inv_ClickMenuToggle; exact I.
  - apply Inv_ClickSidebarOverlay; exact I.
Qed.

Lemma Inv_initial p records : opening p = true -> Inv (initial p records).
Proof.
  unfold opening. intros H.
  apply andb_true_iff in H. destruct H as [H H3].
  apply andb_true_iff in H. destruct H as [H1 H2].
  constructor; unfold anyEnabled, reviewRule, activeLength; cbn;
    rewrite ?H1, ?H2, ?H3; cbn; rewrite ?andb_false_r;
    try reflexivity; try lia; try discriminate; intros; try discriminate.
Qed.

Lemma Inv_reachable st0 st : Inv st0 -> reachable st0 st -> Inv st.
Proof.
  intros I0 R. induction R as [|st ev st' R IH E]; [exact I0|].
  destruct (Inv_step st ev IH) as (st'' & E' & I').
  rewrite E in E'. injection E' as <-. exact I'.
Qed.

Lemma Inv_run evs : forall st, Inv st -> exists st', run evs st = Some st' /\ Inv st'.
Proof.
  induction evs as [|ev evs IH]; intros st I.
  - exists st. split; [reflexivity | exact I].
  - cbn [run]. destruct (Inv_step st ev I) as (st1 & E & I1). rewrite E.
    exact (IH st1 I1).
Qed.

Lemma reachable_run evs : forall st0 st st', reachable st0 st -> run evs st = Some st' ->
  reachable st0 st'.
Proof.
  induction evs as [|ev evs IH]; intros st0 st st' R E; cbn [run] in E.
  - injection E as <-. exact R.
  - destruct (step ev st) as [st1|] eqn:E1; [|discriminate].
    eapply IH; [|exact E]. eapply reachable_step; eassumption.
Qed.

(** ** The history store *)

Section SortFacts.
Context {A : Type} (key : A -> Z).

Let byKeyDesc (a b : A) : Z := (key b - key a)%Z.

Lemma insert_Permutation x l : Permutation (x :: l) (JS.insert byKeyDesc x l).
Proof.
  induction l as [|y r IH]; cbn; [reflexivity|].
  destruct (byKeyDesc x y <=? 0)%Z; [reflexivity|].
  rewrite perm_swap. apply perm_skip. exact IH.
Qed.

Lemma sort_Permutation l : Permutation l (JS.sort byKeyDesc l).
Proof.
  induction l as [|x r IH]; [reflexivity|].
  change (JS.sort byKeyDesc (x :: r)) with (JS.insert byKeyDesc x (JS.sort byKeyDesc r)).
  rewrite <- insert_Permutation. apply perm_skip. exact IH.
Qed.

Lemma insert_sorted x l :
  StronglySorted (fun a b => (key a >= key b)%Z) l ->
  StronglySorted (fun a b => (key a >= key b)%Z) (JS.insert byKeyDesc x l).
Proof.
  induction 1 as [|y r S IH F]; cbn.
  - constructor; constructor.
  - unfold byKeyDesc at 1. destruct (key y - key x <=? 0)%Z eqn:E.
    + apply Z.leb_le in E. constructor; [constructor; assumption|].
      constructor; [lia|].
      eapply Forall_impl; [|exact F]. cbn. intros; lia.
    + apply Z.leb_gt in E. constructor; [exact IH|].
      eapply Permutation_Forall; [apply insert_Permutation|].
      constructor; [lia | exact F].
Qed.

Lemma sort_sorted l : StronglySorted (fun a b => (key a >= key b)%Z) (JS.sort byKeyDesc l).
Proof.
  induction l as [|x r IH]; [constructor|].
  change (JS.sort byKeyDesc (x :: r)) with (JS.insert byKeyDesc x (JS.sort byKeyDesc r)).
  apply insert_sorted. exact IH.
Qed.

End SortFacts.

(** C4. A history load that goes through returns every record of the store,
    newest first (descending by the instant of the timestamp), and the empty
    sequence when the store holds nothing; it leaves the store as it is. *)
Theorem loadHistoryFromDB_newest_first st o :
  (db (mem st) = true \/ opens o = true) -> fails o = None ->
  exists l st',
    loadHistoryFromDB o st = Some (Resolved l, st') /\
    store (world st') = store (world st) /\
    Permutation (store (world st)) l /\
    StronglySorted (fun a b => (getTime (timestamp a) >= getTime (timestamp b))%Z) l /\
    (store (world st) = [] -> l = []).
Proof.
  intros Hopen Hok. unfold_js. rewrite Hok.
  assert (P := sort_Permutation (fun x => getTime (timestamp x)) (store (world st))).
  assert (S := sort_sorted (fun x => getTime (timestamp x)) (store (world st))).
  destruct (db (mem st)) eqn:D.
  - do 2 eexists. split; [reflexivity|]. repeat split; try assumption.
    intros E. rewrite E. reflexivity.
  - destruct Hopen as [Hopen|Hopen]; [discriminate|]. rewrite Hopen. simpl_state.
    do 2 eexists. split; [reflexivity|]. repeat split; try assumption.
    intros E. rewrite E. reflexivity.
Qed.

(** C5. When the clear goes through, the store is empty, a history load
    that follows returns the empty sequence, and the history in memory and
    the active file are reset; when it fails, the history in memory, the
    active file and the store are as before. *)
Theorem clearHistory_settled_outcome st o :
  ((db (mem st) = true \/ opens o = true) /\ fails o = None ->
   exists st',
     exec (clearHistory_settled o) st = Some st' /\
     store (world st') = [] /\
     history (mem st') = [] /\
     activeFile (mem st') = None /\
     forall o', fails o' = None ->
       exists st'', loadHistoryFromDB o' st' = Some (Resolved [], st''))
  /\
  ((db (mem st) = false /\ opens o = false) \/ fails o <> None ->
   exists st',
     exec (clearHistory_settled o) st = Some st' /\
     history (mem st') = history (mem st) /\
     activeFile (mem st') = activeFile (mem st) /\
     store (world st') = store (world st)).
Proof.
  split.
  - intros [Hopen Hok]. unfold_js. rewrite Hok. simpl_state.
    destruct (db (mem st)) eqn:D; simpl_state.
    + render. simpl_state. eexists. split; [reflexivity|]. simpl_state.
      repeat split. intros o' Hok'. unfold_js. simpl_state. rewrite D, Hok'. simpl_state.
      eexists. reflexivity.
    + destruct Hopen as [Hopen|Hopen]; [discriminate|]. rewrite Hopen. simpl_state.
      render. simpl_state. eexists. split; [reflexivity|]. simpl_state.
      repeat split. intros o' Hok'. unfold_js. simpl_state. rewrite Hok'. simpl_state.
      eexists. reflexivity.
  - intros H. unfold_js. simpl_state.
    destruct (db (mem st)) eqn:D; simpl_state.
    + destruct H as [[H _]|H]; [discriminate|].
      destruct (fails o); [|congruence]. simpl_state.
      eexists. split; [reflexivity|]. simpl_state. repeat split.
    + destruct (opens o) eqn:O; simpl_state.
      * destruct H as [[_ H]|H]; [discriminate|].
        destruct (fails o); [|congruence]. simpl_state.
        eexists. split; [reflexivity|]. simpl_state. repeat split.
      * eexists. split; [reflexivity|]. simpl_state. repeat split.
Qed.

(** ** Scoring *)

Lemma skipn_cons_nth {A} (l : list A) i x r :
  skipn i l = x :: r -> nth_error l i = Some x /\ skipn (S i) l = r /\ i < length l.
Proof.
  revert i; induction l as [|y l IH]; intros [|i] H; cbn in *; try discriminate.
  - injection H as -> ->. repeat split. lia.
  - destruct (IH i H) as (H1 & H2 & H3). repeat split; try assumption. lia.
Qed.

Lemma nth_error_skipn {A} (l : list A) i x :
  nth_error l i = Some x -> skipn i l = x :: skipn (S i) l.
Proof.
  revert i; induction l as [|y l IH]; intros [|i] H; cbn in *; try discriminate.
  - injection H as ->. reflexivity.
  - apply IH. exact H.
Qed.

Lemma nth_error_freshOptions q k o :
  nth_error (options q) k = Some o ->
  nth_error (freshOptions q) k =
    Some {| btn_text := o; btn_disabled := false; btn_correct := false;
            btn_incorrect := false; btn_listener := Some (o, correctAnswer q) |}.
Proof. intros H. unfold freshOptions. erewrite map_nth_error; [reflexivity | exact H]. Qed.

(** The effect of one evaluated selection. *)
Lemma handleOptionClick_effect st sel corr k q :
  nth_error (quizQuestions (mem st)) (currentQuestionIndex (mem st)) = Some q ->
  exists st',
    exec (handleOptionClick sel corr k) st = Some st' /\
    score (mem st') = (if sameAnswer sel corr then S (score (mem st)) else score (mem st)) /\
    incorrectAnswers (mem st') =
      (if sameAnswer sel corr then incorrectAnswers (mem st)
       else incorrectAnswers (mem st) ++ [{| mistake_question := q; selected := sel |}]) /\
    quizQuestions (mem st') = quizQuestions (mem st) /\
    currentQuestionIndex (mem st') = currentQuestionIndex (mem st) /\
    isReviewingMistakes (mem st') = isReviewingMistakes (mem st) /\
    anyEnabled (page st') = false /\
    Forall (fun b => btn_disabled b = true) (quizOptions (page st')) /\
    classList (page st') nextQuestionBtn hidden = false /\
    (forall e, e <> nextQuestionBtn -> classList (page st') e hidden = classList (page st) e hidden) /\
    disabled (page st') = disabled (page st) /\
    world st' = world st.
Proof.
  intros Hq. unfold_js. simpl_state.
  destruct (sameAnswer sel corr); simpl_state; rewrite ?Hq; simpl_state.
  all: eexists; split; [reflexivity|]; simpl_state.
  all: repeat split; unfold anyEnabled; simpl_state.
  all: try (apply existsb_disabled_all; reflexivity).
  all: try (apply Forall_map; apply Forall_forall; intros; reflexivity).
  all: intros e He; destruct e; try reflexivity; congruence.
Qed.

Lemma step_ClickOption_presenting st q k o :
  Presenting st q -> nth_error (options q) k = Some o ->
  step (ClickOption k) st = exec (handleOptionClick o (correctAnswer q) k) st.
Proof.
  intros [_ _ Ho Hd _] Hk. unfold step, listener.
  rewrite Ho, (nth_error_freshOptions q k o Hk). cbn [btn_listener btn_disabled].
  rewrite Hd. reflexivity.
Qed.

Lemma step_ClickOption_disabled st k :
  Forall (fun b => btn_disabled b = true) (quizOptions (page st)) ->
  step (ClickOption k) st = Some st.
Proof.
  intros F. unfold step, listener.
  destruct (nth_error (quizOptions (page st)) k) as [b|] eqn:E; [|reflexivity].
  destruct (btn_listener b) as [[o c]|]; [|reflexivity].
  rewrite Forall_forall in F. rewrite (F b (nth_error_In _ _ E)).
  rewrite andb_false_r. reflexivity.
Qed.

(** A click on [nextQuestionBtn] during the quiz, with a question left:
    the question is presented. *)
Lemma step_ClickNext_question st q :
  isReviewingMistakes (mem st) = false ->
  clickable (page st) nextQuestionBtn = true ->
  displayed (page st) quizOptionsEl = true ->
  nth_error (quizQuestions (mem st)) (S (currentQuestionIndex (mem st))) = Some q ->
  exists st',
    step ClickNext st = Some st' /\ Presenting st' q /\
    score (mem st') = score (mem st) /\
    incorrectAnswers (mem st') = incorrectAnswers (mem st) /\
    quizQuestions (mem st') = quizQuestions (mem st) /\
    currentQuestionIndex (mem st') = S (currentQuestionIndex (mem st)).
Proof.
  intros Hr Hc Hd Hq. unfold_js. rewrite Hc. simpl_state. rewrite Hr. simpl_state.
  assert (L : S (currentQuestionIndex (mem st)) < length (quizQuestions (mem st)))
    by (apply nth_error_Some; congruence).
  assert (L1 : Nat.ltb (S (currentQuestionIndex (mem st))) (length (quizQuestions (mem st))) = true)
    by (apply Nat.ltb_lt; lia).
  assert (L2 : Nat.eqb (length (quizQuestions (mem st))) 0 = false)
    by (apply Nat.eqb_neq; lia).
  repeat (simpl_state; rewrite ?L1, ?L2, ?Hq). rewrite forEach_appendOption.
  eexists; split; [reflexivity|].
  unfold clickable in Hc. simpl_state.
  apply andb_true_iff in Hc. destruct Hc as [Hc1 Hc2].
  apply negb_true_iff in Hc2.
  split; [constructor|]; simpl_state; auto.
Qed.

(** A click on [nextQuestionBtn] during the quiz, after the last question:
    the results. *)
Lemma step_ClickNext_results st :
  isReviewingMistakes (mem st) = false ->
  clickable (page st) nextQuestionBtn = true ->
  length (quizQuestions (mem st)) <= S (currentQuestionIndex (mem st)) ->
  exists st',
    step ClickNext st = Some st' /\
    displayed (page st') resultsSection = true /\
    classList (page st') quizSection hidden = true /\
    classList (page st') reviewMistakesBtn hidden = negb (reviewRule (mem st)) /\
    score (mem st') = score (mem st) /\
    incorrectAnswers (mem st') = incorrectAnswers (mem st) /\
    quizQuestions (mem st') = quizQuestions (mem st) /\
    currentQuestionIndex (mem st') = S (currentQuestionIndex (mem st)) /\
    isReviewingMistakes (mem st') = false.
Proof.
  intros Hr Hc Hl. unfold_js. rewrite Hc. simpl_state. rewrite Hr. simpl_state.
  assert (L1 : Nat.ltb (S (currentQuestionIndex (mem st))) (length (quizQuestions (mem st))) = false)
    by (apply Nat.ltb_ge; lia).
  repeat (simpl_state; rewrite ?L1). fold (reviewRule (mem st)).
  destruct (reviewRule (mem st)); simpl_state;
    (eexists; split; [reflexivity|]); simpl_state; repeat split; auto.
Qed.

Lemma selections_nil ks : selections [] ks = Some [] \/ selections [] ks = None.
Proof. destruct ks; [left|right]; reflexivity. Qed.

(** Answering from a presented question on: the score grows by the number
    of right selections, and the wrong ones are appended to the log. *)
Lemma answering_run ks : forall st q rest sels,
  Presenting st q ->
  skipn (currentQuestionIndex (mem st)) (quizQuestions (mem st)) = q :: rest ->
  selections (q :: rest) ks = Some sels ->
  exists st',
    run (answering ks) st = Some st' /\
    score (mem st') = score (mem st) + length (filter selectedRightly sels) /\
    incorrectAnswers (mem st') =
      incorrectAnswers (mem st)
      ++ map mistakeOf (filter (fun s => negb (selectedRightly s)) sels).
Proof.
  induction ks as [|k ks IH]; intros st q rest sels P Hs Hsel.
  - assert (sels = []) by (cbn in Hsel; congruence). subst sels.
    exists st. cbn. rewrite Nat.add_0_r, app_nil_r. auto.
  - cbn [selections] in Hsel.
    destruct (nth_error (options q) k) as [o|] eqn:Ek; [|discriminate].
    destruct (selections rest ks) as [r|] eqn:Er; [|discriminate].
    injection Hsel as <-.
    destruct (skipn_cons_nth _ _ _ _ Hs) as (Hq & Hrest & Hlt).
    destruct (handleOptionClick_effect st o (correctAnswer q) k q Hq)
      as (st1 & E1 & Hs1 & Hi1 & Hq1 & Hx1 & Hr1 & _ & Hall & Hn1 & Hcl & Hdis & _).
    pose proof P as [Pr _ _ Pd Pn].
    assert (Hd1 : displayed (page st1) quizOptionsEl = true).
    { revert Pd. cbn [displayed containers forallb]. rewrite !Hcl by discriminate. auto. }
    assert (Hc1 : clickable (page st1) nextQuestionBtn = true).
    { revert Pd. unfold clickable. cbn [displayed containers forallb].
      rewrite Hn1, Hdis, Pn, !Hcl by discriminate.
      intros Pd. apply andb_true_iff in Pd. destruct Pd as [_ Pd]. rewrite Pd. reflexivity. }
    cbn [answering flat_map app run].
    rewrite (step_ClickOption_presenting st q k o P Ek), E1.
    assert (Fil : score (mem st1) + length (filter selectedRightly r)
                  = score (mem st) + length (filter selectedRightly ((q, o) :: r))
                  /\ incorrectAnswers (mem st1)
                     ++ map mistakeOf (filter (fun s => negb (selectedRightly s)) r)
                  = incorrectAnswers (mem st)
                     ++ map mistakeOf (filter (fun s => negb (selectedRightly s)) ((q, o) :: r))).
    { cbn [filter]. change (selectedRightly (q, o)) with (sameAnswer o (correctAnswer q)).
      rewrite Hs1, Hi1.
      destruct (sameAnswer o (correctAnswer q)); cbn [negb length map mistakeOf fst snd].
      - split; [lia | reflexivity].
      - split; [reflexivity | rewrite <- app_assoc; reflexivity]. }
    destruct Fil as [Fs Fi].
    destruct rest as [|q' rest'].
    + (* the last question: the results; no selection can follow *)
      destruct ks as [|k' ks']; [|discriminate].
      cbn in Er. injection Er as <-.
      destruct (step_ClickNext_results st1) as (st2 & E2 & _ & _ & _ & Hs2 & Hi2 & _).
      * rewrite Hr1. exact Pr.
      * exact Hc1.
      * rewrite Hq1, Hx1.
        assert (L := f_equal (@length _) Hrest). rewrite length_skipn in L. cbn in L. lia.
      * rewrite E2. exists st2. cbn [flat_map run].
        rewrite Hs2, Hi2, <- Fs, <- Fi. cbn. rewrite Nat.add_0_r, app_nil_r. auto.
    + destruct (skipn_cons_nth _ _ _ _ Hrest) as (Hq' & _ & _).
      destruct (step_ClickNext_question st1 q') as (st2 & E2 & P2 & Hs2 & Hi2 & Hq2 & Hx2).
      * rewrite Hr1. exact Pr.
      * exact Hc1.
      * exact Hd1.
      * rewrite Hq1, Hx1. exact Hq'.
      * rewrite E2.
        destruct (IH st2 q' rest' r P2) as (st3 & E3 & Hs3 & Hi3).
        -- rewrite Hq2, Hx2, Hq1, Hx1. exact Hrest.
        -- exact Er.
        -- exists st3. split; [exact E3|].
           rewrite Hs3, Hi3, Hs2, Hi2. auto.
Qed.

(** What [startQuiz] leaves: the counters and the log reset, the questions
    kept, the quiz content on display with the first question, and nothing
    sent to the service. *)
Lemma startQuiz_effect st :
  exists st',
    exec startQuiz st = Some st' /\
    currentQuestionIndex (mem st') = 0 /\
    score (mem st') = 0 /\
    incorrectAnswers (mem st') = [] /\
    isReviewingMistakes (mem st') = false /\
    quizQuestions (mem st') = quizQuestions (mem st) /\
    world st' = world st /\
    displayed (page st') quizContentContainer = true /\
    classList (page st') resultsSection hidden = true /\
    classList (page st') reviewMistakesBtn hidden = true /\
    classList (page st') quizOptionsEl hidden = classList (page st) quizOptionsEl hidden /\
    disabled (page st') = disabled (page st) /\
    (forall q, nth_error (quizQuestions (mem st)) 0 = Some q ->
               quizOptions (page st') = freshOptions q).
Proof.
  unfold_js. simpl_state.
  destruct (quizQuestions (mem st)) as [|q qs] eqn:Eq;
    repeat (simpl_state; cbn [length Nat.eqb nth_error]).
  - eexists; split; [reflexivity|]. simpl_state. rewrite Eq.
    repeat split. intros q Hq. discriminate.
  - rewrite forEach_appendOption.
    eexists; split; [reflexivity|]. simpl_state. rewrite Eq.
    repeat split. intros q0 Hq. injection Hq as <-. reflexivity.
Qed.

(** C1. In a quiz session, started by [startQuiz] and answered question by
    question, the score is the number of selections that equal the correct
    answer of their question after trimming and lowercasing, and the mistake
    log holds the other selections with their questions, in order; one
    evaluated selection adds exactly 1 to the score when it is right, and
    otherwise leaves the score and appends the question and the selection to
    the log. *)
Theorem score_counts_right_selections :
  (forall st0 st1 ks sels,
     exec startQuiz st0 = Some st1 ->
     classList (page st0) quizOptionsEl hidden = false ->
     disabled (page st0) nextQuestionBtn = false ->
     selections (quizQuestions (mem st0)) ks = Some sels ->
     exists st2,
       run (answering ks) st1 = Some st2 /\
       score (mem st2) = length (filter selectedRightly sels) /\
       incorrectAnswers (mem st2) =
         map mistakeOf (filter (fun s => negb (selectedRightly s)) sels))
  /\
  (forall st sel corr k q,
     nth_error (quizQuestions (mem st)) (currentQuestionIndex (mem st)) = Some q ->
     exists st',
       exec (handleOptionClick sel corr k) st = Some st' /\
       (sameAnswer sel corr = true ->
        score (mem st') = score (mem st) + 1 /\
        incorrectAnswers (mem st') = incorrectAnswers (mem st)) /\
       (sameAnswer sel corr = false ->
        score (mem st') = score (mem st) /\
        incorrectAnswers (mem st') =
          incorrectAnswers (mem st) ++ [{| mistake_question := q; selected := sel |}])).
Proof.
  split.
  - intros st0 st1 ks sels E Hh Hd Hsel.
    destruct (startQuiz_effect st0)
      as (st1' & E' & Hx & Hs & Hi & Hr & Hq & _ & Hc & _ & _ & Ho & Hdis & Hopt).
    assert (st1' = st1) by congruence. subst st1'.
    destruct ks as [|k ks].
    + assert (sels = [])
        by (destruct (quizQuestions (mem st0)); cbn in Hsel; congruence).
      subst sels. exists st1.
      cbn [answering flat_map run filter map length]. auto.
    + destruct (quizQuestions (mem st0)) as [|q qs] eqn:Eq; [discriminate|].
      destruct (answering_run (k :: ks) st1 q qs sels) as (st2 & E2 & Hs2 & Hi2).
      * constructor; auto.
        -- rewrite Hx, Hq. reflexivity.
        -- revert Hc. cbn [displayed containers forallb]. rewrite Ho, Hh. auto.
        -- rewrite Hdis. exact Hd.
      * rewrite Hx, Hq. reflexivity.
      * exact Hsel.
      * exists st2. split; [exact E2|]. rewrite Hs2, Hi2, Hs, Hi. auto.
  - intros st sel corr k q Hq.
    destruct (handleOptionClick_effect st sel corr k q Hq) as (st' & E & Hs & Hi & _).
    exists st'. split; [exact E|]. rewrite Hs, Hi.
    split; intros ->; split; auto; lia.
Qed.

(** ** The cancel button of the flashcard loader *)

Lemma keepsAborted_refl l : keepsAborted l l.
Proof. intros r g H A. exists g. auto. Qed.

Lemma keepsAborted_trans l1 l2 l3 :
  keepsAborted l1 l2 -> keepsAborted l2 l3 -> keepsAborted l1 l3.
Proof.
  intros H1 H2 r g H A. destruct (H1 r g H A) as (g' & H' & A'). exact (H2 r g' H' A').
Qed.

Lemma nth_error_adjust_other {A} (f : A -> A) i j (l : list A) :
  i <> j -> nth_error (adjust f i l) j = nth_error l j.
Proof.
  revert i j; induction l as [|x r IH]; intros [|i] [|j] H; cbn; auto; try congruence.
Qed.

Lemma keepsAborted_adjust f i l l' :
  (forall g, aborted g = true -> aborted (f g) = true) ->
  keepsAborted l l' -> keepsAborted l (adjust f i l').
Proof.
  intros Hf H r g Hr A. destruct (H r g Hr A) as (g' & H' & A').
  destruct (Nat.eq_dec i r) as [->|N].
  - rewrite nth_error_adjust, H'. cbn. exists (f g'). auto.
  - rewrite nth_error_adjust_other by exact N. exists g'. auto.
Qed.

Lemma keepsAborted_app l l' x : keepsAborted l l' -> keepsAborted l (l' ++ x).
Proof.
  intros H r g Hr A. destruct (H r g Hr A) as (g' & H' & A').
  exists g'. split; [|exact A'].
  rewrite nth_error_app1; [exact H'|]. apply nth_error_Some. congruence.
Qed.

(** What one [abortHandler] leaves. *)
Lemma abortHandler_effect run st :
  exists st',
    abortHandler run st = Some (tt, st') /\
    mem st' = mem st /\
    idle (page st') = true /\
    classList (page st') gameLoadingContainer hidden = true /\
    textContent (page st') = textContent (page st) /\
    quizOptions (page st') = quizOptions (page st) /\
    abortListeners (page st') = abortListeners (page st) /\
    requests (world st') = requests (world st) /\
    keepsAborted (gameRuns (world st)) (gameRuns (world st')) /\
    (forall g, nth_error (gameRuns (world st)) run = Some g ->
       exists g', nth_error (gameRuns (world st')) run = Some g' /\ aborted g' = true).
Proof.
  unfold_js. simpl_state. eexists; split; [reflexivity|]. unfold idle. simpl_state.
  do 7 (split; [reflexivity|]). split.
  - repeat apply keepsAborted_adjust; auto using keepsAborted_refl.
  - intros g Hg. rewrite !nth_error_adjust, Hg. cbn. eexists; split; reflexivity.
Qed.

(** What a click on the cancel button leaves, whatever handlers are
    registered: the variables, the texts and the quiz options as they were;
    with a handler registered, the page at rest and the runs of all
    registered handlers cancelled. *)
Lemma forEach_abortHandler_effect l : forall st,
  exists st',
    forEach l abortHandler st = Some (tt, st') /\
    mem st' = mem st /\
    textContent (page st') = textContent (page st) /\
    quizOptions (page st') = quizOptions (page st) /\
    abortListeners (page st') = abortListeners (page st) /\
    requests (world st') = requests (world st) /\
    keepsAborted (gameRuns (world st)) (gameRuns (world st')) /\
    (l <> [] \/ (idle (page st) = true /\
                 classList (page st) gameLoadingContainer hidden = true) ->
     idle (page st') = true /\ classList (page st') gameLoadingContainer hidden = true) /\
    (forall r g, In r l -> nth_error (gameRuns (world st)) r = Some g ->
       exists g', nth_error (gameRuns (world st')) r = Some g' /\ aborted g' = true).
Proof.
  induction l as [|r l IH]; intros st.
  - exists st. cbn [forEach]. unfold ret.
    split; [reflexivity|]. do 5 (split; [reflexivity|]).
    split; [apply keepsAborted_refl|]. split.
    + intros [H|H]; [congruence | exact H].
    + intros r g [].
  - destruct (abortHandler_effect r st)
      as (st1 & E1 & M1 & I1 & L1 & T1 & O1 & A1 & R1 & K1 & G1).
    destruct (IH st1) as (st2 & E2 & M2 & T2 & O2 & A2 & R2 & K2 & I2 & G2).
    exists st2. cbn [forEach]. unfold bind. rewrite E1. cbn beta iota. rewrite E2.
    split; [reflexivity|]. do 5 (split; [congruence|]).
    split; [eapply keepsAborted_trans; eassumption|]. split.
    + intros _. apply I2. right. auto.
    + intros r' g [<-|Hin] Hg.
      * destruct (G1 g Hg) as (g1 & Hg1 & Ab1). exact (K2 r g1 Hg1 Ab1).
      * destruct (nth_error (gameRuns (world st1)) r') as [g1|] eqn:Hg1.
        -- exact (G2 r' g1 Hin Hg1).
        -- exfalso. assert (Hl : r' < length (gameRuns (world st)))
             by (apply nth_error_Some; congruence).
           revert Hg1. clear - E1 Hl. unfold_js. simpl_state. 
           intros Hg1. injection E1 as <-. simpl_state.
           apply nth_error_None in Hg1. simpl_state. 
           rewrite !length_adjust in Hg1. lia.
Qed.

Lemma exitGameLoadingBtn_click_effect st :
  exists st',
    exitGameLoadingBtn_click st = Some (tt, st') /\
    mem st' = mem st /\
    textContent (page st') = textContent (page st) /\
    quizOptions (page st') = quizOptions (page st) /\
    abortListeners (page st') = [] /\
    requests (world st') = requests (world st) /\
    keepsAborted (gameRuns (world st)) (gameRuns (world st')) /\
    (abortListeners (page st) <> [] ->
     idle (page st') = true /\ classList (page st') gameLoadingContainer hidden = true) /\
    (forall r g, In r (abortListeners (page st)) ->
       nth_error (gameRuns (world st)) r = Some g ->
       exists g', nth_error (gameRuns (world st')) r = Some g' /\ aborted g' = true).
Proof.
  unfold exitGameLoadingBtn_click.
  unfold bind at 1, gets at 1. unfold bind at 1, modify at 1.
  match goal with
  | |- context [forEach ?l abortHandler ?s] =>
      destruct (forEach_abortHandler_effect l s)
        as (st' & E & M & T & O & A & R & K & I & G)
  end.
  exists st'. rewrite E. simpl_state.
  split; [reflexivity|]. do 5 (split; [assumption|]).
  split; [assumption|]. split; [|assumption].
  intros N. apply I. left. exact N.
Qed.

(** ** What an event can change *)

Ltac footprint_index :=
  simpl_state;
  first [ left; reflexivity | right; left; reflexivity | right; right; reflexivity ].

Ltac footprint_runs :=
  simpl_state;
  repeat first [ apply keepsAborted_refl
               | apply keepsAborted_app
               | apply keepsAborted_adjust; [intros ? ?; simpl_state; auto|] ].

Ltac footprint_options :=
  unfold anyEnabled; simpl_state; cbn [app];
  first [ left; reflexivity
        | right; left; apply existsb_disabled_map; reflexivity
        | right; left; apply existsb_disabled_all; reflexivity
        | right; right; left; reflexivity
        | right; right; right; left; reflexivity
        | right; right; right; right; do 2 eexists; reflexivity ].

(** One event moves the question index by a click on [nextQuestionBtn]
    only (otherwise it keeps it or resets it to 0); it never takes back a
    cancellation; and it brings enabled options to the quiz only on a click
    on [nextQuestionBtn] or [restartQuizBtn] or on a reply of the service. *)
Lemma step_footprint ev st :
  match step ev st with
  | Some st' =>
      (currentQuestionIndex (mem st') = currentQuestionIndex (mem st) \/
       currentQuestionIndex (mem st') = 0 \/ ev = ClickNext) /\
      keepsAborted (gameRuns (world st)) (gameRuns (world st')) /\
      (quizOptions (page st') = quizOptions (page st) \/
       anyEnabled (page st') = false \/
       ev = ClickNext \/ ev = ClickRestartQuiz \/
       exists run reply, ev = QuizReply run reply)
  | None => True
  end.
Proof.
  destruct ev;
    try (go; try exact I; (split; [footprint_index | split; [footprint_runs | footprint_options]]); fail).
  unfold step, listener.
  destruct (clickable (page st) exitGameLoadingBtn).
  - unfold exec.
    destruct (exitGameLoadingBtn_click_effect st) as (st' & E & M & _ & O & _ & _ & K & _).
    rewrite E, M, O. auto.
  - auto using keepsAborted_refl.
Qed.

(** ** One evaluation per question *)

Lemma run_ClickOption_disabled ks : forall st,
  Forall (fun b => btn_disabled b = true) (quizOptions (page st)) ->
  run (map ClickOption ks) st = Some st.
Proof.
  induction ks as [|k ks IH]; intros st F; [reflexivity|].
  cbn [map run]. rewrite (step_ClickOption_disabled st k F). exact (IH st F).
Qed.

(** C9. On a presented question the first selection is evaluated, once: it
    disables every option, so that any further selections leave the whole
    state, the score and the mistake log with it, as it is; the question
    index moves on by a click on [nextQuestionBtn] only; and options that
    take a selection come back only with the next question, a restart or a
    new quiz. *)
Theorem one_evaluation_per_question :
  (forall st q k o,
     Presenting st q -> nth_error (options q) k = Some o ->
     exists st1,
       step (ClickOption k) st = Some st1 /\
       exec (handleOptionClick o (correctAnswer q) k) st = Some st1 /\
       Forall (fun b => btn_disabled b = true) (quizOptions (page st1)) /\
       currentQuestionIndex (mem st1) = currentQuestionIndex (mem st) /\
       forall ks, run (map ClickOption ks) st1 = Some st1)
  /\
  (forall st ev st',
     step ev st = Some st' ->
     currentQuestionIndex (mem st') = S (currentQuestionIndex (mem st)) ->
     ev = ClickNext)
  /\
  (forall st ev st',
     anyEnabled (page st) = false ->
     step ev st = Some st' ->
     anyEnabled (page st') = true ->
     ev = ClickNext \/ ev = ClickRestartQuiz \/ exists run reply, ev = QuizReply run reply).
Proof.
  split; [|split].
  - intros st q k o P Hk.
    destruct (handleOptionClick_effect st o (correctAnswer q) k q (presenting_question _ _ P))
      as (st1 & E & _ & _ & _ & Hx & _ & _ & Hall & _).
    exists st1. rewrite (step_ClickOption_presenting st q k o P Hk).
    repeat split; auto. intros ks. apply run_ClickOption_disabled. exact Hall.
  - intros st ev st' E Hx. pose proof (step_footprint ev st) as F. rewrite E in F.
    destruct F as ([F|[F|F]] & _); [lia | lia | exact F].
  - intros st ev st' Ha E Ha'. pose proof (step_footprint ev st) as F. rewrite E in F.
    destruct F as (_ & _ & [F|[F|F]]).
    + unfold anyEnabled in *. rewrite F in Ha'. congruence.
    + congruence.
    + exact F.
Qed.

(** ** The offer of the review *)

Lemma percentage_exact :
  percentageExactUpTo 200 = true.
Proof. vm_compute. reflexivity. Qed.

Lemma percentageExactUpTo_spec n s total :
  percentageExactUpTo n = true -> s <= total -> total <= n ->
  JS.lt (JS.div (JS.of_nat s) (JS.of_nat total)) JS.lit_0_6 = Nat.ltb (5 * s) (3 * total).
Proof.
  unfold percentageExactUpTo. intros H Hs Ht.
  rewrite forallb_forall in H. specialize (H total).
  rewrite forallb_forall in H.
  apply Bool.eqb_prop. apply H; apply in_seq; lia.
Qed.

Lemma percentage_lt s total :
  s <= total -> total <= 200 ->
  JS.lt (JS.div (JS.of_nat s) (JS.of_nat total)) JS.lit_0_6 = Nat.ltb (5 * s) (3 * total).
Proof. exact (percentageExactUpTo_spec 200 s total percentage_exact). Qed.

Lemma reviewOffered_results p :
  displayed p resultsSection = true ->
  reviewOffered p = negb (classList p reviewMistakesBtn hidden).
Proof.
  unfold reviewOffered. cbn [displayed containers forallb]. intros ->. apply andb_true_r.
Qed.

(** C2. In every state the page reaches with the results on display, the
    review of mistakes is on offer exactly when [score / total < 0.6] and
    the mistake log is not empty; the comparison is the one of the code, on
    binary64 numbers, and for totals up to 200 it holds exactly when
    [5 * score < 3 * total]. *)
Theorem review_offered_iff p records st :
  opening p = true ->
  reachable (initial p records) st ->
  displayed (page st) resultsSection = true ->
  (reviewOffered (page st) = true <->
   JS.lt (JS.div (JS.of_nat (score (mem st)))
                 (JS.of_nat (length (quizQuestions (mem st))))) JS.lit_0_6 = true /\
   incorrectAnswers (mem st) <> [])
  /\
  (length (quizQuestions (mem st)) <= 200 ->
   (JS.lt (JS.div (JS.of_nat (score (mem st)))
                  (JS.of_nat (length (quizQuestions (mem st))))) JS.lit_0_6 = true <->
    5 * score (mem st) < 3 * length (quizQuestions (mem st)))).
Proof.
  intros Hp R Hd.
  pose proof (Inv_reachable _ _ (Inv_initial p records Hp) R) as I.
  split.
  - rewrite (reviewOffered_results _ Hd), (inv_offer _ I Hd), negb_involutive.
    unfold reviewRule. rewrite andb_true_iff, Nat.ltb_lt.
    destruct (incorrectAnswers (mem st)); cbn [length]; intuition (try lia; congruence).
  - intros Hl. rewrite percentage_lt; [apply Nat.ltb_lt | | exact Hl].
    pose proof (inv_total _ I). lia.
Qed.

(** C7 (as the code has it). Advancing past the last mistake of a review
    shows the results again, with the score and the mistake log as they
    were, and with the review on offer again: the test of the offer is
    made anew on the unchanged score and log.  Entering the review and
    advancing in it change neither the score nor the log. *)
Theorem review_ends_in_results_with_offer :
  (forall p records st,
     opening p = true ->
     reachable (initial p records) st ->
     isReviewingMistakes (mem st) = true ->
     clickable (page st) nextQuestionBtn = true ->
     S (currentQuestionIndex (mem st)) = length (incorrectAnswers (mem st)) ->
     exists st',
       step ClickNext st = Some st' /\
       displayed (page st') resultsSection = true /\
       isReviewingMistakes (mem st') = false /\
       reviewOffered (page st') = true)
  /\
  (forall st st',
     step ClickReviewMistakes st = Some st' \/
     (isReviewingMistakes (mem st) = true /\ step ClickNext st = Some st') ->
     score (mem st') = score (mem st) /\
     incorrectAnswers (mem st') = incorrectAnswers (mem st)).
Proof.
  split.
  - intros p records st Hp R Hr Hc Hl.
    pose proof (Inv_reachable _ _ (Inv_initial p records Hp) R) as I.
    destruct (inv_review _ I Hr) as (Rule & _ & _).
    unfold reviewOffered. unfold_js. rewrite Hc. simpl_state. rewrite Hr.
    assert (L : Nat.ltb (S (currentQuestionIndex (mem st)))
                        (length (incorrectAnswers (mem st))) = false)
      by (apply Nat.ltb_ge; lia).
    repeat (simpl_state; rewrite ?L).
    unfold reviewRule in Rule. rewrite Rule. simpl_state.
    eexists; split; [reflexivity|]. simpl_state. auto.
  - intros st st' [H|[Hr H]]; revert H.
    + go; intros H; try discriminate; injection H as <-; simpl_state; auto.
    + go; try (rewrite Hr in *; discriminate);
        intros H; try discriminate; injection H as <-; simpl_state; auto.
Qed.

(** ** Restart, exit, and the reply of the service *)

(** C8 (as the code has it). From the results, a restart resets the index,
    the score, the mistake log and the review flag and presents the same
    questions again from the first, without a call of the service; an exit
    discards the questions and resets the same variables, shows the ask
    view and hides the results, without a call of the service either. *)
Theorem restart_and_exit_without_gateway st :
  (clickable (page st) restartQuizBtn = true ->
   exists st',
     step ClickRestartQuiz st = Some st' /\
     currentQuestionIndex (mem st') = 0 /\
     score (mem st') = 0 /\
     incorrectAnswers (mem st') = [] /\
     isReviewingMistakes (mem st') = false /\
     quizQuestions (mem st') = quizQuestions (mem st) /\
     world st' = world st /\
     displayed (page st') quizContentContainer = true /\
     (forall q, nth_error (quizQuestions (mem st)) 0 = Some q ->
                quizOptions (page st') = freshOptions q))
  /\
  (clickable (page st) exitQuizBtn = true ->
   exists st',
     step ClickExitQuiz st = Some st' /\
     quizQuestions (mem st') = [] /\
     incorrectAnswers (mem st') = [] /\
     currentQuestionIndex (mem st') = 0 /\
     score (mem st') = 0 /\
     isReviewingMistakes (mem st') = false /\
     world st' = world st /\
     classList (page st') resultsSection hidden = true /\
     classList (page st') qaSection hidden = false).
Proof.
  split; intros Hc.
  - destruct (startQuiz_effect st)
      as (st' & E & Hx & Hs & Hi & Hr & Hq & Hw & Hd & _ & _ & _ & _ & Ho).
    exists st'. unfold step, listener. rewrite Hc. unfold restartQuizBtn_click.
    repeat split; auto.
  - unfold_js. rewrite Hc. simpl_state.
    eexists; split; [reflexivity|]. simpl_state. repeat split.
Qed.

(** C6 (as the code has it). When the call of the service settles with an
    array of questions that is not empty, the quiz starts on exactly that
    array, whatever its length, at its first question with the score at 0.
    On every other reply the quiz does not start: the variables, the classes
    and the options of the page stay as they are, and the loader shows the
    failure text; when the parsed reply is falsy or holds no or an empty
    [questions] array, what the [try] block throws is
    [Error("Invalid quiz format received from AI.")]. *)
Theorem quiz_reply_outcome st run :
  nth_error (quizRuns (world st)) run = Some QuizAwaiting ->
  (forall q qs,
     exists st',
       step (QuizReply run (Parsed (Some (q :: qs)))) st = Some st' /\
       quizQuestions (mem st') = q :: qs /\
       currentQuestionIndex (mem st') = 0 /\
       score (mem st') = 0 /\
       incorrectAnswers (mem st') = [] /\
       displayed (page st') quizContentContainer = true /\
       quizOptions (page st') = freshOptions q)
  /\
  (forall reply,
     (forall q qs, reply <> Parsed (Some (q :: qs))) ->
     exists st',
       step (QuizReply run reply) st = Some st' /\
       mem st' = mem st /\
       classList (page st') = classList (page st) /\
       quizOptions (page st') = quizOptions (page st) /\
       textContent (page st') quizLoadingStatus =
         "Could not generate a quiz. The material might be too short or unsupported. Please try again with a different file." /\
       nth_error (quizRuns (world st')) run = Some QuizNotice)
  /\
  (forall data s,
     data = None \/ data = Some [] ->
     startQuizBtn_try (Parsed data) s
     = Some (Some (JsError "Invalid quiz format received from AI."), s)).
Proof.
  intros Hrun. split; [|split].
  - intros q qs. unfold_js. rewrite Hrun. simpl_state.
    repeat (simpl_state; cbn [length Nat.eqb nth_error]).
    rewrite forEach_appendOption.
    eexists; split; [reflexivity|]. simpl_state. repeat split.
  - intros reply Hreply. unfold_js. rewrite Hrun. simpl_state.
    destruct reply as [e|m|[[|q qs]|]]; simpl_state;
      try (exfalso; apply (Hreply q qs); reflexivity);
      (eexists; split; [reflexivity|]); simpl_state;
      rewrite !nth_error_adjust, Hrun; repeat split.
  - intros data s [-> | ->]; reflexivity.
Qed.

(** ** Cancelling the flashcard generation *)

Lemma run_keepsAborted evs : forall st st',
  run evs st = Some st' -> keepsAborted (gameRuns (world st)) (gameRuns (world st')).
Proof.
  induction evs as [|ev evs IH]; intros st st' E; cbn [run] in E.
  - injection E as <-. apply keepsAborted_refl.
  - destruct (step ev st) as [st1|] eqn:E1; [|discriminate].
    pose proof (step_footprint ev st) as F. rewrite E1 in F. destruct F as (_ & K & _).
    eapply keepsAborted_trans; [exact K | exact (IH st1 st' E)].
Qed.

Lemma adjust_adjust {A} (f g : A -> A) i (l : list A) :
  adjust f i (adjust g i l) = adjust (fun x => f (g x)) i l.
Proof.
  revert i; induction l as [|x r IH]; intros [|i]; cbn; auto. rewrite IH. reflexivity.
Qed.

(** The reply to a cancelled run changes neither the variables nor the
    page. *)
Lemma GameReply_aborted st run g reply :
  nth_error (gameRuns (world st)) run = Some g -> aborted g = true ->
  exists st',
    step (GameReply run reply) st = Some st' /\ mem st' = mem st /\ page st' = page st.
Proof.
  intros Hg Ha. unfold_js. rewrite Hg. simpl_state.
  destruct (awaiting g); simpl_state; [|exists st; auto].
  destruct reply as [e|m|d]; simpl_state;
    rewrite ?nth_error_adjust, ?Hg; simpl_state; rewrite ?Ha; simpl_state;
    eexists; (split; [reflexivity|]); simpl_state; auto.
Qed.

(** Nor does it show an alert, send a request or touch the store. *)
Lemma GameReply_aborted_world st r g reply :
  nth_error (gameRuns (world st)) r = Some g -> aborted g = true ->
  exists st',
    step (GameReply r reply) st = Some st' /\
    alerts (world st') = alerts (world st) /\
    requests (world st') = requests (world st) /\
    store (world st') = store (world st).
Proof.
  intros Hg Ha. unfold_js. rewrite Hg. simpl_state.
  destruct (awaiting g); simpl_state; [|exists st; auto].
  destruct reply as [e|m|d]; simpl_state;
    rewrite ?nth_error_adjust, ?Hg; simpl_state; rewrite ?Ha; simpl_state;
    eexists; (split; [reflexivity|]); simpl_state; auto.
Qed.

(** The cancel listeners show no alert and leave the store alone. *)
Lemma forEach_abortHandler_quiet l : forall st st',
  forEach l abortHandler st = Some (tt, st') ->
  alerts (world st') = alerts (world st) /\ store (world st') = store (world st).
Proof.
  induction l as [|r l IH]; intros st st' E; cbn [forEach] in E.
  - unfold ret in E. injection E as <-. auto.
  - unfold bind in E.
    destruct (abortHandler_effect r st) as (st1 & E1 & _). rewrite E1 in E.
    destruct (IH st1 st' E) as [A S]. rewrite A, S.
    revert E1. unfold_js. intros E1. injection E1 as <-. simpl_state. auto.
Qed.

(** A run that can be cancelled stays so under every event but the click
    on the cancel button and its own reply. *)
Lemma cancellable_step r ev st :
  cancellable r st ->
  ev <> ClickExitGameLoading ->
  (forall reply, ev <> GameReply r reply) ->
  match step ev st with
  | Some st' => cancellable r st'
  | None => True
  end.
Proof.
  intros H Hx Hr.
  destruct ev;
    try (go; try exact I; unfold cancellable in *; simpl_state; exact H).
  - (* ClickStartGame *)
    go; try exact I; unfold cancellable in *; simpl_state; try exact H.
    destruct H as (g & Hg & Ha & Hb & Hl).
    exists g. rewrite nth_error_app1 by (apply nth_error_Some; congruence).
    repeat split; auto. apply in_or_app. left. exact Hl.
  - (* GameReply *)
    rename run0 into k.
    assert (N : k <> r) by (intros ->; apply (Hr reply); reflexivity).
    assert (K : forall s : App,
      gameRuns (world s) = gameRuns (world st) \/
      (exists f, gameRuns (world s) = adjust f k (gameRuns (world st))) ->
      abortListeners (page s) = abortListeners (page st) \/
      abortListeners (page s)
      = filter (fun x => negb (Nat.eqb x k)) (abortListeners (page st)) ->
      cancellable r s).
    { intros s Hs Hl. destruct H as (g & Hg & Ha & Hb & Hin). exists g.
      split; [|split; [exact Ha|split; [exact Hb|]]].
      - destruct Hs as [->|[f ->]]; [exact Hg|].
        rewrite nth_error_adjust_other by exact N. exact Hg.
      - destruct Hl as [->| ->]; [exact Hin|].
        apply filter_In. split; [exact Hin|].
        apply negb_true_iff, Nat.eqb_neq. congruence. }
    unfold step, listener.
    destruct (nth_error (gameRuns (world st)) k) as [g0|] eqn:Hg0; [|exact H].
    destruct (awaiting g0); [|exact H].
    unfold exec, startGameBtn_settled. unfold_js. simpl_state.
    destruct reply as [e|m|[[|c cs]|]]; simpl_state;
      repeat (rewrite !nth_error_adjust, ?Hg0; simpl_state);
      destruct (aborted g0) eqn:Hb0; simpl_state;
      repeat (rewrite !nth_error_adjust, ?Hg0; simpl_state; rewrite ?Hb0; simpl_state);
      cbn [nth_error Nat.leb length]; simpl_state;
      apply K; simpl_state;
      rewrite ?adjust_adjust;
      first [ left; reflexivity | right; eexists; reflexivity | right; reflexivity ].
  - (* GameTick *)
    rename run0 into k.
    unfold step, listener.
    destruct (nth_error (gameRuns (world st)) k) as [g0|] eqn:Hg0; [|exact H].
    destruct (interval g0); [|exact H].
    unfold exec. unfold_js. rewrite Hg0. simpl_state. cbn [length].
    destruct (nth_error _ ((messageIndex g0 + 1) mod 5)) as [m|]; [|exact I].
    simpl_state. destruct H as (g & Hg & Ha & Hb & Hin).
    unfold cancellable. simpl_state.
    destruct (Nat.eq_dec k r) as [->|N].
    + rewrite Hg0 in Hg. injection Hg as ->.
      eexists. rewrite nth_error_adjust, Hg0. cbn [option_map].
      split; [reflexivity|]. simpl_state. auto.
    + exists g. rewrite nth_error_adjust_other by exact N. auto.
  - (* ClickExitGameLoading *)
    exfalso. apply Hx. reflexivity.
Qed.

Lemma cancellable_run r evs : forall st st',
  cancellable r st ->
  run evs st = Some st' ->
  ~ In ClickExitGameLoading evs ->
  (forall reply, ~ In (GameReply r reply) evs) ->
  cancellable r st'.
Proof.
  induction evs as [|ev evs IH]; intros st st' H E Hx Hr; cbn [run] in E.
  - injection E as <-. exact H.
  - destruct (step ev st) as [st1|] eqn:E1; [|discriminate].
    apply (IH st1 st'); [|exact E| |].
    + pose proof (cancellable_step r ev st H) as S. rewrite E1 in S. apply S.
      * intros ->. apply Hx. left. reflexivity.
      * intros reply ->. apply (Hr reply). left. reflexivity.
    + intros Hin. apply Hx. right. exact Hin.
    + intros reply Hin. apply (Hr reply). right. exact Hin.
Qed.

(** The flashcards are replaced by a reply of the service and emptied by
    the exit from the game, and by nothing else. *)
Lemma step_flashcards ev st :
  match step ev st with
  | Some st' =>
      flashcards (mem st') = flashcards (mem st) \/
      (exists r reply, ev = GameReply r reply) \/ ev = ClickExitGame
  | None => True
  end.
Proof.
  destruct ev;
    try (go; try exact I; simpl_state;
         first [ left; reflexivity
               | right; left; do 2 eexists; reflexivity
               | right; right; reflexivity ]; fail).
  unfold step, listener.
  destruct (clickable (page st) exitGameLoadingBtn); [|left; reflexivity].
  unfold exec.
  destruct (exitGameLoadingBtn_click_effect st) as (st' & E & M & _).
  rewrite E, M. left. reflexivity.
Qed.

Lemma run_flashcards evs : forall st st',
  run evs st = Some st' ->
  (forall r reply, ~ In (GameReply r reply) evs) ->
  ~ In ClickExitGame evs ->
  flashcards (mem st') = flashcards (mem st).
Proof.
  induction evs as [|ev evs IH]; intros st st' E Hr Hx; cbn [run] in E.
  - injection E as <-. reflexivity.
  - destruct (step ev st) as [st1|] eqn:E1; [|discriminate].
    rewrite (IH st1 st' E).
    + pose proof (step_flashcards ev st) as S. rewrite E1 in S.
      destruct S as [S|[(r & reply & ->)| ->]]; [exact S| |].
      * exfalso. apply (Hr r reply). left. reflexivity.
      * exfalso. apply Hx. left. reflexivity.
    + intros r reply Hin. apply (Hr r reply). right. exact Hin.
    + intros Hin. apply Hx. right. exact Hin.
Qed.

(** C10. The click on [startGameBtn] starts the generation without
    touching a variable or showing an alert.  Whatever happens while the
    reply of the service is awaited (ticks of the loading interval, other
    clicks, replies to other calls), as long as this reply has not arrived
    and the cancel button has not been clicked, a click on the cancel
    button, when the button takes it, brings the page back to rest,
    changes no variable (the flashcards are not replaced) and no text, and
    shows no alert.  Whenever the reply of the service arrives afterwards,
    whatever it is and whatever happened in between, it changes neither the
    variables, nor the page, nor the alerts, the requests and the store. *)
Theorem cancelled_generation_is_dropped st af :
  activeFile (mem st) = Some af ->
  clickable (page st) startGameBtn = true ->
  exists st1,
    step ClickStartGame st = Some st1 /\
    mem st1 = mem st /\
    alerts (world st1) = alerts (world st) /\
    textContent (page st1) exitGameLoadingBtn = "Cancel" /\
    In (textContent (page st1) gameLoadingStatus) loadingMessages /\
    (classList (page st) exitGameLoadingBtn hidden = false ->
     disabled (page st) exitGameLoadingBtn = false ->
     clickable (page st1) exitGameLoadingBtn = true) /\
    forall evs st2,
      run evs st1 = Some st2 ->
      ~ In ClickExitGameLoading evs ->
      (forall reply, ~ In (GameReply (length (gameRuns (world st))) reply) evs) ->
      clickable (page st2) exitGameLoadingBtn = true ->
      exists st3,
        step ClickExitGameLoading st2 = Some st3 /\
        idle (page st3) = true /\
        mem st3 = mem st2 /\
        textContent (page st3) = textContent (page st2) /\
        alerts (world st3) = alerts (world st2) /\
        requests (world st3) = requests (world st2) /\
        store (world st3) = store (world st2) /\
        ((forall r reply, ~ In (GameReply r reply) evs) ->
         ~ In ClickExitGame evs ->
         flashcards (mem st3) = flashcards (mem st)) /\
        forall evs' st4,
          run evs' st3 = Some st4 ->
          forall reply,
          exists st5,
            step (GameReply (length (gameRuns (world st))) reply) st4 = Some st5 /\
            mem st5 = mem st4 /\
            page st5 = page st4 /\
            alerts (world st5) = alerts (world st4) /\
            requests (world st5) = requests (world st4) /\
            store (world st5) = store (world st4).
Proof.
  intros Haf Hc.
  assert (E1 : exists st1, step ClickStartGame st = Some st1 /\
    mem st1 = mem st /\
    alerts (world st1) = alerts (world st) /\
    textContent (page st1) exitGameLoadingBtn = "Cancel" /\
    textContent (page st1) gameLoadingStatus = "Analyzing your document..." /\
    (classList (page st) exitGameLoadingBtn hidden = false ->
     disabled (page st) exitGameLoadingBtn = false ->
     clickable (page st1) exitGameLoadingBtn = true) /\
    cancellable (length (gameRuns (world st))) st1).
  { unfold_js. rewrite Hc, Haf. simpl_state.
    eexists; split; [reflexivity|]. unfold clickable, cancellable. simpl_state.
    do 4 (split; [reflexivity|]). split.
    - intros Hh Hd. rewrite Hh, Hd. reflexivity.
    - eexists. rewrite nth_error_app2, Nat.sub_diag by lia.
      split; [reflexivity|]. simpl_state.
      repeat split. apply in_or_app. right. left. reflexivity. }
  destruct E1 as (st1 & E1 & M1 & A1 & B1 & T1 & C1 & L1).
  exists st1. do 4 (split; [assumption|]).
  split; [rewrite T1; left; reflexivity|]. split; [exact C1|].
  intros evs st2 R Hx Hr Hc2.
  destruct (cancellable_run _ evs st1 st2 L1 R Hx Hr) as (g & Hg & Ha & Hb & Hin).
  destruct (exitGameLoadingBtn_click_effect st2)
    as (st3 & E3 & M3 & T3 & _ & _ & Q3 & _ & I3 & A3).
  destruct (forEach_abortHandler_quiet (abortListeners (page st2))
              (set page (set abortListeners (fun _ => [])) st2) st3) as [Al3 S3].
  { revert E3. unfold exitGameLoadingBtn_click, bind, gets, modify. intros E3. exact E3. }
  simpl_state.
  assert (N : abortListeners (page st2) <> [])
    by (intros H; rewrite H in Hin; exact Hin).
  exists st3.
  split; [unfold step, listener; rewrite Hc2; unfold exec; rewrite E3; reflexivity|].
  split; [exact (proj1 (I3 N))|].
  do 5 (split; [assumption|]).
  split.
  - intros Hr' Hx'. rewrite M3, (run_flashcards evs st1 st2 R Hr' Hx'), M1. reflexivity.
  - intros evs' st4 R' reply.
    destruct (A3 _ g Hin Hg) as (g3 & Hg3 & Ab3).
    destruct (run_keepsAborted evs' st3 st4 R' _ _ Hg3 Ab3) as (g4 & Hg4 & Ab4).
    destruct (GameReply_aborted st4 _ g4 reply Hg4 Ab4) as (st5 & E5 & M5 & P5).
    destruct (GameReply_aborted_world st4 _ g4 reply Hg4 Ab4) as (st5' & E5' & A5 & Q5 & S5).
    rewrite E5 in E5'. injection E5' as <-.
    exists st5. auto 10.
Qed.

(** ** The bounds of the indices *)

(** C3.  From the first state, on a page whose markup shows neither the
    quiz, nor the results, nor the game, in every state the events reach:
    the question index is at most the length of the sequence in use (the
    questions, or the mistake log during the review); with the flashcard
    shown the card index is below the number of cards, and with the game
    results shown it is at most that number; every event is handled without
    a read outside an array; a click on the next button at the last
    question, or at the last mistake, shows the results; and a click on
    either of the two card controls at the last card shows the game
    results.  After the exit from the game no deck is in use: the exit
    empties the cards, and [startGame] sets the index to 0 before the next
    card is read. *)
Theorem index_within_bounds p records st :
  opening p = true ->
  reachable (initial p records) st ->
  currentQuestionIndex (mem st) <= activeLength (mem st) /\
  (displayed (page st) gameContainer = true ->
   currentCardIndex (mem st) < length (flashcards (mem st))) /\
  (displayed (page st) gameResultsSection = true ->
   currentCardIndex (mem st) <= length (flashcards (mem st))) /\
  (forall ev, exists st', step ev st = Some st') /\
  (clickable (page st) nextQuestionBtn = true ->
   S (currentQuestionIndex (mem st)) = activeLength (mem st) ->
   exists st',
     step ClickNext st = Some st' /\
     displayed (page st') resultsSection = true /\
     currentQuestionIndex (mem st') = S (currentQuestionIndex (mem st))) /\
  (forall ev control,
   (ev, control) = (ClickKnewIt, knewItBtn) \/ (ev, control) = (ClickDidntKnow, didntKnowBtn) ->
   clickable (page st) control = true ->
   S (currentCardIndex (mem st)) = length (flashcards (mem st)) ->
   exists st',
     step ev st = Some st' /\
     displayed (page st') gameResultsSection = true /\
     currentCardIndex (mem st') = length (flashcards (mem st'))).
Proof.
  intros Hp R.
  pose proof (Inv_reachable _ _ (Inv_initial p records Hp) R) as I.
  split; [exact (inv_index _ I)|].
  split; [exact (inv_card _ I)|].
  split; [exact (inv_game_results _ I)|].
  split; [intros ev; destruct (Inv_step st ev I) as (st' & E & _); exists st'; exact E|].
  split.
  - intros Hc Hl. unfold activeLength in Hl.
    destruct (isReviewingMistakes (mem st)) eqn:Hr.
    + destruct (inv_review _ I Hr) as (Rule & _ & _).
      unfold_js. rewrite Hc. simpl_state. rewrite Hr.
      assert (L : Nat.ltb (S (currentQuestionIndex (mem st)))
                          (length (incorrectAnswers (mem st))) = false)
        by (apply Nat.ltb_ge; lia).
      repeat (simpl_state; rewrite ?L).
      unfold reviewRule in Rule. rewrite Rule. simpl_state.
      eexists; split; [reflexivity|]. simpl_state. auto.
    + destruct (step_ClickNext_results st Hr Hc) as (st' & E & Hd & _ & _ & _ & _ & _ & Hi & _);
        [lia|].
      exists st'. auto.
  - intros ev control Hev Hc Hl.
    assert (L : Nat.leb (length (flashcards (mem st))) (S (currentCardIndex (mem st))) = true)
      by (apply Nat.leb_le; lia).
    destruct Hev as [Hev | Hev]; injection Hev as -> ->; unfold_js.
    all: rewrite Hc; repeat (simpl_state; rewrite ?L).
    all: (eexists; split; [reflexivity|]); simpl_state.
    all: split; [|exact Hl].
    all: unfold clickable, displayed, containers in Hc; cbn [forallb] in Hc.
    all: destruct (classList (page st) gameSection hidden); [|reflexivity].
    all: exfalso; repeat (rewrite ?andb_false_r in Hc; cbn in Hc); discriminate Hc.
Qed.

(** * The rest of the script *)

(** A sequence of events in two parts. *)
Lemma run_app a : forall b s s', run a s = Some s' -> run (a ++ b) s = run b s'.
Proof.
  induction a as [|x a IHa]; intros b s s' H; cbn [run app] in *.
  - injection H as <-. reflexivity.
  - destruct (step x s); [|discriminate]. apply IHa. exact H.
Qed.

(** ** The flashcard game *)

(** One card, flipped and answered. *)
Lemma playing_one st (b : bool) :
  CardShown st ->
  exists st',
    run (playing [b]) st = Some st' /\
    knownCardsCount (mem st') = knownCardsCount (mem st) + (if b then 1 else 0) /\
    currentCardIndex (mem st') = S (currentCardIndex (mem st)) /\
    flashcards (mem st') = flashcards (mem st) /\
    (S (currentCardIndex (mem st)) < length (flashcards (mem st)) -> CardShown st') /\
    (length (flashcards (mem st)) <= S (currentCardIndex (mem st)) ->
     displayed (page st') gameResultsSection = true /\
     displayed (page st') gameContainer = false /\
     textContent (page st') gameResultsHeadingEl =
       gameOver (knownCardsCount (mem st')) (length (flashcards (mem st')))).
Proof.
  intros [Hs Hc Hf Hfr [Hk Hkd] [Hn Hnd] Hi].
  unfold playing, gameOver. cbn [flat_map app run].
  destruct (Nat.leb (length (flashcards (mem st))) (S (currentCardIndex (mem st)))) eqn:L;
    destruct b; unfold_js; unfold clickable; simpl_state;
    repeat (progress (rewrite ?Hs, ?Hc, ?Hf, ?Hfr, ?Hk, ?Hkd, ?Hn, ?Hnd, ?L); simpl_state).
  all: try (destruct (nth_error (flashcards (mem st)) (S (currentCardIndex (mem st))))
              eqn:E; [|bool_norm; nofault]); simpl_state.
  all: eexists; (split; [reflexivity|]); simpl_state; rewrite ?Hs; bool_norm.
  all: repeat split; simpl_state; rewrite ?Hs; auto; try lia; try (exfalso; lia).
Qed.

(** X1.  Playing the cards to the end: from a card on display, when every
    card from this one on is flipped and answered, the game results are
    shown in place of the card, the card index is the number of cards, the
    count of known cards has grown by the number of clicks on [knewItBtn],
    and the heading reports that count and the number of cards. *)
Theorem game_counts_known_cards knew : forall st,
  CardShown st ->
  currentCardIndex (mem st) + length knew = length (flashcards (mem st)) ->
  exists st',
    run (playing knew) st = Some st' /\
    displayed (page st') gameResultsSection = true /\
    displayed (page st') gameContainer = false /\
    flashcards (mem st') = flashcards (mem st) /\
    currentCardIndex (mem st') = length (flashcards (mem st)) /\
    knownCardsCount (mem st') =
      knownCardsCount (mem st) + length (filter (fun b : bool => b) knew) /\
    textContent (page st') gameResultsHeadingEl =
      gameOver (knownCardsCount (mem st')) (length (flashcards (mem st))).
Proof.
  induction knew as [|b knew IH]; intros st C Hl.
  - pose proof (card_index _ C). cbn [length] in Hl. lia.
  - destruct (playing_one st b C) as (st1 & E1 & Hk & Hi & Hf & Hnext & Hlast).
    assert (R : run (playing (b :: knew)) st = run (playing knew) st1).
    { unfold playing in *. cbn [flat_map app run] in *.
      destruct (step ClickFlashcard st) as [s1|]; [|discriminate].
      destruct (step (if b then ClickKnewIt else ClickDidntKnow) s1) as [s2|]; [|discriminate].
      injection E1 as <-. reflexivity. }
    rewrite R. cbn [length] in Hl.
    destruct knew as [|b' knew].
    + exists st1. cbn [playing flat_map run filter length] in *.
      destruct Hlast as (D1 & D2 & T); [lia|].
      rewrite Hf in T.
      repeat split; auto; try lia. destruct b; cbn [filter length]; lia.
    + destruct (IH st1) as (st' & E & D1 & D2 & F & I & K & T).
      * apply Hnext. cbn [length] in Hl. lia.
      * rewrite Hi, Hf. cbn [length] in *. lia.
      * exists st'. split; [exact E|]. split; [exact D1|]. split; [exact D2|].
        split; [congruence|]. split; [congruence|].
        split; [rewrite K, Hk; cbn [filter]; destruct b; cbn [length]; lia|].
        rewrite T, Hf. reflexivity.
Qed.

(** X2.  A reply with flashcards on a run that was not cancelled starts the
    game: the cards of the reply are the deck, the card index and the count
    of known cards are 0, the first card is shown front up with its term,
    its definition and the progress text, the loader is hidden, the
    interval of the loading messages is cleared and the cancel listener of
    the run is removed; and as long as the card is not flipped a click on
    either answer control does nothing. *)
Theorem game_reply_starts_game st run g c cs :
  nth_error (gameRuns (world st)) run = Some g ->
  awaiting g = true ->
  aborted g = false ->
  exists st',
    step (GameReply run (Parsed (Some (c :: cs)))) st = Some st' /\
    flashcards (mem st') = c :: cs /\
    currentCardIndex (mem st') = 0 /\
    knownCardsCount (mem st') = 0 /\
    textContent (page st') flashcardTermEl = term c /\
    textContent (page st') flashcardDefinitionEl = definition c /\
    textContent (page st') cardProgressEl
      = ("Card " ++ JS.show_nat 1 ++ " of " ++ JS.show_nat (S (length cs)))%string /\
    classList (page st') flashcardEl is_flipped = false /\
    classList (page st') gameContainer hidden = false /\
    classList (page st') gameLoadingContainer hidden = true /\
    classList (page st') gameResultsSection hidden = true /\
    ~ In run (abortListeners (page st')) /\
    nth_error (gameRuns (world st')) run
      = Some {| awaiting := false; aborted := false; interval := false;
                messageIndex := messageIndex g |} /\
    step ClickKnewIt st' = Some st' /\
    step ClickDidntKnow st' = Some st'.
Proof.
  intros Hg Ha Hb. unfold_js. rewrite Hg. simpl_state. rewrite Ha. simpl_state.
  rewrite !nth_error_adjust, Hg. simpl_state. rewrite Hb. simpl_state.
  eexists; split; [reflexivity|]. simpl_state.
  rewrite !nth_error_adjust, Hg. simpl_state. rewrite Hb.
  repeat (split; [reflexivity|]).
  split; [|split; [reflexivity|]].
  - intros H. apply filter_In in H. destruct H as [_ H].
    rewrite Nat.eqb_refl in H. discriminate H.
  - unfold_js. unfold clickable. simpl_state. rewrite !andb_false_r. simpl_state.
    split; reflexivity.
Qed.

(** X3.  A flashcard generation that fails without having been cancelled
    leaves the variables, the classes and the disabled flags as they are,
    clears the interval, shows the failure text in the loader and turns the
    text of the cancel button to Exit.  When the call itself was rejected
    the cancel listener is still registered, and the click on the button
    brings the page back to rest.  When the reply arrived but does not
    parse or holds no flashcards, the listener was removed before the
    parse: with no other listener registered, the click changes neither the
    variables, nor the classes, nor the disabled flags. *)
Theorem failed_generation_exit st run g reply :
  nth_error (gameRuns (world st)) run = Some g ->
  awaiting g = true ->
  aborted g = false ->
  (forall c cs, reply <> Parsed (Some (c :: cs))) ->
  clickable (page st) exitGameLoadingBtn = true ->
  exists st1 st2,
    step (GameReply run reply) st = Some st1 /\
    mem st1 = mem st /\
    classList (page st1) = classList (page st) /\
    disabled (page st1) = disabled (page st) /\
    textContent (page st1) gameLoadingStatus = gameFailureText reply /\
    textContent (page st1) exitGameLoadingBtn = "Exit" /\
    nth_error (gameRuns (world st1)) run
      = Some {| awaiting := false; aborted := false; interval := false;
                messageIndex := messageIndex g |} /\
    step ClickExitGameLoading st1 = Some st2 /\
    mem st2 = mem st /\
    ((exists e, reply = Rejected e) ->
     In run (abortListeners (page st)) ->
     idle (page st2) = true) /\
    ((forall e, reply <> Rejected e) ->
     abortListeners (page st) = [run] ->
     classList (page st2) = classList (page st) /\
     disabled (page st2) = disabled (page st)).
Proof.
  intros Hg Ha Hb Hreply Hc.
  assert (E1 : exists st1,
    step (GameReply run reply) st = Some st1 /\
    mem st1 = mem st /\
    classList (page st1) = classList (page st) /\
    disabled (page st1) = disabled (page st) /\
    textContent (page st1) gameLoadingStatus = gameFailureText reply /\
    textContent (page st1) exitGameLoadingBtn = "Exit" /\
    nth_error (gameRuns (world st1)) run
      = Some {| awaiting := false; aborted := false; interval := false;
                messageIndex := messageIndex g |} /\
    abortListeners (page st1) =
      match reply with
      | Rejected _ => abortListeners (page st)
      | _ => filter (fun r => negb (Nat.eqb r run)) (abortListeners (page st))
      end).
  { unfold_js. rewrite Hg. simpl_state. rewrite Ha. simpl_state.
    destruct reply as [e|m|[[|c cs]|]]; simpl_state;
      try (exfalso; apply (Hreply c cs); reflexivity);
      repeat (rewrite !nth_error_adjust, ?Hg; simpl_state; rewrite ?Hb; simpl_state);
      (eexists; split; [reflexivity|]); simpl_state;
      repeat (rewrite !nth_error_adjust, ?Hg; simpl_state; rewrite ?Hb; simpl_state);
      try destruct e; repeat split. }
  destruct E1 as (st1 & E1 & M1 & C1 & D1 & T1 & T2 & G1 & L1).
  destruct (exitGameLoadingBtn_click_effect st1) as (st2 & E2 & M2 & _ & _ & _ & _ & _ & I2 & _).
  exists st1, st2. rewrite E1.
  do 7 (split; [assumption || reflexivity|]).
  split; [|split; [congruence|split]].
  - unfold step, listener, clickable, displayed. rewrite C1, D1.
    unfold clickable, displayed in Hc. rewrite Hc. unfold exec. rewrite E2. reflexivity.
  - intros [e ->] Hin. apply I2. rewrite L1. intros H. rewrite H in Hin. exact Hin.
  - intros Hr Hl. rewrite Hl in L1.
    assert (L : abortListeners (page st1) = []).
    { rewrite L1. destruct reply; [exfalso; eapply Hr; reflexivity| |];
        cbn [filter]; rewrite Nat.eqb_refl; reflexivity. }
    unfold exitGameLoadingBtn_click in E2. unfold_js. unfold bind, gets, modify in E2.
    rewrite L in E2. cbn [forEach] in E2. unfold ret in E2.
    injection E2 as <-. simpl_state. rewrite C1, D1. split; reflexivity.
Qed.

(** ** The loading messages *)

Lemma GameTick_effect st r g :
  nth_error (gameRuns (world st)) r = Some g ->
  interval g = true ->
  exists st',
    step (GameTick r) st = Some st' /\
    mem st' = mem st /\
    classList (page st') = classList (page st) /\
    disabled (page st') = disabled (page st) /\
    nth_error (gameRuns (world st')) r
      = Some {| awaiting := awaiting g; aborted := aborted g; interval := true;
                messageIndex := (messageIndex g + 1) mod 5 |} /\
    nth_error loadingMessages ((messageIndex g + 1) mod 5)
      = Some (textContent (page st') gameLoadingStatus).
Proof.
  intros Hg Hi. unfold_js.
  repeat (progress (rewrite ?Hg, ?Hi); simpl_state). cbn [length].
  destruct (nth_error _ ((messageIndex g + 1) mod 5)) as [m|] eqn:E; [|nofault].
  simpl_state. eexists; split; [reflexivity|]. simpl_state.
  rewrite nth_error_adjust, Hg. simpl_state. rewrite Hi. repeat split.
Qed.

(** X4.  While the flashcard generation is awaited, the loader goes
    through the five loading messages in a cycle: after [k] ticks of the
    interval, [k] not 0, it shows the message at position
    (messageIndex + k) mod 5, whatever [k]; no tick reads outside the
    messages or touches the variables, the classes or the disabled flags. *)
Theorem loading_messages_cycle k : forall st r g,
  nth_error (gameRuns (world st)) r = Some g ->
  interval g = true ->
  messageIndex g < length loadingMessages ->
  exists st',
    run (repeat (GameTick r) k) st = Some st' /\
    mem st' = mem st /\
    classList (page st') = classList (page st) /\
    disabled (page st') = disabled (page st) /\
    nth_error (gameRuns (world st')) r
      = Some {| awaiting := awaiting g; aborted := aborted g; interval := true;
                messageIndex := (messageIndex g + k) mod 5 |} /\
    (0 < k ->
     nth_error loadingMessages ((messageIndex g + k) mod 5)
       = Some (textContent (page st') gameLoadingStatus)).
Proof.
  induction k as [|k IH]; intros st r g Hg Hi Hm.
  - exists st. cbn [repeat run]. rewrite Nat.add_0_r, Nat.mod_small by exact Hm.
    repeat split; [|lia]. rewrite Hg. destruct g. simpl_state. rewrite Hi. reflexivity.
  - cbn [length loadingMessages] in Hm.
    assert (S1 : forall j, (messageIndex g + S j) mod 5 = ((messageIndex g + j) mod 5 + 1) mod 5).
    { intros j. rewrite Nat.Div0.add_mod_idemp_l. f_equal. lia. }
    destruct (IH st r g Hg Hi Hm) as (st1 & E1 & M1 & C1 & D1 & G1 & T1).
    destruct (GameTick_effect st1 r _ G1 eq_refl) as (st2 & E2 & M2 & C2 & D2 & G2 & T2).
    simpl_state.
    exists st2. replace (S k) with (k + 1) by lia.
    rewrite repeat_app.
    rewrite (run_app _ _ _ _ E1). cbn [repeat run]. rewrite E2.
    replace (k + 1) with (S k) by lia. rewrite S1.
    split; [reflexivity|]. split; [congruence|]. split; [congruence|]. split; [congruence|].
    split; [exact G2|]. intros _. exact T2.
Qed.

(** ** The requests to the service *)

Lemma step_requests ev st :
  match step ev st with
  | Some st' =>
      requests (world st') = requests (world st) \/
      exists r,
        activeFile (mem st) = Some (request_item r) /\
        requests (world st') = requests (world st) ++ [r] /\
        (ev = ClickAsk \/ ev = ClickStartQuiz \/ ev = ClickStartGame)
  | None => True
  end.
Proof.
  destruct ev;
    try (go; try exact I;
         first [ left; reflexivity
               | right; eexists; split; [|split; [reflexivity|]];
                 [ simpl_state; cbn [request_item]; try eassumption; reflexivity | auto ] ];
         fail).
  unfold step, listener.
  destruct (clickable (page st) exitGameLoadingBtn); [|left; reflexivity].
  unfold exec.
  destruct (exitGameLoadingBtn_click_effect st) as (st' & E & _ & _ & _ & _ & R & _).
  rewrite E. left. exact R.
Qed.

(** X5.  Whatever the event, the script sends at most one request to the
    service, only on a click on one of the three start controls, and the
    request carries the material that is active at that moment; with no
    active material nothing is ever sent. *)
Theorem request_carries_active_material ev st st' :
  step ev st = Some st' ->
  (requests (world st') = requests (world st) \/
   exists r,
     activeFile (mem st) = Some (request_item r) /\
     requests (world st') = requests (world st) ++ [r] /\
     (ev = ClickAsk \/ ev = ClickStartQuiz \/ ev = ClickStartGame))
  /\
  (activeFile (mem st) = None -> requests (world st') = requests (world st)).
Proof.
  intros E. pose proof (step_requests ev st) as H. rewrite E in H.
  split; [exact H|].
  intros Ha. destruct H as [H|(r & H & _)]; [exact H|]. congruence.
Qed.

(** ** Asking a question *)

Lemma append_assoc (a b c : string) : (a ++ (b ++ c) = (a ++ b) ++ c)%string.
Proof.
  induction a as [|x a IH]; [reflexivity|].
  change (String x (a ++ (b ++ c)) = String x ((a ++ b) ++ c))%string.
  rewrite IH. reflexivity.
Qed.

Lemma append_empty (a : string) : (a ++ EmptyString)%string = a.
Proof.
  induction a as [|x a IH]; [reflexivity|].
  change (String x (a ++ EmptyString) = String x a)%string. rewrite IH. reflexivity.
Qed.

(** X6.  A click on [askBtn] with no active material, or with a question
    that is empty once trimmed, only shows an alert (the one on the
    material first): no request is sent and neither the variables nor the
    page change.  Otherwise one request goes out with the active material
    and the trimmed question, the answer is emptied and shown as thinking,
    and the input and the three start controls are disabled until the call
    settles. *)
Theorem ask_click_outcome st :
  clickable (page st) askBtn = true ->
  exists st',
    step ClickAsk st = Some st' /\
    mem st' = mem st /\
    match activeFile (mem st), trim (value (page st) questionInput) with
    | None, _ =>
        page st' = page st /\ requests (world st') = requests (world st) /\
        alerts (world st') =
          alerts (world st) ++ ["Please upload and process your study material first!"]
    | Some _, EmptyString =>
        page st' = page st /\ requests (world st') = requests (world st) /\
        alerts (world st') = alerts (world st) ++ ["Please enter a question!"]
    | Some af, q =>
        requests (world st') = requests (world st) ++ [AskRequest af q] /\
        alerts (world st') = alerts (world st) /\
        askRuns (world st') = askRuns (world st) ++ [AskAwaiting] /\
        textContent (page st') answerEl = EmptyString /\
        classList (page st') answerSection hidden = false /\
        classList (page st') answerSection thinking = true /\
        Forall (fun e => disabled (page st') e = true)
               [askBtn; questionInput; startQuizBtn; startGameBtn]
    end.
Proof.
  intros Hc. unfold_js. rewrite Hc. simpl_state.
  destruct (activeFile (mem st)) as [af|]; simpl_state;
    [destruct (trim (value (page st) questionInput)) as [|x q]; simpl_state|];
    (eexists; split; [reflexivity|]); simpl_state;
    repeat split; repeat constructor.
Qed.

(** The chunks of a stream, one after the other. *)
Lemma run_AskChunk r chunks : forall st,
  nth_error (askRuns (world st)) r = Some AskAwaiting ->
  exists st',
    run (map (AskChunk r) chunks) st = Some st' /\
    mem st' = mem st /\
    world st' = world st /\
    classList (page st') = classList (page st) /\
    disabled (page st') = disabled (page st) /\
    textContent (page st') answerEl
      = (textContent (page st) answerEl ++ fold_right String.append EmptyString chunks)%string.
Proof.
  induction chunks as [|c chunks IH]; intros st Hr.
  - exists st. cbn [map run fold_right]. rewrite append_empty. repeat split.
  - cbn [map run fold_right]. unfold_js. rewrite Hr. simpl_state.
    match goal with |- context [run _ ?s] => destruct (IH s) as (st' & E & M & W & C & D & T) end;
      [simpl_state; exact Hr|].
    rewrite E. exists st'. simpl_state.
    split; [reflexivity|]. rewrite M, W, C, D, T. simpl_state.
    rewrite append_assoc. repeat split.
Qed.

(** X7.  The answer is the stream in order: while a call of the ask
    listener is awaited, the chunks that arrive are appended to the answer,
    so that when the stream ends the answer is what it was at the start
    followed by all chunks; when the call or the stream fails with a
    message, the answer is replaced by the failure text with the message.
    Either way the input and the three start controls are enabled again,
    the thinking mark is removed and the variables are untouched. *)
Theorem ask_stream_answer st r chunks err :
  nth_error (askRuns (world st)) r = Some AskAwaiting ->
  exists st',
    run (map (AskChunk r) chunks ++ [AskSettled r err]) st = Some st' /\
    mem st' = mem st /\
    textContent (page st') answerEl =
      match err with
      | None => textContent (page st) answerEl ++ fold_right String.append EmptyString chunks
      | Some m =>
          "An error occurred while fetching the answer. Please try again. " ++ JS.newline ++ m
      end%string /\
    Forall (fun e => disabled (page st') e = false)
           [askBtn; questionInput; startQuizBtn; startGameBtn] /\
    classList (page st') answerSection thinking = false /\
    nth_error (askRuns (world st')) r = Some AskOver /\
    requests (world st') = requests (world st).
Proof.
  intros Hr.
  destruct (run_AskChunk r chunks st Hr) as (st1 & E & M & W & C & D & T).
  rewrite (run_app _ _ _ _ E). cbn [run]. unfold_js. rewrite W, Hr. simpl_state.
  destruct err as [m|]; simpl_state;
    (eexists; split; [reflexivity|]); simpl_state;
    rewrite ?M, ?T, ?W, ?nth_error_adjust, ?Hr; repeat split; repeat constructor.
Qed.

(** ** The history side bar *)

Lemma renderHistory_rendered st :
  renderHistory st
  = Some (tt, set page (set historyItems
                (fun _ => rendered (activeFile (mem st)) (history (mem st)))) st).
Proof.
  unfold renderHistory. unfold bind at 1, modify at 1. unfold bind at 1, var at 1, gets at 1.
  cbn [mem set set_page]. unfold rendered.
  destruct (history (mem st)) as [|x0 h0] eqn:Eh.
  - destruct st as [m p w]; destruct p. unfold appendHistoryLi, modify. cbn. reflexivity.
  - cbn [length Nat.eqb]. rewrite <- Eh. clear Eh x0 h0.
    set (f := fun item : HistoryItem =>
        {| li_text := name item; li_id := Some (id item);
           li_active := match activeFile (mem st) with
                        | Some af => String.eqb (id af) (id item)
                        | None => false
                        end |}).
    assert (H : forall l s, activeFile (mem s) = activeFile (mem st) ->
      forEach l (fun item => a <- var activeFile;; appendHistoryLi
        {| li_text := name item; li_id := Some (id item);
           li_active := match a with
                        | Some af => String.eqb (id af) (id item)
                        | None => false
                        end |}) s
      = forEach l (fun o => appendHistoryLi (f o)) s).
    { induction l as [|x r IH]; intros s Hs; [reflexivity|].
      cbn [forEach]. unfold bind at 1. unfold bind at 1, var at 1, gets at 1.
      rewrite Hs. fold (f x). unfold bind at 2.
      destruct (appendHistoryLi (f x) s) as [[u s']|] eqn:E; [|reflexivity].
      apply IH. unfold appendHistoryLi, modify in E. injection E as _ <-.
      cbn. exact Hs. }
    rewrite H by reflexivity. rewrite forEach_appendHistoryLi.
    destruct st as [m p w]; destruct p. cbn. reflexivity.
Qed.

Lemma find_id_nth (h : list HistoryItem) : forall k item,
  NoDup (map id h) -> nth_error h k = Some item ->
  find (fun x => String.eqb (id x) (id item)) h = Some item.
Proof.
  induction h as [|x h IH]; intros [|k] item N H; cbn [nth_error] in H; try discriminate.
  - injection H as ->. cbn [find]. rewrite String.eqb_refl. reflexivity.
  - cbn [find]. inversion N as [|? ? Hx N']; subst.
    destruct (String.eqb (id x) (id item)) eqn:E.
    + apply String.eqb_eq in E. exfalso. apply Hx. rewrite E.
      apply in_map. eapply nth_error_In. exact H.
    + exact (IH k item N' H).
Qed.

(** X8.  A click on an entry of the history list loads the first item of
    the history that has the id of the entry: it becomes the active
    material (the other variables stay as they are), the status names it,
    the question input is emptied, the answer, quiz, results and game
    sections are hidden and the ask view is shown, the three start controls
    are enabled, the list is rendered anew with the active mark on the
    entries of that id, and the side bar is closed.  When no item has the
    id, and on the placeholder of the empty list, the click changes
    nothing.  On a list rendered from a history with pairwise distinct
    ids, the entry at position [k] loads the item at position [k]. *)
Theorem history_entry_click st k li :
  nth_error (historyItems (page st)) k = Some li ->
  displayed (page st) historyList = true ->
  match li_id li with
  | None => step (ClickHistoryItem k) st = Some st
  | Some i =>
      match find (fun x => String.eqb (id x) i) (history (mem st)) with
      | None => step (ClickHistoryItem k) st = Some st
      | Some item =>
          exists st',
            step (ClickHistoryItem k) st = Some st' /\
            mem st' = set activeFile (fun _ => Some item) (mem st) /\
            id item = i /\
            historyItems (page st') = rendered (Some item) (history (mem st)) /\
            textContent (page st') statusEl
              = ("Active material: " ++ JS.dquote ++ name item ++ JS.dquote)%string /\
            value (page st') questionInput = EmptyString /\
            Forall (fun e => classList (page st') e hidden = true)
                   [answerSection; quizSection; resultsSection; gameSection] /\
            classList (page st') qaSection hidden = false /\
            classList (page st') appContainer sidebar_open = false /\
            Forall (fun e => disabled (page st') e = false) starters /\
            world st' = world st
      end
  end
  /\
  (historyItems (page st) = rendered (activeFile (mem st)) (history (mem st)) ->
   NoDup (map id (history (mem st))) ->
   forall item, nth_error (history (mem st)) k = Some item ->
   exists st',
     step (ClickHistoryItem k) st = Some st' /\ activeFile (mem st') = Some item).
Proof.
  intros Hk Hd.
  assert (Main : forall i, li_id li = Some i ->
    match find (fun x => String.eqb (id x) i) (history (mem st)) with
    | None => step (ClickHistoryItem k) st = Some st
    | Some item =>
        exists st',
          step (ClickHistoryItem k) st = Some st' /\
          mem st' = set activeFile (fun _ => Some item) (mem st) /\
          id item = i /\
          historyItems (page st') = rendered (Some item) (history (mem st)) /\
          textContent (page st') statusEl
            = ("Active material: " ++ JS.dquote ++ name item ++ JS.dquote)%string /\
          value (page st') questionInput = EmptyString /\
          Forall (fun e => classList (page st') e hidden = true)
                 [answerSection; quizSection; resultsSection; gameSection] /\
          classList (page st') qaSection hidden = false /\
          classList (page st') appContainer sidebar_open = false /\
          Forall (fun e => disabled (page st') e = false) starters /\
          world st' = world st
    end).
  { intros i Hi. destruct li as [t oi a]. cbn [li_id] in Hi. subst oi.
    destruct (find (fun x => String.eqb (id x) i) (history (mem st))) as [item|] eqn:F.
    - pose proof (find_some _ _ F) as [_ Hid]. apply String.eqb_eq in Hid.
      unfold step, listener. rewrite Hk, Hd. unfold exec, loadHistoryItem.
      unfold bind at 1, var at 1, gets at 1. rewrite F.
      unfold_js. simpl_state. rewrite renderHistory_rendered. simpl_state.
      destruct (classList (page st) appContainer sidebar_open) eqn:Es; simpl_state;
        (eexists; split; [reflexivity|]); simpl_state; rewrite ?Es;
        destruct st as [m p w]; destruct m; simpl_state;
        repeat split; repeat constructor; auto.
    - unfold step, listener. rewrite Hk, Hd. unfold exec, loadHistoryItem.
      unfold bind at 1, var at 1, gets at 1. rewrite F. reflexivity. }
  split.
  - destruct (li_id li) as [i|] eqn:Hi; [exact (Main i eq_refl)|].
    unfold step, listener. rewrite Hk. destruct li as [t oi a]. cbn [li_id] in Hi.
    subst oi. reflexivity.
  - intros Hr N item Hitem.
    assert (Hli : li_id li = Some (id item)).
    { rewrite Hr in Hk. unfold rendered in Hk.
      destruct (history (mem st)) as [|x h]; [destruct k; discriminate Hitem|].
      rewrite nth_error_map, Hitem in Hk. cbn [option_map] in Hk.
      injection Hk as <-. reflexivity. }
    pose proof (Main _ Hli) as H.
    rewrite (find_id_nth _ k item N Hitem) in H.
    destruct H as (st' & E & M & _). exists st'. split; [exact E|].
    rewrite M. reflexivity.
Qed.

(** ** Processing a file *)

(** X9.  A file that is read and saved becomes the active material: the
    new item (id from the clock, name and content of the file, its MIME
    type or the fallback when the file has none) is put in front of the
    history and into the store under its id, the list is rendered anew with
    the active mark on it, the three start controls are enabled, the file
    input is cleared and the status reports the success. *)
Theorem upload_success st r file fileContent now stamp o :
  nth_error (uploads (world st)) r = Some (UploadReading file) ->
  db (mem st) = true \/ opens o = true ->
  fails o = None ->
  exists st',
    run [FileRead r (Some fileContent) now stamp; ItemSaved r o] st = Some st' /\
    activeFile (mem st') = Some (uploaded file fileContent now stamp) /\
    history (mem st') = uploaded file fileContent now stamp :: history (mem st) /\
    store (world st') = store_put (uploaded file fileContent now stamp) (store (world st)) /\
    historyItems (page st') =
      rendered (Some (uploaded file fileContent now stamp))
               (uploaded file fileContent now stamp :: history (mem st)) /\
    Forall (fun e => disabled (page st') e = false) starters /\
    files (page st') = None /\
    value (page st') fileInput = EmptyString /\
    textContent (page st') fileInputLabel = chooseFileLabel /\
    textContent (page st') statusEl
      = ("File " ++ JS.dquote ++ file_name file ++ JS.dquote ++ " processed successfully!")%string /\
    nth_error (uploads (world st')) r = Some UploadOver /\
    requests (world st') = requests (world st).
Proof.
  intros Hr Ho Hf. cbn [run]. unfold uploaded.
  unfold step at 1, listener. rewrite Hr. unfold exec, processBtn_read.
  unfold_js. simpl_state.
  rewrite nth_error_adjust, Hr. simpl_state.
  unfold processBtn_saved. unfold_js. simpl_state. rewrite Hf.
  destruct (db (mem st)) eqn:Ed; simpl_state;
    [|destruct Ho as [Ho|Ho]; [discriminate|rewrite Ho; simpl_state]];
    rewrite renderHistory_rendered; simpl_state;
    (eexists; split; [reflexivity|]); simpl_state;
    rewrite ?nth_error_adjust, ?length_adjust, ?Hr; simpl_state;
    repeat split; repeat constructor.
Qed.

(** X10.  A file that cannot be read, or cannot be saved, leaves no active
    material: the status shows the failure (the reason of the store when
    the save failed), the three start controls are disabled, and the store
    and the rendered list are as before.  A file that was read but not
    saved stays in front of the history in memory. *)
Theorem upload_failure st r file :
  nth_error (uploads (world st)) r = Some (UploadReading file) ->
  (forall now stamp,
   exists st',
     step (FileRead r None now stamp) st = Some st' /\
     activeFile (mem st') = None /\
     history (mem st') = history (mem st) /\
     store (world st') = store (world st) /\
     historyItems (page st') = historyItems (page st) /\
     textContent (page st') statusEl = "Error reading or saving file." /\
     Forall (fun e => disabled (page st') e = true) starters)
  /\
  (forall fileContent now stamp o reason,
   saveFailure st o = Some reason ->
   exists st',
     run [FileRead r (Some fileContent) now stamp; ItemSaved r o] st = Some st' /\
     activeFile (mem st') = None /\
     history (mem st') = uploaded file fileContent now stamp :: history (mem st) /\
     store (world st') = store (world st) /\
     historyItems (page st') = historyItems (page st) /\
     textContent (page st') statusEl = reason /\
     Forall (fun e => disabled (page st') e = true) starters).
Proof.
  intros Hr. split.
  - intros now stamp. unfold step, listener. rewrite Hr. unfold exec, processBtn_read.
    unfold_js. simpl_state. eexists; split; [reflexivity|]. simpl_state.
    repeat split; repeat constructor.
  - intros fileContent now stamp o reason Hs. cbn [run]. unfold uploaded.
    unfold step at 1, listener. rewrite Hr. unfold exec, processBtn_read.
    unfold_js. simpl_state.
    rewrite nth_error_adjust, Hr. simpl_state.
    unfold processBtn_saved. unfold_js. simpl_state.
    unfold saveFailure in Hs.
    destruct (db (mem st)) eqn:Ed; destruct (opens o) eqn:Eo; simpl_state;
      destruct (fails o) as [nm|] eqn:Ef; simpl_state; try discriminate Hs;
      try destruct (String.eqb nm "QuotaExceededError"); simpl_state;
      injection Hs as <-;
      (eexists; split; [reflexivity|]); simpl_state;
      repeat split; repeat constructor.
Qed.

(** ** The history at the start of the page, and the store *)

(** X11.  When the history load of the page start goes through, the
    history in memory is the content of the store, newest first, and the
    side bar is rendered from it (the placeholder when the store is empty);
    when it fails, the history and the side bar stay as they are and the
    status reports the failure.  The active material and the store are
    untouched either way. *)
Theorem history_loaded_outcome st o :
  Nat.ltb 0 (pendingLoads (world st)) = true ->
  exists st',
    step (HistoryLoaded o) st = Some st' /\
    activeFile (mem st') = activeFile (mem st) /\
    store (world st') = store (world st) /\
    ((db (mem st) = true \/ opens o = true) /\ fails o = None ->
     Permutation (store (world st)) (history (mem st')) /\
     StronglySorted (fun a b => (getTime (timestamp a) >= getTime (timestamp b))%Z)
                    (history (mem st')) /\
     historyItems (page st') = rendered (activeFile (mem st)) (history (mem st'))) /\
    ((db (mem st) = false /\ opens o = false) \/ fails o <> None ->
     history (mem st') = history (mem st) /\
     historyItems (page st') = historyItems (page st) /\
     textContent (page st') statusEl
       = "Could not load study history from the local database.").
Proof.
  intros Hp.
  assert (P := sort_Permutation (fun x => getTime (timestamp x)) (store (world st))).
  assert (S := sort_sorted (fun x => getTime (timestamp x)) (store (world st))).
  unfold step, listener. rewrite Hp. unfold exec, DOMContentLoaded_settled.
  unfold_js. simpl_state.
  destruct (db (mem st)) eqn:Ed; [|destruct (opens o) eqn:Eo]; simpl_state;
    destruct (fails o) as [nm|] eqn:Ef; simpl_state;
    rewrite ?renderHistory_rendered; simpl_state;
    (eexists; split; [reflexivity|]); simpl_state;
    (split; [reflexivity|]); (split; [reflexivity|]); split.
  all: try (intros [[H|H] H']; try discriminate; repeat split; assumption).
  all: try (intros [[H H']|H]; try discriminate; try (exfalso; apply H; reflexivity);
            repeat split; reflexivity).
  all: try (intros [[H|H] H']; discriminate).
Qed.

Lemma store_put_In item s :
  In item (store_put item s) /\
  (forall x, In x s -> id x <> id item -> In x (store_put item s)) /\
  (forall x, In x (store_put item s) -> x = item \/ In x s) /\
  length (store_put item s) <= S (length s).
Proof.
  induction s as [|y s (IH1 & IH2 & IH3 & IH4)]; cbn [store_put].
  - repeat split; cbn; auto; intros x [H|[]]; auto.
  - destruct (String.compare (id item) (id y)) eqn:E.
    + apply String.compare_eq_iff in E.
      repeat split; cbn [In length]; auto; try lia.
      * intros x [H|H] N; [subst; congruence | auto].
      * intros x [H|H]; auto.
    + repeat split; cbn [In length]; auto; try lia.
      intros x [H|H]; auto.
    + repeat split; cbn [In length]; auto; try lia.
      * intros x [H|H] N; auto.
      * intros x [H|H]; auto. destruct (IH3 x H); auto.
Qed.

(** X12.  Save, then load: after [saveHistoryItem] has gone through, a
    history load needs no opening of the database any more, and when its
    request succeeds it returns the saved item, every record that was
    stored under another id, and nothing else; the store has grown by at
    most one record. *)
Theorem saved_item_is_listed st item o o' :
  db (mem st) = true \/ opens o = true ->
  fails o = None ->
  fails o' = None ->
  exists st1 l st2,
    saveHistoryItem o item st = Some (Resolved tt, st1) /\
    db (mem st1) = true /\
    loadHistoryFromDB o' st1 = Some (Resolved l, st2) /\
    In item l /\
    (forall x, In x (store (world st)) -> id x <> id item -> In x l) /\
    (forall x, In x l -> x = item \/ In x (store (world st))) /\
    length l <= S (length (store (world st))).
Proof.
  intros Ho Hf Hf'.
  destruct (store_put_In item (store (world st))) as (I1 & I2 & I3 & I4).
  assert (P := sort_Permutation (fun x => getTime (timestamp x))
                 (store_put item (store (world st)))).
  unfold_js. rewrite Hf, Hf'.
  destruct (db (mem st)) eqn:Ed; simpl_state;
    [|destruct Ho as [Ho|Ho]; [discriminate|rewrite Ho; simpl_state]];
    rewrite ?Ed; simpl_state;
    (do 3 eexists; split; [reflexivity|]); simpl_state; rewrite ?Ed;
    (split; [reflexivity|]); (split; [reflexivity|]);
    (split; [eapply Permutation_in; [exact P | exact I1]|]);
    (split; [intros x Hx N; eapply Permutation_in; [exact P | exact (I2 x Hx N)]|]);
    (split; [intros x Hx; apply I3; eapply Permutation_in;
               [apply Permutation_sym; exact P | exact Hx]|]);
    (eapply Nat.le_trans; [|exact I4]); apply Nat.eq_le_incl; symmetry;
    exact (Permutation_length P).
Qed.

(** ** The side bar *)

(** X13.  The menu button opens and closes the side bar: one click flips
    the open mark of the page, two clicks leave every class as it was.  A
    click on the overlay closes the side bar, touches no other class, and a
    second one changes nothing.  None of these clicks touches the variables
    or the world outside the page. *)
Theorem sidebar_toggle_close st :
  (clickable (page st) menuToggleBtn = true ->
   exists st1 st2,
     step ClickMenuToggle st = Some st1 /\
     classList (page st1) appContainer sidebar_open
       = negb (classList (page st) appContainer sidebar_open) /\
     step ClickMenuToggle st1 = Some st2 /\
     (forall e c, classList (page st2) e c = classList (page st) e c) /\
     mem st2 = mem st /\ world st2 = world st)
  /\
  (displayed (page st) sidebarOverlay = true ->
   exists st',
     step ClickSidebarOverlay st = Some st' /\
     classList (page st') appContainer sidebar_open = false /\
     (forall e c, (e, c) <> (appContainer, sidebar_open) ->
                  classList (page st') e c = classList (page st) e c) /\
     mem st' = mem st /\ world st' = world st /\
     step ClickSidebarOverlay st' = Some st').
Proof.
  split.
  - intros Hc. unfold_js. rewrite Hc. simpl_state.
    unfold clickable in *. simpl_state.
    do 2 eexists. split; [reflexivity|]. simpl_state. rewrite Hc.
    split; [reflexivity|]. split; [reflexivity|]. simpl_state.
    split; [|split; reflexivity].
    intros e c. destruct e, c; simpl_state; try reflexivity.
    destruct (classList (page st) appContainer sidebar_open); reflexivity.
  - intros Hd. unfold_js. simpl_state. rewrite Hd. simpl_state.
    destruct (classList (page st) appContainer sidebar_open) eqn:Es; simpl_state;
      (eexists; split; [reflexivity|]); simpl_state; rewrite ?Hd, ?Es; simpl_state;
      repeat split; auto.
    intros e c N. destruct e, c; simpl_state; try reflexivity.
    exfalso; apply N; reflexivity.
Qed.

(** ** The counts of the quiz and of the game *)

(** The part of a state [Tally] speaks of. *)
Lemma Tally_frame st st' :
  mem st' = mem st ->
  map (fun e => classList (page st') e hidden)
      [resultsSection; quizSection; quizContentContainer; nextQuestionBtn;
       gameSection; gameResultsSection]
  = map (fun e => classList (page st) e hidden)
      [resultsSection; quizSection; quizContentContainer; nextQuestionBtn;
       gameSection; gameResultsSection] ->
  anyEnabled (page st') = anyEnabled (page st) ->
  map (textContent (page st')) [finalScoreEl; gameResultsHeadingEl]
  = map (textContent (page st)) [finalScoreEl; gameResultsHeadingEl] ->
  Tally st -> Tally st'.
Proof.
  intros Hm Hh He Ht [T1 T2 T3 T4 T5 T6 T7 T8].
  cbn [map] in Hh, Ht.
  injection Hh as H1 H2 H3 H4 H5 H6. injection Ht as Ht1 Ht2.
  constructor; cbn [displayed containers forallb] in *;
    rewrite ?Hm, ?He, ?H1, ?H2, ?H3, ?H4, ?H5, ?H6, ?Ht1, ?Ht2;
    assumption.
Qed.

Ltac open_tally T :=
  destruct T as [T1 T2 T3 T4 T5 T6 T7 T8];
  unfold anyEnabled, finalScore, gameOver in *; simpl_state;
  rewrite ?andb_true_r in *;
  rewrite ?andb_true_iff, ?andb_false_iff, ?negb_true_iff, ?negb_false_iff in *.

Ltac framed_tally T :=
  solve [ eexists; split; [reflexivity | exact T]
        | eexists; split;
          [ reflexivity
          | match type of T with Tally ?s => apply (Tally_frame s) end;
            [reflexivity .. | exact T] ] ].

Ltac changed_tally :=
  eexists; (split; [reflexivity|]);
  constructor; unfold finalScore, gameOver; goal_props;
  cbn [length] in *; intros; bool_norm; try lia; try reflexivity;
  try (intuition (try lia; try congruence); fail).

(** An event in a state that satisfies [Inv] and [Tally]: [Tally] holds
    again. *)
Ltac tally I T :=
  let I0 := fresh "I0" in
  let T0 := fresh "T0" in
  pose proof I as I0; open_inv I0;
  pose proof T as T0; open_tally T0;
  go; try (bool_norm; nofault);
  first [ framed_tally T | changed_tally ].

Lemma Tally_ChooseFile st f (I : Inv st) (T : Tally st) :
  exists st', step (ChooseFile f) st = Some st' /\ Tally st'.
Proof. tally I T. Qed.

Lemma Tally_ClickProcess st (I : Inv st) (T : Tally st) :
  exists st', step (ClickProcess) st = Some st' /\ Tally st'.
Proof. tally I T. Qed.

Lemma Tally_FileRead st run r now stamp (I : Inv st) (T : Tally st) :
  exists st', step (FileRead run r now stamp) st = Some st' /\ Tally st'.
Proof. tally I T. Qed.

Lemma Tally_ItemSaved st run o (I : Inv st) (T : Tally st) :
  exists st', step (ItemSaved run o) st = Some st' /\ Tally st'.
Proof. tally I T. Qed.

Lemma Tally_TypeQuestion st s (I : Inv st) (T : Tally st) :
  exists st', step (TypeQuestion s) st = Some st' /\ Tally st'.
Proof. tally I T. Qed.

Lemma Tally_ClickAsk st (I : Inv st) (T : Tally st) :
  exists st', step (ClickAsk) st = Some st' /\ Tally st'.
Proof. tally I T. Qed.

Lemma Tally_AskChunk st run text (I : Inv st) (T : Tally st) :
  exists st', step (AskChunk run text) st = Some st' /\ Tally st'.
Proof. tally I T. Qed.

Lemma Tally_AskSettled st run err (I : Inv st) (T : Tally st) :
  exists st', step (AskSettled run err) st = Some st' /\ Tally st'.
Proof. tally I T. Qed.

Lemma Tally_ClickStartQuiz st (I : Inv st) (T : Tally st) :
  exists st', step (ClickStartQuiz) st = Some st' /\ Tally st'.
Proof. tally I T. Qed.

Lemma Tally_QuizReply st run reply (I : Inv st) (T : Tally st) :
  exists st', step (QuizReply run reply) st = Some st' /\ Tally st'.
Proof. tally I T. Qed.

Lemma Tally_QuizTimeout st run (I : Inv st) (T : Tally st) :
  exists st', step (QuizTimeout run) st = Some st' /\ Tally st'.
Proof. tally I T. Qed.

Lemma Tally_ClickOption st button (I : Inv st) (T : Tally st) :
  exists st', step (ClickOption button) st = Some st' /\ Tally st'.
Proof.
  pose proof I as I0; open_inv I0. pose proof T as T0; open_tally T0. go.
  all: try framed_tally T.
  all: assert (A : existsb (fun b => negb (btn_disabled b)) (quizOptions (page st)) = true)
         by (bool_norm; eapply existsb_enabled_nth; eassumption).
  all: specialize (I2 A); specialize (T1 A); try (bool_norm; nofault).
  all: changed_tally.
Qed.

Lemma Tally_ClickNext st (I : Inv st) (T : Tally st) :
  exists st', step (ClickNext) st = Some st' /\ Tally st'.
Proof. tally I T. Qed.

Lemma Tally_ClickReviewMistakes st (I : Inv st) (T : Tally st) :
  exists st', step (ClickReviewMistakes) st = Some st' /\ Tally st'.
Proof.
  pose proof I as I0; open_inv I0. pose proof T as T0; open_tally T0. go.
  all: try framed_tally T.
  all: bool_norm.
  all: match goal with
       | Hr : classList _ resultsSection hidden = false,
         Hb : classList _ reviewMistakesBtn hidden = false,
         I8 : classList _ resultsSection hidden = false -> _ = negb ?r |- _ =>
           assert (R : r = true)
             by (specialize (I8 Hr); rewrite Hb in I8; destruct r; [reflexivity | discriminate I8])
       end.
  all: pose proof R as R'; apply andb_true_iff in R'; destruct R' as [R1 R2];
       apply Nat.ltb_lt in R2.
  all: try nofault.
  all: changed_tally.
Qed.

Lemma Tally_ClickRestartQuiz st (I : Inv st) (T : Tally st) :
  exists st', step (ClickRestartQuiz) st = Some st' /\ Tally st'.
Proof. tally I T. Qed.

Lemma Tally_ClickExitQuiz st (I : Inv st) (T : Tally st) :
  exists st', step (ClickExitQuiz) st = Some st' /\ Tally st'.
Proof. tally I T. Qed.

Lemma Tally_ClickStartGame st (I : Inv st) (T : Tally st) :
  exists st', step (ClickStartGame) st = Some st' /\ Tally st'.
Proof. tally I T. Qed.

Lemma Tally_GameReply st run reply (I : Inv st) (T : Tally st) :
  exists st', step (GameReply run reply) st = Some st' /\ Tally st'.
Proof. tally I T. Qed.

Lemma Tally_GameTick st run (I : Inv st) (T : Tally st) :
  exists st', step (GameTick run) st = Some st' /\ Tally st'.
Proof. tally I T. Qed.

Lemma Tally_ClickFlashcard st (I : Inv st) (T : Tally st) :
  exists st', step (ClickFlashcard) st = Some st' /\ Tally st'.
Proof. tally I T. Qed.

Lemma Tally_ClickKnewIt st (I : Inv st) (T : Tally st) :
  exists st', step (ClickKnewIt) st = Some st' /\ Tally st'.
Proof. tally I T. Qed.

Lemma Tally_ClickDidntKnow st (I : Inv st) (T : Tally st) :
  exists st', step (ClickDidntKnow) st = Some st' /\ Tally st'.
Proof. tally I T. Qed.

Lemma Tally_ClickRestartGame st (I : Inv st) (T : Tally st) :
  exists st', step (ClickRestartGame) st = Some st' /\ Tally st'.
Proof. tally I T. Qed.

Lemma Tally_ClickExitGame st (I : Inv st) (T : Tally st) :
  exists st', step (ClickExitGame) st = Some st' /\ Tally st'.
Proof. tally I T. Qed.

Lemma Tally_ClickClearHistory st confirmed (I : Inv st) (T : Tally st) :
  exists st', step (ClickClearHistory confirmed) st = Some st' /\ Tally st'.
Proof. tally I T. Qed.

Lemma Tally_HistoryCleared st o (I : Inv st) (T : Tally st) :
  exists st', step (HistoryCleared o) st = Some st' /\ Tally st'.
Proof. tally I T. Qed.

Lemma Tally_HistoryLoaded st o (I : Inv st) (T : Tally st) :
  exists st', step (HistoryLoaded o) st = Some st' /\ Tally st'.
Proof. tally I T. Qed.

Lemma Tally_ClickHistoryItem st li (I : Inv st) (T : Tally st) :
  exists st', step (ClickHistoryItem li) st = Some st' /\ Tally st'.
Proof. tally I T. Qed.

Lemma Tally_ClickMenuToggle st (I : Inv st) (T : Tally st) :
  exists st', step (ClickMenuToggle) st = Some st' /\ Tally st'.
Proof. tally I T. Qed.

Lemma Tally_ClickSidebarOverlay st (I : Inv st) (T : Tally st) :
  exists st', step (ClickSidebarOverlay) st = Some st' /\ Tally st'.
Proof. tally I T. Qed.

Lemma Tally_abortHandler run st (T : Tally st) :
  exists st', abortHandler run st = Some (tt, st') /\ Tally st'.
Proof.
  pose proof T as T0; open_tally T0. unfold_js. simpl_state.
  eexists; split; [reflexivity|].
  constructor; unfold finalScore, gameOver; goal_props; intros; bool_norm;
    intuition (try lia; try congruence).
Qed.

Lemma Tally_forEach_abortHandler l : forall st, Tally st ->
  exists st', forEach l abortHandler st = Some (tt, st') /\ Tally st'.
Proof.
  induction l as [|r l IH]; intros st T.
  - exists st. split; [reflexivity | exact T].
  - cbn [forEach]. unfold bind.
    destruct (Tally_abortHandler r st T) as (st1 & E1 & T1). rewrite E1.
    exact (IH st1 T1).
Qed.

Lemma Tally_ClickExitGameLoading st (T : Tally st) :
  exists st', step ClickExitGameLoading st = Some st' /\ Tally st'.
Proof.
  unfold step, listener.
  destruct (clickable (page st) exitGameLoadingBtn); [|exists st; split; [reflexivity | exact T]].
  unfold exec, exitGameLoadingBtn_click.
  unfold bind at 1, gets at 1. unfold bind at 1, modify at 1.
  match goal with
  | |- context [forEach ?l abortHandler ?s] =>
      destruct (Tally_forEach_abortHandler l s) as (st' & E & T')
  end.
  - match type of T with Tally ?s => apply (Tally_frame s) end; [reflexivity .. | exact T].
  - rewrite E. exists st'. split; [reflexivity | exact T'].
Qed.

Lemma Tally_step st ev st' : Inv st -> Tally st -> step ev st = Some st' -> Tally st'.
Proof.
  intros I T E.
  assert (H : exists s, step ev st = Some s /\ Tally s).
  { destruct ev.
    - apply Tally_ChooseFile; [exact I | exact T].
    - apply Tally_ClickProcess; [exact I | exact T].
    - apply Tally_FileRead; [exact I | exact T].
    - apply Tally_ItemSaved; [exact I | exact T].
    - apply Tally_TypeQuestion; [exact I | exact T].
    - apply Tally_ClickAsk; [exact I | exact T].
    - apply Tally_AskChunk; [exact I | exact T].
    - apply Tally_AskSettled; [exact I | exact T].
    - apply Tally_ClickStartQuiz; [exact I | exact T].
    - apply Tally_QuizReply; [exact I | exact T].
    - apply Tally_QuizTimeout; [exact I | exact T].
    - apply Tally_ClickOption; [exact I | exact T].
    - apply Tally_ClickNext; [exact I | exact T].
    - apply Tally_ClickReviewMistakes; [exact I | exact T].
    - apply Tally_ClickRestartQuiz; [exact I | exact T].
    - apply Tally_ClickExitQuiz; [exact I | exact T].
    - apply Tally_ClickStartGame; [exact I | exact T].
    - apply Tally_GameReply; [exact I | exact T].
    - apply Tally_GameTick; [exact I | exact T].
    - apply Tally_ClickExitGameLoading; exact T.
    - apply Tally_ClickFlashcard; [exact I | exact T].
    - apply Tally_ClickKnewIt; [exact I | exact T].
    - apply Tally_ClickDidntKnow; [exact I | exact T].
    - apply Tally_ClickRestartGame; [exact I | exact T].
    - apply Tally_ClickExitGame; [exact I | exact T].
    - apply Tally_ClickClearHistory; [exact I | exact T].
    - apply Tally_HistoryCleared; [exact I | exact T].
    - apply Tally_HistoryLoaded; [exact I | exact T].
    - apply Tally_ClickHistoryItem; [exact I | exact T].
    - apply Tally_ClickMenuToggle; [exact I | exact T].
    - apply Tally_ClickSidebarOverlay; [exact I | exact T].
  }
  destruct H as (s & E' & T'). rewrite E in E'. injection E' as <-. exact T'.
Qed.

Lemma Tally_initial p records : opening p = true -> Tally (initial p records).
Proof.
  unfold opening. intros H.
  apply andb_true_iff in H. destruct H as [H H3].
  apply andb_true_iff in H. destruct H as [H1 H2].
  constructor; unfold anyEnabled; cbn;
    rewrite ?H1, ?H2, ?H3; cbn; rewrite ?andb_false_r;
    try reflexivity; try lia; try discriminate; intros; try discriminate.
Qed.

Lemma Tally_reachable p records st :
  opening p = true -> reachable (initial p records) st -> Inv st /\ Tally st.
Proof.
  intros Hp R. induction R as [|st ev st' R [I T] E].
  - split; [apply Inv_initial | apply Tally_initial]; exact Hp.
  - split.
    + destruct (Inv_step st ev I) as (s & E' & I'). rewrite E in E'.
      injection E' as <-. exact I'.
    + exact (Tally_step st ev st' I T E).
Qed.

(** X14.  The accounts of the quiz, in every state the events reach from
    the first one: the score and the number of logged mistakes together
    never exceed the number of questions; while a question still takes a
    selection they count the questions before it; during the review and
    whenever the results are shown they add up to the number of questions,
    every question having been evaluated exactly once.  The results are
    never shown for a quiz without questions, so that the score is never
    divided by 0, and their text reports the score and the number of
    questions as they are. *)
Theorem quiz_accounting p records st :
  opening p = true ->
  reachable (initial p records) st ->
  score (mem st) + length (incorrectAnswers (mem st)) <= length (quizQuestions (mem st)) /\
  (anyEnabled (page st) = true ->
   score (mem st) + length (incorrectAnswers (mem st)) = currentQuestionIndex (mem st)) /\
  (isReviewingMistakes (mem st) = true ->
   score (mem st) + length (incorrectAnswers (mem st)) = length (quizQuestions (mem st))) /\
  (displayed (page st) resultsSection = true ->
   score (mem st) + length (incorrectAnswers (mem st)) = length (quizQuestions (mem st)) /\
   0 < length (quizQuestions (mem st)) /\
   textContent (page st) finalScoreEl
   = finalScore (score (mem st)) (length (quizQuestions (mem st)))).
Proof.
  intros Hp R. destruct (Tally_reachable p records st Hp R) as [I T].
  split; [exact (inv_total _ I)|].
  split; [exact (tally_open _ T)|].
  split; [exact (tally_review _ T)|].
  intros Hd. split; [exact (tally_results _ T Hd)|].
  split; [exact (inv_results _ I Hd) | exact (tally_final _ T Hd)].
Qed.

(** X15.  The accounts of the game, in every state the events reach from
    the first one: the count of known cards never exceeds the card index;
    and whenever the game results are shown, every card has been gone
    through (the card index is the number of cards), the count of known
    cards is at most the number of cards, and the heading reports the two
    numbers as they are. *)
Theorem game_accounting p records st :
  opening p = true ->
  reachable (initial p records) st ->
  knownCardsCount (mem st) <= currentCardIndex (mem st) /\
  (displayed (page st) gameResultsSection = true ->
   currentCardIndex (mem st) = length (flashcards (mem st)) /\
   knownCardsCount (mem st) <= length (flashcards (mem st)) /\
   textContent (page st) gameResultsHeadingEl
   = gameOver (knownCardsCount (mem st)) (length (flashcards (mem st)))).
Proof.
  intros Hp R. destruct (Tally_reachable p records st Hp R) as [I T].
  pose proof (tally_known _ T) as K.
  split; [exact K|]. intros Hd.
  pose proof (inv_game_results _ I Hd). pose proof (tally_done _ T Hd).
  split; [lia|]. split; [lia | exact (tally_heading _ T Hd)].
Qed.

(** ** The start controls *)

Lemma step_starters ev st :
  match step ev st with
  | Some st' => startersAgree (page st) -> startersAgree (page st')
  | None => True
  end.
Proof.
  unfold startersAgree.
  destruct ev;
    try (go; try exact I; simpl_state; intros [H1 H2]; split;
         first [reflexivity | assumption]; fail).
  unfold step, listener.
  destruct (clickable (page st) exitGameLoadingBtn); [|auto].
  unfold exec.
  destruct (exitGameLoadingBtn_click_effect st) as (st' & E & _ & _ & _ & _ & _ & _ & Hi & _).
  rewrite E. intros H.
  destruct (abortListeners (page st)) as [|r l] eqn:L.
  - unfold exitGameLoadingBtn_click, bind, gets, modify in E. rewrite L in E.
    cbn [forEach] in E. unfold ret in E. injection E as <-. simpl_state. exact H.
  - destruct Hi as [Hi _]; [discriminate|]. unfold idle in Hi.
    repeat (apply andb_true_iff in Hi; destruct Hi as [Hi ?]). bool_norm.
    split; congruence.
Qed.

(** X16.  The three start controls go together: on a page whose markup
    gives them the same disabled flag, in every state the events reach from
    the first one, [startQuizBtn] and [startGameBtn] are disabled exactly
    when [askBtn] is. *)
Theorem starters_together p records st :
  startersAgree p ->
  reachable (initial p records) st ->
  startersAgree (page st).
Proof.
  intros Hp R. induction R as [|st ev st' R IH E]; [exact Hp|].
  pose proof (step_starters ev st) as H. rewrite E in H. exact (H IH).
Qed.

(** ** The interval of the loading messages *)

Lemma intervalsAwaited_abortHandler r0 st :
  intervalsAwaited (gameRuns (world st)) ->
  exists st', abortHandler r0 st = Some (tt, st') /\ intervalsAwaited (gameRuns (world st')).
Proof.
  intros H. unfold_js. eexists; split; [reflexivity|]. simpl_state.
  intros r g Hr Hi. destruct (Nat.eq_dec r0 r) as [->|N].
  - rewrite !nth_error_adjust in Hr.
    destruct (nth_error (gameRuns (world st)) r) as [g0|]; [|discriminate].
    cbn in Hr. injection Hr as <-. simpl_state. discriminate.
  - rewrite !nth_error_adjust_other in Hr by exact N. exact (H r g Hr Hi).
Qed.

Lemma intervalsAwaited_forEach_abortHandler l : forall st,
  intervalsAwaited (gameRuns (world st)) ->
  exists st', forEach l abortHandler st = Some (tt, st') /\
              intervalsAwaited (gameRuns (world st')).
Proof.
  induction l as [|r l IH]; intros st H.
  - exists st. split; [reflexivity | exact H].
  - cbn [forEach]. unfold bind.
    destruct (intervalsAwaited_abortHandler r st H) as (st1 & E1 & H1). rewrite E1.
    exact (IH st1 H1).
Qed.

Ltac awaited_adjust H Hg :=
  let r := fresh "r" in
  let g := fresh "g" in
  let Hr := fresh "Hr" in
  let Hi := fresh "Hi" in
  simpl_state; intros r g Hr Hi;
  match type of Hg with
  | nth_error _ ?r0 = Some ?g0 =>
      destruct (Nat.eq_dec r0 r) as [<-|N];
      [ rewrite !nth_error_adjust, Hg in Hr; cbn in Hr; injection Hr as <-;
        simpl_state; try discriminate Hi;
        try (destruct (H r0 g0 Hg) as [? ?]; [assumption|]); auto; try congruence
      | rewrite !nth_error_adjust_other in Hr by exact N; exact (H r g Hr Hi) ]
  end.

Lemma step_intervalsAwaited ev st :
  intervalsAwaited (gameRuns (world st)) ->
  match step ev st with
  | Some st' => intervalsAwaited (gameRuns (world st'))
  | None => True
  end.
Proof.
  intros H.
  destruct ev;
    try (go; try exact I; simpl_state; exact H).
  - (* ClickStartGame *)
    go; try exact I; simpl_state; try exact H.
    intros r g Hr Hi.
    destruct (Nat.lt_ge_cases r (length (gameRuns (world st)))) as [L|L].
    + rewrite nth_error_app1 in Hr by exact L. exact (H r g Hr Hi).
    + rewrite nth_error_app2 in Hr by exact L.
      destruct (r - length (gameRuns (world st))) as [|[|k]]; cbn in Hr.
      * injection Hr as <-. auto.
      * discriminate.
      * discriminate.
  - (* GameReply *)
    rename run0 into r0. unfold step, listener.
    destruct (nth_error (gameRuns (world st)) r0) as [g0|] eqn:Hg; [|exact H].
    destruct (awaiting g0) eqn:Ha; [|exact H].
    unfold exec, startGameBtn_settled. unfold_js. simpl_state.
    destruct (aborted g0) eqn:Hb.
    + assert (Hi0 : interval g0 = false).
      { destruct (interval g0) eqn:Hi0; [|reflexivity].
        destruct (H r0 g0 Hg Hi0). congruence. }
      destruct reply as [e|m|[[|c cs]|]]; simpl_state;
        repeat (rewrite !nth_error_adjust, ?Hg; simpl_state; rewrite ?Hb; simpl_state);
        awaited_adjust H Hg.
    + destruct reply as [e|m|[[|c cs]|]]; simpl_state;
        repeat (rewrite !nth_error_adjust, ?Hg; simpl_state; rewrite ?Hb; simpl_state);
        cbn [nth_error Nat.leb length]; simpl_state;
        awaited_adjust H Hg.
  - (* GameTick *)
    rename run0 into r0. unfold step, listener.
    destruct (nth_error (gameRuns (world st)) r0) as [g0|] eqn:Hg; [|exact H].
    destruct (interval g0) eqn:Hi0; [|exact H].
    unfold exec. unfold_js. rewrite Hg. simpl_state. cbn [length].
    destruct (nth_error _ ((messageIndex g0 + 1) mod 5)) as [m|] eqn:E; [|exact I].
    simpl_state. awaited_adjust H Hg.
  - (* ClickExitGameLoading *)
    unfold step, listener.
    destruct (clickable (page st) exitGameLoadingBtn); [|exact H].
    unfold exec, exitGameLoadingBtn_click.
    unfold bind at 1, gets at 1. unfold bind at 1, modify at 1.
    match goal with
    | |- context [forEach ?l abortHandler ?s] =>
        destruct (intervalsAwaited_forEach_abortHandler l s) as (st' & E & H')
    end.
    + exact H.
    + rewrite E. exact H'.
Qed.

(** X17.  The interval of the loading messages never outlives the
    generation: in every state the events reach from the first one, a run
    of the flashcard listener whose interval is still set is awaited and
    was not cancelled; so once the reply has arrived, or the user has
    cancelled, a tick of the interval changes nothing. *)
Theorem no_tick_after_the_end p records st :
  reachable (initial p records) st ->
  intervalsAwaited (gameRuns (world st)) /\
  (forall r g,
     nth_error (gameRuns (world st)) r = Some g ->
     awaiting g = false \/ aborted g = true ->
     step (GameTick r) st = Some st).
Proof.
  intros R.
  assert (H : intervalsAwaited (gameRuns (world st))).
  { induction R as [|st ev st' R IH E].
    - intros r g Hr. destruct r; discriminate Hr.
    - pose proof (step_intervalsAwaited ev st IH) as H. rewrite E in H. exact H. }
  split; [exact H|].
  intros r g Hg Hend. unfold step, listener. rewrite Hg.
  destruct (interval g) eqn:Hi; [|reflexivity].
  destruct (H r g Hg Hi) as [Ha Hb]. destruct Hend; congruence.
Qed.

(** ** The marks of a selection *)

(** X18.  What a selection shows: the feedback says whether it was right
    (naming the correct answer when it was not) and the score display shows
    the score after it; every option button is disabled and keeps its
    text; the buttons marked correct are exactly those whose text equals
    the correct answer after trimming and lowercasing, so that a wrong
    selection reveals the right option where there is one; and the button
    marked incorrect is the selected one, when the selection was wrong. *)
Theorem selection_marks st q k o :
  Presenting st q ->
  nth_error (options q) k = Some o ->
  exists st',
    step (ClickOption k) st = Some st' /\
    textContent (page st') quizFeedbackEl
      = (if sameAnswer o (correctAnswer q) then "Correct!"
         else "Incorrect! The correct answer was: " ++ correctAnswer q)%string /\
    textContent (page st') scoreDisplayEl = ("Score: " ++ JS.show_nat (score (mem st')))%string /\
    classList (page st') nextQuestionBtn hidden = false /\
    length (quizOptions (page st')) = length (options q) /\
    forall j oj,
      nth_error (options q) j = Some oj ->
      exists b,
        nth_error (quizOptions (page st')) j = Some b /\
        btn_text b = oj /\
        btn_disabled b = true /\
        btn_correct b = sameAnswer oj (correctAnswer q) /\
        btn_incorrect b = (Nat.eqb j k && negb (sameAnswer o (correctAnswer q)))%bool.
Proof.
  intros P Hk. rewrite (step_ClickOption_presenting st q k o P Hk).
  destruct P as [Hr Hq Ho Hd Hn].
  unfold_js. simpl_state. rewrite ?Ho.
  destruct (sameAnswer o (correctAnswer q)) eqn:Es; simpl_state; rewrite ?Hq; simpl_state;
    (eexists; split; [reflexivity|]); simpl_state; rewrite ?Ho;
    (split; [reflexivity|]); (split; [reflexivity|]); (split; [reflexivity|]);
    (split; [rewrite length_map, length_adjust; unfold freshOptions; apply length_map|]);
    intros j oj Hj;
    rewrite nth_error_map;
    (destruct (Nat.eq_dec k j) as [<-|N];
     [ rewrite nth_error_adjust, (nth_error_freshOptions q k o Hk);
       assert (oj = o) by congruence; subst oj;
       eexists; split; [reflexivity|]; cbn; rewrite Nat.eqb_refl, ?Es; auto
     | rewrite nth_error_adjust_other by exact N;
       rewrite (nth_error_freshOptions q j oj Hj);
       eexists; split; [reflexivity|]; cbn;
       replace (Nat.eqb j k) with false
         by (symmetry; apply Nat.eqb_neq; congruence); auto ]).
Qed.

(** ** The review of the mistakes *)

Lemma review_start st mistake :
  clickable (page st) reviewMistakesBtn = true ->
  disabled (page st) nextQuestionBtn = false ->
  nth_error (incorrectAnswers (mem st)) 0 = Some mistake ->
  exists st',
    step ClickReviewMistakes st = Some st' /\
    Reviewing st' 0 mistake /\
    score (mem st') = score (mem st) /\
    incorrectAnswers (mem st') = incorrectAnswers (mem st).
Proof.
  intros Hc Hd Hm. unfold_js. rewrite Hc. simpl_state. rewrite Hm. simpl_state.
  rewrite forEach_appendOption.
  eexists; split; [reflexivity|]. simpl_state.
  split; [|split; reflexivity].
  constructor; unfold clickable; simpl_state; rewrite ?Hd; auto.
Qed.

Lemma review_next st j m mistake :
  Reviewing st j m ->
  nth_error (incorrectAnswers (mem st)) (S j) = Some mistake ->
  exists st',
    step ClickNext st = Some st' /\
    Reviewing st' (S j) mistake /\
    score (mem st') = score (mem st) /\
    incorrectAnswers (mem st') = incorrectAnswers (mem st).
Proof.
  intros [Hr Hi _ Hc _ _ _ _] Hm. subst j.
  assert (L : Nat.ltb (S (currentQuestionIndex (mem st)))
                      (length (incorrectAnswers (mem st))) = true).
  { apply Nat.ltb_lt. apply nth_error_Some. congruence. }
  unfold_js. rewrite Hc. simpl_state. rewrite Hr. simpl_state.
  rewrite L. simpl_state. rewrite Hm. simpl_state.
  rewrite forEach_appendOption.
  eexists; split; [reflexivity|]. simpl_state.
  split; [|split; reflexivity].
  unfold clickable in Hc. simpl_state. bool_norm.
  constructor; unfold clickable; simpl_state; rew_conds; auto.
Qed.

(** X19.  The review goes through the mistake log in order: after the click
    on [reviewMistakesBtn] and [j] clicks on [nextQuestionBtn], the mistake
    at position [j] of the log is shown, with the text of its question, its
    position and the length of the log in the progress text, and the score
    display hidden.  Its option buttons are all disabled and without
    listener (a click on them changes nothing); the ones marked correct
    equal the correct answer, the ones marked incorrect equal the logged
    selection, after trimming and lowercasing.  The score and the log are
    as before the review. *)
Theorem review_walk j : forall st mistake,
  clickable (page st) reviewMistakesBtn = true ->
  disabled (page st) nextQuestionBtn = false ->
  nth_error (incorrectAnswers (mem st)) j = Some mistake ->
  exists st',
    run (ClickReviewMistakes :: repeat ClickNext j) st = Some st' /\
    Reviewing st' j mistake /\
    score (mem st') = score (mem st) /\
    incorrectAnswers (mem st') = incorrectAnswers (mem st) /\
    forall k, step (ClickOption k) st' = Some st'.
Proof.
  assert (Main : forall j st mistake,
    clickable (page st) reviewMistakesBtn = true ->
    disabled (page st) nextQuestionBtn = false ->
    nth_error (incorrectAnswers (mem st)) j = Some mistake ->
    exists st',
      run (ClickReviewMistakes :: repeat ClickNext j) st = Some st' /\
      Reviewing st' j mistake /\
      score (mem st') = score (mem st) /\
      incorrectAnswers (mem st') = incorrectAnswers (mem st)).
  { clear j. induction j as [|j IH]; intros st mistake Hc Hd Hm.
    - destruct (review_start st mistake Hc Hd Hm) as (st' & E & R & S & L).
      exists st'. cbn [repeat run]. rewrite E. auto.
    - destruct (nth_error (incorrectAnswers (mem st)) j) as [m|] eqn:Hj.
      + destruct (IH st m Hc Hd Hj) as (st1 & E1 & R1 & S1 & L1).
        destruct (review_next st1 j m mistake R1) as (st2 & E2 & R2 & S2 & L2);
          [rewrite L1; exact Hm|].
        exists st2.
        change (ClickReviewMistakes :: repeat ClickNext (S j))
          with (ClickReviewMistakes :: ClickNext :: repeat ClickNext j).
        rewrite repeat_cons, app_comm_cons, (run_app _ _ _ _ E1).
        cbn [run]. rewrite E2. split; [reflexivity|]. split; [exact R2|].
        split; congruence.
      + exfalso. apply nth_error_None in Hj.
        assert (S j < length (incorrectAnswers (mem st)))
          by (apply nth_error_Some; congruence). lia. }
  intros st mistake Hc Hd Hm.
  destruct (Main j st mistake Hc Hd Hm) as (st' & E & R & S & L).
  exists st'. do 4 (split; [assumption|]).
  intros k. unfold step, listener. rewrite (reviewing_options _ _ _ R).
  unfold reviewOptions. rewrite nth_error_map.
  destruct (nth_error (options (mistake_question mistake)) k); reflexivity.
Qed.

(** ** A quiz that cannot be generated *)


(** ** Choosing and processing a file *)

(** X21.  The file that is processed is the one chosen last: after the
    choice of a file the label shows its name, and a click on [processBtn]
    starts reading that file; after a choice of no file the label asks to
    choose one, and the click only sets the status to the request to select
    a file, starts no read and leaves the variables alone. *)
Theorem process_reads_chosen_file st f :
  clickable (page st) fileInput = true ->
  clickable (page st) processBtn = true ->
  exists st',
    run [ChooseFile f; ClickProcess] st = Some st' /\
    mem st' = mem st /\
    match f with
    | Some file =>
        textContent (page st') fileInputLabel = file_name file /\
        textContent (page st') statusEl = "Processing file..." /\
        uploads (world st') = uploads (world st) ++ [UploadReading file]
    | None =>
        textContent (page st') fileInputLabel = chooseFileLabel /\
        textContent (page st') statusEl = "Please select a file first!" /\
        uploads (world st') = uploads (world st)
    end.
Proof.
  intros Hf Hp. cbn [run]. unfold_js. rewrite Hf. simpl_state.
  unfold clickable in *. simpl_state.
  destruct f as [file|]; simpl_state; rewrite Hp; simpl_state;
    (eexists; split; [reflexivity|]); simpl_state; repeat split.
Qed.

(** ** Clearing the history *)

(** X22.  Clearing the history asks first: a click on [clearHistoryBtn]
    that is not confirmed changes nothing.  A confirmed one that goes
    through leaves the side bar with the placeholder of the empty list, the
    status with the notice of the clearing and the three start controls
    disabled; one that fails only sets the status to the failure and leaves
    the list and the controls as they are. *)
Theorem clear_history_view st o :
  clickable (page st) clearHistoryBtn = true ->
  step (ClickClearHistory false) st = Some st /\
  exists st1 st2,
    step (ClickClearHistory true) st = Some st1 /\
    mem st1 = mem st /\ page st1 = page st /\ store (world st1) = store (world st) /\
    step (HistoryCleared o) st1 = Some st2 /\
    (((db (mem st) = true \/ opens o = true) /\ fails o = None) ->
     historyItems (page st2) = rendered None [] /\
     textContent (page st2) statusEl = "History cleared." /\
     Forall (fun e => disabled (page st2) e = true) starters) /\
    (((db (mem st) = false /\ opens o = false) \/ fails o <> None) ->
     historyItems (page st2) = historyItems (page st) /\
     textContent (page st2) statusEl = "Error clearing history." /\
     disabled (page st2) = disabled (page st)).
Proof.
  intros Hc. unfold_js. rewrite Hc. simpl_state.
  split; [reflexivity|]. unfold clearHistory_settled. unfold_js. simpl_state.
  destruct (db (mem st)) eqn:Ed; [|destruct (opens o) eqn:Eo]; simpl_state;
    destruct (fails o) as [nm|] eqn:Ef; simpl_state;
    (do 2 eexists; split; [reflexivity|]); simpl_state;
    (split; [reflexivity|]); (split; [reflexivity|]); (split; [reflexivity|]);
    cbn [Nat.ltb Nat.leb]; simpl_state; rewrite ?Ed, ?Eo; simpl_state;
    rewrite ?renderHistory_rendered; simpl_state;
    (split; [reflexivity|]); simpl_state; split.
  all: try (intros [[H|H] H']; try discriminate; repeat split; repeat constructor).
  all: try (intros [[H H']|H]; try discriminate; try (exfalso; apply H; reflexivity);
            repeat split; reflexivity).
Qed.

(** ** Flipping a card, and the end of a game *)

(** X23.  The answer controls come with the back of the card: while a
    card is shown front up a click on either answer control does nothing;
    a click on the card flips it and the two controls take a click; a
    second click on the card flips it back and hides the controls again,
    every class being as before the first.  Flipping touches neither the
    variables nor the world outside the page. *)
Theorem card_flip st :
  CardShown st ->
  classList (page st) gameControls hidden = true ->
  exists st1 st2,
    step ClickKnewIt st = Some st /\
    step ClickDidntKnow st = Some st /\
    step ClickFlashcard st = Some st1 /\
    classList (page st1) flashcardEl is_flipped = true /\
    clickable (page st1) knewItBtn = true /\
    clickable (page st1) didntKnowBtn = true /\
    step ClickFlashcard st1 = Some st2 /\
    (forall e c, classList (page st2) e c = classList (page st) e c) /\
    mem st2 = mem st /\ world st2 = world st.
Proof.
  intros [Hs Hc Hf Hfr [Hk Hkd] [Hn Hnd] Hi] Hg.
  unfold_js. unfold clickable. simpl_state.
  rewrite ?Hs, ?Hc, ?Hf, ?Hfr, ?Hk, ?Hkd, ?Hn, ?Hnd, ?Hg. simpl_state.
  do 2 eexists.
  repeat (split; [simpl_state; rewrite ?Hs, ?Hc, ?Hf, ?Hfr, ?Hk, ?Hkd, ?Hn, ?Hnd, ?Hg;
                  simpl_state; reflexivity|]).
  simpl_state. split; [|split; reflexivity].
  intros e c. destruct e, c; simpl_state; congruence.
Qed.

(** X24.  From the game results, a restart plays the same deck again from
    its first card with the count of known cards at 0, and an exit empties
    the deck, hides the game section, shows the ask view and enables the
    three start controls; the exit leaves the card index and the count of
    known cards as they are.  Neither sends a request. *)
Theorem game_restart_and_exit st c cs :
  flashcards (mem st) = c :: cs ->
  (clickable (page st) restartGameBtn = true ->
   exists st',
     step ClickRestartGame st = Some st' /\
     flashcards (mem st') = c :: cs /\
     currentCardIndex (mem st') = 0 /\
     knownCardsCount (mem st') = 0 /\
     displayed (page st') gameContainer = true /\
     classList (page st') gameResultsSection hidden = true /\
     classList (page st') flashcardEl is_flipped = false /\
     classList (page st') gameControls hidden = true /\
     textContent (page st') flashcardTermEl = term c /\
     textContent (page st') flashcardDefinitionEl = definition c /\
     world st' = world st)
  /\
  (clickable (page st) exitGameBtn = true ->
   exists st',
     step ClickExitGame st = Some st' /\
     flashcards (mem st') = [] /\
     currentCardIndex (mem st') = currentCardIndex (mem st) /\
     knownCardsCount (mem st') = knownCardsCount (mem st) /\
     classList (page st') gameSection hidden = true /\
     classList (page st') qaSection hidden = false /\
     Forall (fun e => disabled (page st') e = false) starters /\
     world st' = world st).
Proof.
  intros Hf. split; intros Hc; unfold_js; rewrite Hc; simpl_state; rewrite ?Hf;
    cbn [length Nat.leb nth_error]; simpl_state;
    (eexists; split; [reflexivity|]); simpl_state;
    unfold clickable in Hc; simpl_state; bool_norm; rew_conds;
    repeat split; repeat constructor; exact Hf.
Qed.

End Program.


(** * The theorems on sample inputs *)

(** The model run with the ASCII instance of the string built-ins and the
    stand-ins of the [Date] built-ins. *)
Abbreviation run0 :=
  (run JS.ascii_trim JS.ascii_toLowerCase Sample.toISOString Sample.getTime).
Abbreviation step0 :=
  (step JS.ascii_trim JS.ascii_toLowerCase Sample.toISOString Sample.getTime).
Abbreviation reachable0 :=
  (reachable JS.ascii_trim JS.ascii_toLowerCase Sample.toISOString Sample.getTime).

(** The scenario of the specification: of two answers the first is right
    and the second wrong; the score is 1 and the log holds one mistake. *)
Lemma score_counts_right_selections_witness :
  exists st1 st2,
    exec startQuiz Sample.ready = Some st1 /\
    run0 (answering [1; 1]) st1 = Some st2 /\
    score (mem st2) = 1 /\
    incorrectAnswers (mem st2) = [{| mistake_question := Sample.q2; selected := "Rome" |}].
Proof.
  destruct (exec startQuiz Sample.ready) as [st1|] eqn:E; [|vm_compute in E; discriminate E].
  destruct (proj1 (score_counts_right_selections
                     JS.ascii_trim JS.ascii_toLowerCase Sample.toISOString Sample.getTime)
                  Sample.ready st1 [1; 1] [(Sample.q1, " 4 "); (Sample.q2, "Rome")]
                  E eq_refl eq_refl eq_refl)
    as (st2 & R & S & I).
  exists st1, st2. split; [reflexivity|]. split; [exact R|].
  split; [rewrite S | rewrite I]; reflexivity.
Defined.

(** Makes the state [st] of [E : run ... = Some st] the state the run
    computes. *)
Ltac concrete E :=
  let E' := fresh in
  pose proof E as E'; vm_compute in E'; injection E' as <-.

Lemma review_offered_iff_witness :
  exists st,
    run0 Sample.quiz12 (initial Sample.page0 []) = Some st /\
    displayed (page st) resultsSection = true /\
    ((reviewOffered (page st) = true <->
      JS.lt (JS.div (JS.of_nat (score (mem st)))
                    (JS.of_nat (length (quizQuestions (mem st))))) JS.lit_0_6 = true /\
      incorrectAnswers (mem st) <> []) /\
     (length (quizQuestions (mem st)) <= 200 ->
      (JS.lt (JS.div (JS.of_nat (score (mem st)))
                     (JS.of_nat (length (quizQuestions (mem st))))) JS.lit_0_6 = true <->
       5 * score (mem st) < 3 * length (quizQuestions (mem st))))).
Proof.
  destruct (run0 Sample.quiz12 (initial Sample.page0 [])) as [st|] eqn:E;
    [|vm_compute in E; discriminate E].
  assert (D : displayed (page st) resultsSection = true)
    by (concrete E; vm_compute; reflexivity).
  exists st. split; [reflexivity|]. split; [exact D|].
  exact (review_offered_iff
           JS.ascii_trim JS.ascii_toLowerCase Sample.toISOString Sample.getTime
           Sample.page0 [] st eq_refl
           (reachable_run _ _ _ _ Sample.quiz12 _ _ st (reachable_start _ _ _ _ _) E) D).
Defined.

Lemma loadHistoryFromDB_newest_first_witness :
  exists l st',
    loadHistoryFromDB Sample.getTime Sample.ok Sample.stored = Some (Resolved l, st') /\
    store (world st') = store (world Sample.stored) /\
    Permutation (store (world Sample.stored)) l /\
    StronglySorted
      (fun a b => (Sample.getTime (timestamp a) >= Sample.getTime (timestamp b))%Z) l /\
    (store (world Sample.stored) = [] -> l = []).
Proof.
  exact (loadHistoryFromDB_newest_first Sample.getTime Sample.stored Sample.ok
           (or_intror eq_refl) eq_refl).
Defined.

(** The three records of [Sample.stored] come back newest first. *)
Example loadHistoryFromDB_sample :
  option_map (fun r => match fst r with
                       | Resolved l => map id l
                       | RejectedWith _ => []
                       end)
             (loadHistoryFromDB Sample.getTime Sample.ok Sample.stored)
  = Some ["2"; "3"; "1"].
Proof. vm_compute. reflexivity. Qed.

Lemma clearHistory_settled_outcome_witness :
  (exists st',
     exec (clearHistory_settled Sample.ok) Sample.stored = Some st' /\
     store (world st') = [] /\
     history (mem st') = [] /\
     activeFile (mem st') = None /\
     forall o', fails o' = None ->
       exists st'', loadHistoryFromDB Sample.getTime o' st' = Some (Resolved [], st''))
  /\
  (exists st',
     exec (clearHistory_settled Sample.broken) Sample.stored = Some st' /\
     history (mem st') = history (mem Sample.stored) /\
     activeFile (mem st') = activeFile (mem Sample.stored) /\
     store (world st') = store (world Sample.stored)).
Proof.
  split.
  - exact (proj1 (clearHistory_settled_outcome Sample.getTime Sample.stored Sample.ok)
             (conj (or_intror eq_refl) eq_refl)).
  - apply (proj2 (clearHistory_settled_outcome Sample.getTime Sample.stored Sample.broken)).
    right. discriminate.
Defined.

Lemma quiz_reply_outcome_witness :
  (exists st',
     step0 (QuizReply 0 (Parsed (Some [Sample.q1; Sample.q2; Sample.q3]))) Sample.loadingQuiz
       = Some st' /\
     quizQuestions (mem st') = [Sample.q1; Sample.q2; Sample.q3] /\
     currentQuestionIndex (mem st') = 0 /\
     score (mem st') = 0 /\
     incorrectAnswers (mem st') = [] /\
     displayed (page st') quizContentContainer = true /\
     quizOptions (page st') = freshOptions Sample.q1)
  /\
  (exists st',
     step0 (QuizReply 0 (Parsed (Some []))) Sample.loadingQuiz = Some st' /\
     mem st' = mem Sample.loadingQuiz /\
     classList (page st') = classList (page Sample.loadingQuiz) /\
     quizOptions (page st') = quizOptions (page Sample.loadingQuiz) /\
     textContent (page st') quizLoadingStatus =
       "Could not generate a quiz. The material might be too short or unsupported. Please try again with a different file." /\
     nth_error (quizRuns (world st')) 0 = Some QuizNotice).
Proof.
  pose proof (quiz_reply_outcome
                JS.ascii_trim JS.ascii_toLowerCase Sample.toISOString Sample.getTime
                Sample.loadingQuiz 0 eq_refl) as (H1 & H2 & _).
  split.
  - exact (H1 Sample.q1 [Sample.q2; Sample.q3]).
  - apply H2. intros q qs. discriminate.
Defined.

(** C6, against the claim: a reply with one question starts a quiz of one
    question. *)
Lemma quiz_of_one_question_starts :
  option_map
    (fun st => (length (quizQuestions (mem st)),
                displayed (page st) quizContentContainer,
                currentQuestionIndex (mem st), score (mem st)))
    (run0 (Sample.upload ++ [ClickStartQuiz; QuizReply 0 (Parsed (Some [Sample.q1]))])
          (initial Sample.page0 []))
  = Some (1, true, 0, 0).
Proof. vm_compute. reflexivity. Qed.

Lemma review_ends_in_results_with_offer_witness :
  exists st st',
    run0 (Sample.quiz12 ++ [ClickReviewMistakes]) (initial Sample.page0 []) = Some st /\
    isReviewingMistakes (mem st) = true /\
    S (currentQuestionIndex (mem st)) = length (incorrectAnswers (mem st)) /\
    step0 ClickNext st = Some st' /\
    displayed (page st') resultsSection = true /\
    isReviewingMistakes (mem st') = false /\
    reviewOffered (page st') = true.
Proof.
  destruct (run0 (Sample.quiz12 ++ [ClickReviewMistakes]) (initial Sample.page0 []))
    as [st|] eqn:E; [|vm_compute in E; discriminate E].
  assert (H : isReviewingMistakes (mem st) = true /\
              clickable (page st) nextQuestionBtn = true /\
              S (currentQuestionIndex (mem st)) = length (incorrectAnswers (mem st)))
    by (concrete E; vm_compute; auto).
  destruct H as (Hr & Hc & Hl).
  destruct (proj1 (review_ends_in_results_with_offer
                     JS.ascii_trim JS.ascii_toLowerCase Sample.toISOString Sample.getTime)
                  Sample.page0 [] st eq_refl
                  (reachable_run _ _ _ _ _ _ _ st (reachable_start _ _ _ _ _) E)
                  Hr Hc Hl)
    as (st' & E' & Hd & Hr' & Ho).
  exists st, st'. auto 10.
Defined.

(** C7, against the claim: past the last mistake of the review the results
    are shown with the review on offer again. *)
Lemma review_offered_again_after_review :
  option_map
    (fun st => (isReviewingMistakes (mem st), currentQuestionIndex (mem st),
                length (incorrectAnswers (mem st)), clickable (page st) nextQuestionBtn))
    (run0 (Sample.quiz12 ++ [ClickReviewMistakes]) (initial Sample.page0 []))
  = Some (true, 0, 1, true)
  /\
  option_map
    (fun st => (displayed (page st) resultsSection, reviewOffered (page st),
                isReviewingMistakes (mem st)))
    (run0 (Sample.quiz12 ++ [ClickReviewMistakes; ClickNext]) (initial Sample.page0 []))
  = Some (true, true, false).
Proof. split; vm_compute; reflexivity. Qed.

Lemma restart_and_exit_without_gateway_witness :
  exists st st1 st2,
    run0 Sample.quiz12 (initial Sample.page0 []) = Some st /\
    step0 ClickRestartQuiz st = Some st1 /\
    world st1 = world st /\
    quizQuestions (mem st1) = quizQuestions (mem st) /\
    score (mem st1) = 0 /\
    step0 ClickExitQuiz st = Some st2 /\
    world st2 = world st /\
    quizQuestions (mem st2) = [].
Proof.
  destruct (run0 Sample.quiz12 (initial Sample.page0 [])) as [st|] eqn:E;
    [|vm_compute in E; discriminate E].
  assert (H : clickable (page st) restartQuizBtn = true /\
              clickable (page st) exitQuizBtn = true)
    by (concrete E; vm_compute; auto).
  destruct H as (H1 & H2).
  destruct (restart_and_exit_without_gateway
              JS.ascii_trim JS.ascii_toLowerCase Sample.toISOString Sample.getTime st)
    as (R & X).
  destruct (R H1) as (st1 & E1 & _ & Hs & _ & _ & Hq & Hw & _).
  destruct (X H2) as (st2 & E2 & Hq2 & _ & _ & _ & _ & Hw2 & _).
  exists st, st1, st2. auto 10.
Defined.

(** C8, against the claim: a restart from the results sends no request to
    the service and keeps the questions. *)
Lemma restart_sends_no_request :
  option_map
    (fun st => (clickable (page st) restartQuizBtn, length (requests (world st)),
                length (quizRuns (world st))))
    (run0 Sample.quiz12 (initial Sample.page0 []))
  = Some (true, 1, 1)
  /\
  option_map
    (fun st => (length (requests (world st)), length (quizRuns (world st)),
                quizQuestions (mem st), currentQuestionIndex (mem st)))
    (run0 (Sample.quiz12 ++ [ClickRestartQuiz]) (initial Sample.page0 []))
  = Some (1, 1, [Sample.q1; Sample.q2], 0).
Proof. split; vm_compute; reflexivity. Qed.

Lemma one_evaluation_per_question_witness :
  exists st st1,
    exec startQuiz Sample.ready = Some st /\
    Presenting st Sample.q1 /\
    step0 (ClickOption 1) st = Some st1 /\
    score (mem st1) = 1 /\
    run0 (map ClickOption [0; 1; 2; 3; 1]) st1 = Some st1.
Proof.
  destruct (exec startQuiz Sample.ready) as [st|] eqn:E; [|vm_compute in E; discriminate E].
  assert (P : Presenting st Sample.q1)
    by (concrete E; constructor; vm_compute; reflexivity).
  destruct (proj1 (one_evaluation_per_question
                     JS.ascii_trim JS.ascii_toLowerCase Sample.toISOString Sample.getTime)
                  st Sample.q1 1 " 4 " P eq_refl)
    as (st1 & E1 & X1 & _ & _ & R1).
  exists st, st1. split; [reflexivity|]. split; [exact P|]. split; [exact E1|].
  split; [|exact (R1 _)].
  concrete E. vm_compute in X1. injection X1 as <-. reflexivity.
Defined.

(** The cancel comes after two ticks of the loading interval and a click on
    the menu button. *)
Lemma cancelled_generation_is_dropped_witness :
  exists st st1 st2 st3,
    run0 Sample.upload (initial Sample.page0 []) = Some st /\
    step0 ClickStartGame st = Some st1 /\
    run0 [GameTick 0; GameTick 0; ClickMenuToggle] st1 = Some st2 /\
    step0 ClickExitGameLoading st2 = Some st3 /\
    idle (page st3) = true /\
    mem st3 = mem st /\
    alerts (world st3) = [] /\
    forall reply, exists st5,
      step0 (GameReply 0 reply) st3 = Some st5 /\
      mem st5 = mem st3 /\ page st5 = page st3 /\
      alerts (world st5) = alerts (world st3).
Proof.
  destruct (run0 Sample.upload (initial Sample.page0 [])) as [st|] eqn:E;
    [|vm_compute in E; discriminate E].
  assert (H : activeFile (mem st) = Some (Sample.item "1700" "1701") /\
              clickable (page st) startGameBtn = true /\
              length (gameRuns (world st)) = 0)
    by (concrete E; vm_compute; auto 10).
  destruct H as (Ha & Hc & Hl).
  destruct (cancelled_generation_is_dropped
              JS.ascii_trim JS.ascii_toLowerCase Sample.toISOString Sample.getTime
              st _ Ha Hc)
    as (st1 & E1 & M1 & _ & _ & _ & _ & Cancel).
  destruct (run0 [GameTick 0; GameTick 0; ClickMenuToggle] st1) as [st2|] eqn:E2;
    [|concrete E; vm_compute in E1; injection E1 as <-; vm_compute in E2; discriminate E2].
  assert (H : clickable (page st2) exitGameLoadingBtn = true /\
              mem st2 = mem st1 /\ alerts (world st2) = [])
    by (concrete E; vm_compute in E1; injection E1 as <-;
        vm_compute in E2; injection E2 as <-; vm_compute; auto).
  destruct H as (Hc2 & M2 & A2).
  rewrite Hl in Cancel.
  destruct (Cancel [GameTick 0; GameTick 0; ClickMenuToggle] st2 E2)
    as (st3 & E3 & I3 & M3 & _ & A3 & _ & _ & _ & Late).
  - intros [H|[H|[H|[]]]]; discriminate H.
  - intros reply [H|[H|[H|[]]]]; discriminate H.
  - exact Hc2.
  - exists st, st1, st2, st3.
    split; [reflexivity|]. split; [exact E1|]. split; [exact E2|]. split; [exact E3|].
    split; [exact I3|]. split; [congruence|]. split; [congruence|].
    intros reply. destruct (Late [] st3 eq_refl reply) as (st5 & E5 & M5 & P5 & A5 & _).
    exists st5. auto.
Defined.

(** A game of one card played to its results has the card index at 1 with
    one card; the exit empties the cards and keeps the index until the next
    game starts. *)
Example card_index_after_exit :
  option_map
    (fun st => (currentCardIndex (mem st), length (flashcards (mem st)),
                displayed (page st) gameResultsSection))
    (run0 Sample.game1 (initial Sample.page0 []))
  = Some (1, 1, true)
  /\
  option_map
    (fun st => (currentCardIndex (mem st), length (flashcards (mem st))))
    (run0 (Sample.game1 ++ [ClickExitGame]) (initial Sample.page0 []))
  = Some (1, 0).
Proof. split; vm_compute; reflexivity. Qed.

Lemma index_within_bounds_witness :
  exists st,
    run0 Sample.game1 (initial Sample.page0 []) = Some st /\
    currentQuestionIndex (mem st) <= activeLength (mem st) /\
    (displayed (page st) gameContainer = true ->
     currentCardIndex (mem st) < length (flashcards (mem st))) /\
    (displayed (page st) gameResultsSection = true ->
     currentCardIndex (mem st) <= length (flashcards (mem st))) /\
    (forall ev, exists st', step0 ev st = Some st').
Proof.
  destruct (run0 Sample.game1 (initial Sample.page0 [])) as [st|] eqn:E;
    [|vm_compute in E; discriminate E].
  destruct (index_within_bounds
              JS.ascii_trim JS.ascii_toLowerCase Sample.toISOString Sample.getTime
              Sample.page0 [] st eq_refl
              (reachable_run _ _ _ _ Sample.game1 _ _ st (reachable_start _ _ _ _ _) E))
    as (H1 & H2 & H3 & H4 & _).
  exists st. auto.
Defined.

(** ** The rest of the script on sample inputs *)

(** Two cards, the first known and the second not. *)
Lemma game_counts_known_cards_witness :
  exists st st',
    run0 Sample.game2 (initial Sample.page0 []) = Some st /\
    CardShown st /\
    run0 (playing [true; false]) st = Some st' /\
    displayed (page st') gameResultsSection = true /\
    knownCardsCount (mem st') = 1 /\
    textContent (page st') gameResultsHeadingEl = gameOver 1 2.
Proof.
  destruct (run0 Sample.game2 (initial Sample.page0 [])) as [st|] eqn:E;
    [|vm_compute in E; discriminate E].
  assert (C : CardShown st)
    by (concrete E; constructor; vm_compute; auto).
  assert (L : currentCardIndex (mem st) + length [true; false] = length (flashcards (mem st)))
    by (concrete E; reflexivity).
  destruct (game_counts_known_cards
              JS.ascii_trim JS.ascii_toLowerCase Sample.toISOString Sample.getTime
              [true; false] st C L) as (st' & R & D & _ & F & _ & K & T).
  assert (K0 : knownCardsCount (mem st) = 0) by (concrete E; reflexivity).
  assert (F0 : length (flashcards (mem st)) = 2) by (concrete E; reflexivity).
  exists st, st'. rewrite T, K, K0, F0. cbn [filter length Nat.add]. auto 10.
Defined.

Lemma game_reply_starts_game_witness :
  exists st st',
    run0 Sample.loadingGame (initial Sample.page0 []) = Some st /\
    step0 (GameReply 0 (Parsed (Some [Sample.card1; Sample.card2]))) st = Some st' /\
    flashcards (mem st') = [Sample.card1; Sample.card2] /\
    currentCardIndex (mem st') = 0 /\
    textContent (page st') flashcardTermEl = "Cell" /\
    step0 ClickKnewIt st' = Some st'.
Proof.
  destruct (run0 Sample.loadingGame (initial Sample.page0 [])) as [st|] eqn:E;
    [|vm_compute in E; discriminate E].
  assert (G : nth_error (gameRuns (world st)) 0
              = Some {| awaiting := true; aborted := false; interval := true;
                        messageIndex := 0 |})
    by (concrete E; reflexivity).
  destruct (game_reply_starts_game
              JS.ascii_trim JS.ascii_toLowerCase Sample.toISOString Sample.getTime
              st 0 _ Sample.card1 [Sample.card2] G eq_refl eq_refl)
    as (st' & R & F & I & _ & T & _ & _ & _ & _ & _ & _ & _ & _ & K & _).
  exists st, st'. auto 10.
Defined.

Lemma failed_generation_exit_witness :
  exists st st1 st2,
    run0 Sample.loadingGame (initial Sample.page0 []) = Some st /\
    step0 (GameReply 0 (Rejected NotAnError)) st = Some st1 /\
    textContent (page st1) gameLoadingStatus
      = "Could not generate flashcards. Please try again or cancel." /\
    textContent (page st1) exitGameLoadingBtn = "Exit" /\
    step0 ClickExitGameLoading st1 = Some st2 /\
    mem st2 = mem st /\
    idle (page st2) = true.
Proof.
  destruct (run0 Sample.loadingGame (initial Sample.page0 [])) as [st|] eqn:E;
    [|vm_compute in E; discriminate E].
  assert (G : nth_error (gameRuns (world st)) 0
              = Some {| awaiting := true; aborted := false; interval := true;
                        messageIndex := 0 |})
    by (concrete E; reflexivity).
  assert (C : clickable (page st) exitGameLoadingBtn = true)
    by (concrete E; reflexivity).
  assert (L : In 0 (abortListeners (page st)))
    by (concrete E; left; reflexivity).
  destruct (failed_generation_exit
              JS.ascii_trim JS.ascii_toLowerCase Sample.toISOString Sample.getTime
              st 0 _ (Rejected NotAnError) G eq_refl eq_refl
              (fun c cs H => eq_ind (Rejected NotAnError)
                 (fun r => match r with Rejected _ => True | _ => False end) I _ H) C)
    as (st1 & st2 & R1 & _ & _ & _ & T1 & T2 & _ & R2 & M & Hi & _).
  exists st, st1, st2.
  split; [reflexivity|]. split; [exact R1|]. split; [exact T1|]. split; [exact T2|].
  split; [exact R2|]. split; [exact M|].
  exact (Hi (ex_intro _ NotAnError eq_refl) L).
Defined.

(** Seven ticks from the first loading message show the third. *)
Lemma loading_messages_cycle_witness :
  exists st st',
    run0 Sample.loadingGame (initial Sample.page0 []) = Some st /\
    run0 (repeat (GameTick 0) 7) st = Some st' /\
    textContent (page st') gameLoadingStatus = "Crafting flashcard definitions...".
Proof.
  destruct (run0 Sample.loadingGame (initial Sample.page0 [])) as [st|] eqn:E;
    [|vm_compute in E; discriminate E].
  assert (G : nth_error (gameRuns (world st)) 0
              = Some {| awaiting := true; aborted := false; interval := true;
                        messageIndex := 0 |})
    by (concrete E; reflexivity).
  destruct (loading_messages_cycle
              JS.ascii_trim JS.ascii_toLowerCase Sample.toISOString Sample.getTime
              7 st 0 _ G eq_refl (Nat.lt_0_succ 4))
    as (st' & R & _ & _ & _ & _ & T).
  exists st, st'. split; [reflexivity|]. split; [exact R|].
  exact (eq_sym (f_equal (fun o => match o with Some s => s | None => EmptyString end)
                         (T (Nat.lt_0_succ 6)))).
Defined.

Lemma request_carries_active_material_witness :
  exists st st',
    run0 Sample.upload (initial Sample.page0 []) = Some st /\
    step0 ClickStartQuiz st = Some st' /\
    (requests (world st') = requests (world st) \/
     exists r,
       activeFile (mem st) = Some (request_item r) /\
       requests (world st') = requests (world st) ++ [r] /\
       (ClickStartQuiz = ClickAsk \/ ClickStartQuiz = ClickStartQuiz \/
        ClickStartQuiz = ClickStartGame)) /\
    requests (world st') = [QuizRequest (Sample.item "1700" "1701")].
Proof.
  destruct (run0 Sample.upload (initial Sample.page0 [])) as [st|] eqn:E;
    [|vm_compute in E; discriminate E].
  destruct (step0 ClickStartQuiz st) as [st'|] eqn:E';
    [|concrete E; vm_compute in E'; discriminate E'].
  destruct (request_carries_active_material
              JS.ascii_trim JS.ascii_toLowerCase Sample.toISOString Sample.getTime
              ClickStartQuiz st st' E') as [H _].
  exists st, st'. split; [reflexivity|]. split; [exact E'|]. split; [exact H|].
  concrete E. vm_compute in E'. injection E' as <-. reflexivity.
Defined.

(** The question is sent trimmed. *)
Lemma ask_click_outcome_witness :
  exists st st',
    run0 (Sample.upload ++ [TypeQuestion " What is a cell? "]) (initial Sample.page0 [])
      = Some st /\
    step0 ClickAsk st = Some st' /\
    requests (world st') = [AskRequest (Sample.item "1700" "1701") "What is a cell?"] /\
    disabled (page st') questionInput = true.
Proof.
  destruct (run0 (Sample.upload ++ [TypeQuestion " What is a cell? "])
                 (initial Sample.page0 [])) as [st|] eqn:E;
    [|vm_compute in E; discriminate E].
  assert (C : clickable (page st) askBtn = true) by (concrete E; reflexivity).
  destruct (ask_click_outcome
              JS.ascii_trim JS.ascii_toLowerCase Sample.toISOString Sample.getTime st C)
    as (st' & R & _ & H).
  assert (A : activeFile (mem st) = Some (Sample.item "1700" "1701"))
    by (concrete E; reflexivity).
  assert (Q : JS.ascii_trim (value (page st) questionInput) = "What is a cell?")
    by (concrete E; reflexivity).
  assert (Rq : requests (world st) = []) by (concrete E; reflexivity).
  rewrite A, Q, Rq in H. destruct H as (H1 & _ & _ & _ & _ & _ & H2).
  exists st, st'. split; [reflexivity|]. split; [exact R|]. split; [exact H1|].
  inversion H2 as [|? ? _ H3]. inversion H3 as [|? ? H4 _]. exact H4.
Defined.

Lemma ask_stream_answer_witness :
  exists st st',
    run0 Sample.asking (initial Sample.page0 []) = Some st /\
    run0 (map (AskChunk 0) ["A cell is "; "the unit of life."] ++ [AskSettled 0 None]) st
      = Some st' /\
    textContent (page st') answerEl = "A cell is the unit of life." /\
    disabled (page st') askBtn = false.
Proof.
  destruct (run0 Sample.asking (initial Sample.page0 [])) as [st|] eqn:E;
    [|vm_compute in E; discriminate E].
  assert (A : nth_error (askRuns (world st)) 0 = Some AskAwaiting)
    by (concrete E; reflexivity).
  destruct (ask_stream_answer
              JS.ascii_trim JS.ascii_toLowerCase Sample.toISOString Sample.getTime
              st 0 ["A cell is "; "the unit of life."] None A)
    as (st' & R & _ & T & D & _).
  assert (T0 : textContent (page st) answerEl = EmptyString) by (concrete E; reflexivity).
  exists st, st'. split; [reflexivity|]. split; [exact R|].
  split; [rewrite T, T0; reflexivity|].
  inversion D as [|? ? H _]. exact H.
Defined.

Lemma history_entry_click_witness :
  exists st st',
    run0 Sample.upload (initial Sample.page0 []) = Some st /\
    step0 (ClickHistoryItem 0) st = Some st' /\
    activeFile (mem st') = Some (Sample.item "1700" "1701").
Proof.
  destruct (run0 Sample.upload (initial Sample.page0 [])) as [st|] eqn:E;
    [|vm_compute in E; discriminate E].
  assert (H : nth_error (historyItems (page st)) 0
              = Some {| li_text := "notes.txt"; li_id := Some "1700"; li_active := true |})
    by (concrete E; reflexivity).
  assert (D : displayed (page st) historyList = true) by (concrete E; reflexivity).
  destruct (history_entry_click
              JS.ascii_trim JS.ascii_toLowerCase Sample.toISOString Sample.getTime
              st 0 _ H D) as [_ K].
  assert (H1 : historyItems (page st) = rendered (activeFile (mem st)) (history (mem st)))
    by (concrete E; reflexivity).
  assert (H2 : NoDup (map id (history (mem st))))
    by (concrete E; repeat constructor; intros []).
  assert (H3 : nth_error (history (mem st)) 0 = Some (Sample.item "1700" "1701"))
    by (concrete E; reflexivity).
  destruct (K H1 H2 _ H3) as (st' & R & A).
  exists st, st'. auto.
Defined.

Lemma upload_success_witness :
  exists st st',
    run0 Sample.reading (initial Sample.page0 []) = Some st /\
    run0 [FileRead 0 (Some "data:text/plain;base64,QQ==") 1700 1701; ItemSaved 0 Sample.ok] st
      = Some st' /\
    activeFile (mem st') = Some (Sample.item "1700" "1701") /\
    store (world st') = [Sample.item "1700" "1701"] /\
    files (page st') = None.
Proof.
  destruct (run0 Sample.reading (initial Sample.page0 [])) as [st|] eqn:E;
    [|vm_compute in E; discriminate E].
  assert (U : nth_error (uploads (world st)) 0 = Some (UploadReading Sample.notes))
    by (concrete E; reflexivity).
  destruct (upload_success
              JS.ascii_trim JS.ascii_toLowerCase Sample.toISOString Sample.getTime
              st 0 Sample.notes "data:text/plain;base64,QQ==" 1700 1701 Sample.ok
              U (or_intror eq_refl) eq_refl)
    as (st' & R & A & _ & S & _ & _ & F & _).
  assert (S0 : store (world st) = []) by (concrete E; reflexivity).
  exists st, st'. split; [reflexivity|]. split; [exact R|].
  split; [exact A|]. split; [rewrite S, S0; reflexivity | exact F].
Defined.

Lemma upload_failure_witness :
  exists st st',
    run0 Sample.reading (initial Sample.page0 []) = Some st /\
    run0 [FileRead 0 (Some "data:text/plain;base64,QQ==") 1700 1701;
          ItemSaved 0 {| opens := true; fails := Some "QuotaExceededError" |}] st
      = Some st' /\
    activeFile (mem st') = None /\
    store (world st') = store (world st) /\
    textContent (page st') statusEl
      = "Local storage quota exceeded. Please clear some history or use smaller files.".
Proof.
  destruct (run0 Sample.reading (initial Sample.page0 [])) as [st|] eqn:E;
    [|vm_compute in E; discriminate E].
  assert (U : nth_error (uploads (world st)) 0 = Some (UploadReading Sample.notes))
    by (concrete E; reflexivity).
  assert (F : saveFailure st {| opens := true; fails := Some "QuotaExceededError" |}
              = Some "Local storage quota exceeded. Please clear some history or use smaller files.")
    by (concrete E; reflexivity).
  destruct (proj2 (upload_failure
                     JS.ascii_trim JS.ascii_toLowerCase Sample.toISOString Sample.getTime
                     st 0 Sample.notes U)
                  "data:text/plain;base64,QQ==" 1700%Z 1701%Z
                  {| opens := true; fails := Some "QuotaExceededError" |}
                  "Local storage quota exceeded. Please clear some history or use smaller files."
                  F)
    as (st' & R & A & _ & S & _ & T & _).
  exists st, st'. auto 10.
Defined.

Lemma history_loaded_outcome_witness :
  exists st',
    step0 (HistoryLoaded Sample.ok) Sample.stored = Some st' /\
    map id (history (mem st')) = ["2"; "3"; "1"] /\
    map li_text (historyItems (page st')) = ["notes.txt"; "notes.txt"; "notes.txt"].
Proof.
  destruct (history_loaded_outcome
              JS.ascii_trim JS.ascii_toLowerCase Sample.toISOString Sample.getTime
              Sample.stored Sample.ok eq_refl) as (st' & R & _ & _ & _ & _).
  exists st'. split; [exact R|].
  vm_compute in R. injection R as <-. split; reflexivity.
Defined.

Lemma saved_item_is_listed_witness :
  exists st1 l st2,
    saveHistoryItem Sample.ok (Sample.item "4" "4000") Sample.stored
      = Some (Resolved tt, st1) /\
    loadHistoryFromDB Sample.getTime Sample.ok st1 = Some (Resolved l, st2) /\
    In (Sample.item "4" "4000") l /\
    In (Sample.item "1" "1000") l.
Proof.
  destruct (saved_item_is_listed Sample.getTime Sample.stored (Sample.item "4" "4000")
              Sample.ok Sample.ok (or_intror eq_refl) eq_refl eq_refl)
    as (st1 & l & st2 & S & _ & L & I1 & I2 & _).
  exists st1, l, st2. split; [exact S|]. split; [exact L|]. split; [exact I1|].
  apply I2; [left; reflexivity | discriminate].
Defined.

Lemma sidebar_toggle_close_witness :
  exists st1 st2,
    step0 ClickMenuToggle (initial Sample.page0 []) = Some st1 /\
    classList (page st1) appContainer sidebar_open = true /\
    step0 ClickSidebarOverlay st1 = Some st2 /\
    classList (page st2) appContainer sidebar_open = false.
Proof.
  destruct (proj1 (sidebar_toggle_close
                     JS.ascii_trim JS.ascii_toLowerCase Sample.toISOString Sample.getTime
                     (initial Sample.page0 [])) eq_refl)
    as (st1 & _ & R1 & O1 & _).
  assert (D : displayed (page st1) sidebarOverlay = true)
    by (vm_compute in R1; injection R1 as <-; reflexivity).
  destruct (proj2 (sidebar_toggle_close
                     JS.ascii_trim JS.ascii_toLowerCase Sample.toISOString Sample.getTime
                     st1) D)
    as (st2 & R2 & O2 & _).
  exists st1, st2. split; [exact R1|]. split; [exact O1|]. split; [exact R2 | exact O2].
Defined.

Lemma quiz_accounting_witness :
  exists st,
    run0 Sample.quiz12 (initial Sample.page0 []) = Some st /\
    displayed (page st) resultsSection = true /\
    score (mem st) + length (incorrectAnswers (mem st)) = length (quizQuestions (mem st)) /\
    0 < length (quizQuestions (mem st)) /\
    textContent (page st) finalScoreEl
    = finalScore (score (mem st)) (length (quizQuestions (mem st))).
Proof.
  destruct (run0 Sample.quiz12 (initial Sample.page0 [])) as [st|] eqn:E;
    [|vm_compute in E; discriminate E].
  assert (D : displayed (page st) resultsSection = true)
    by (concrete E; reflexivity).
  destruct (quiz_accounting
              JS.ascii_trim JS.ascii_toLowerCase Sample.toISOString Sample.getTime
              Sample.page0 [] st eq_refl
              (reachable_run _ _ _ _ Sample.quiz12 _ _ st (reachable_start _ _ _ _ _) E))
    as (_ & _ & _ & H).
  exists st. split; [reflexivity|]. split; [exact D | exact (H D)].
Defined.

Lemma game_accounting_witness :
  exists st,
    run0 Sample.game1 (initial Sample.page0 []) = Some st /\
    displayed (page st) gameResultsSection = true /\
    currentCardIndex (mem st) = length (flashcards (mem st)) /\
    knownCardsCount (mem st) <= length (flashcards (mem st)) /\
    textContent (page st) gameResultsHeadingEl
    = gameOver (knownCardsCount (mem st)) (length (flashcards (mem st))).
Proof.
  destruct (run0 Sample.game1 (initial Sample.page0 [])) as [st|] eqn:E;
    [|vm_compute in E; discriminate E].
  assert (D : displayed (page st) gameResultsSection = true)
    by (concrete E; reflexivity).
  destruct (game_accounting
              JS.ascii_trim JS.ascii_toLowerCase Sample.toISOString Sample.getTime
              Sample.page0 [] st eq_refl
              (reachable_run _ _ _ _ Sample.game1 _ _ st (reachable_start _ _ _ _ _) E))
    as (_ & H).
  exists st. split; [reflexivity|]. split; [exact D | exact (H D)].
Defined.

Lemma starters_together_witness :
  exists st,
    run0 Sample.asking (initial Sample.page0 []) = Some st /\
    startersAgree (page st) /\
    disabled (page st) askBtn = true.
Proof.
  destruct (run0 Sample.asking (initial Sample.page0 [])) as [st|] eqn:E;
    [|vm_compute in E; discriminate E].
  exists st. split; [reflexivity|]. split.
  - exact (starters_together
             JS.ascii_trim JS.ascii_toLowerCase Sample.toISOString Sample.getTime
             Sample.page0 [] st (conj eq_refl eq_refl)
             (reachable_run _ _ _ _ Sample.asking _ _ st (reachable_start _ _ _ _ _) E)).
  - concrete E. reflexivity.
Defined.

Lemma no_tick_after_the_end_witness :
  exists st,
    run0 Sample.game1 (initial Sample.page0 []) = Some st /\
    intervalsAwaited (gameRuns (world st)) /\
    step0 (GameTick 0) st = Some st.
Proof.
  destruct (run0 Sample.game1 (initial Sample.page0 [])) as [st|] eqn:E;
    [|vm_compute in E; discriminate E].
  destruct (no_tick_after_the_end
              JS.ascii_trim JS.ascii_toLowerCase Sample.toISOString Sample.getTime
              Sample.page0 [] st
              (reachable_run _ _ _ _ Sample.game1 _ _ st (reachable_start _ _ _ _ _) E))
    as (H & T).
  assert (G : nth_error (gameRuns (world st)) 0
              = Some {| awaiting := false; aborted := false; interval := false;
                        messageIndex := 0 |})
    by (concrete E; reflexivity).
  exists st. split; [reflexivity|]. split; [exact H|].
  exact (T 0 _ G (or_introl eq_refl)).
Defined.

(** A wrong selection marks the selected button incorrect and reveals the
    right one. *)
Lemma selection_marks_witness :
  exists st st',
    exec startQuiz Sample.ready = Some st /\
    step0 (ClickOption 0) st = Some st' /\
    textContent (page st') quizFeedbackEl = "Incorrect! The correct answer was: 4" /\
    map (fun b => (btn_correct b, btn_incorrect b)) (quizOptions (page st'))
    = [(false, true); (true, false); (false, false); (false, false)].
Proof.
  destruct (exec startQuiz Sample.ready) as [st|] eqn:E; [|vm_compute in E; discriminate E].
  assert (P : Presenting st Sample.q1)
    by (concrete E; constructor; vm_compute; reflexivity).
  destruct (selection_marks
              JS.ascii_trim JS.ascii_toLowerCase Sample.toISOString Sample.getTime
              st Sample.q1 0 "3" P eq_refl)
    as (st' & R & F & _).
  exists st, st'. split; [reflexivity|]. split; [exact R|]. split; [exact F|].
  concrete E. vm_compute in R. injection R as <-. reflexivity.
Defined.

Lemma review_walk_witness :
  exists st st',
    run0 Sample.quiz12 (initial Sample.page0 []) = Some st /\
    run0 [ClickReviewMistakes] st = Some st' /\
    textContent (page st') quizQuestionEl = "Capital of France?" /\
    map (fun b => (btn_disabled b, btn_correct b, btn_incorrect b)) (quizOptions (page st'))
    = [(true, true, false); (true, false, true); (true, false, false); (true, false, false)] /\
    score (mem st') = score (mem st).
Proof.
  destruct (run0 Sample.quiz12 (initial Sample.page0 [])) as [st|] eqn:E;
    [|vm_compute in E; discriminate E].
  assert (H : clickable (page st) reviewMistakesBtn = true /\
              disabled (page st) nextQuestionBtn = false /\
              nth_error (incorrectAnswers (mem st)) 0
              = Some {| mistake_question := Sample.q2; selected := "Rome" |})
    by (concrete E; auto).
  destruct H as (H1 & H2 & H3).
  destruct (review_walk
              JS.ascii_trim JS.ascii_toLowerCase Sample.toISOString Sample.getTime
              0 st _ H1 H2 H3)
    as (st' & R & V & S & _).
  exists st, st'. split; [reflexivity|]. split; [exact R|].
  split; [exact (reviewing_question _ _ _ _ _ V)|].
  split; [rewrite (reviewing_options _ _ _ _ _ V); reflexivity | exact S].
Defined.


Lemma process_reads_chosen_file_witness :
  exists st',
    run0 [ChooseFile (Some Sample.notes); ClickProcess] (initial Sample.page0 []) = Some st' /\
    textContent (page st') fileInputLabel = "notes.txt" /\
    uploads (world st') = [UploadReading Sample.notes].
Proof.
  destruct (process_reads_chosen_file
              JS.ascii_trim JS.ascii_toLowerCase Sample.toISOString Sample.getTime
              (initial Sample.page0 []) (Some Sample.notes) eq_refl eq_refl)
    as (st' & R & _ & L & _ & U).
  exists st'. auto.
Defined.

Lemma clear_history_view_witness :
  exists st1 st2,
    step0 (ClickClearHistory true) Sample.stored = Some st1 /\
    step0 (HistoryCleared Sample.ok) st1 = Some st2 /\
    map li_text (historyItems (page st2)) = ["No history yet."] /\
    textContent (page st2) statusEl = "History cleared.".
Proof.
  destruct (clear_history_view
              JS.ascii_trim JS.ascii_toLowerCase Sample.toISOString Sample.getTime
              Sample.stored Sample.ok eq_refl)
    as (_ & st1 & st2 & R1 & _ & _ & _ & R2 & H & _).
  destruct (H (conj (or_intror eq_refl) eq_refl)) as (L & T & _).
  exists st1, st2. split; [exact R1|]. split; [exact R2|].
  split; [rewrite L; reflexivity | exact T].
Defined.

Lemma card_flip_witness :
  exists st st1 st2,
    run0 Sample.game2 (initial Sample.page0 []) = Some st /\
    step0 ClickKnewIt st = Some st /\
    step0 ClickFlashcard st = Some st1 /\
    clickable (page st1) knewItBtn = true /\
    step0 ClickFlashcard st1 = Some st2 /\
    mem st2 = mem st.
Proof.
  destruct (run0 Sample.game2 (initial Sample.page0 [])) as [st|] eqn:E;
    [|vm_compute in E; discriminate E].
  assert (C : CardShown st)
    by (concrete E; constructor; vm_compute; auto).
  assert (G : classList (page st) gameControls hidden = true)
    by (concrete E; reflexivity).
  destruct (card_flip
              JS.ascii_trim JS.ascii_toLowerCase Sample.toISOString Sample.getTime st C G)
    as (st1 & st2 & K & _ & R1 & _ & K1 & _ & R2 & _ & M & _).
  exists st, st1, st2. auto 10.
Defined.

Lemma game_restart_and_exit_witness :
  exists st st1 st2,
    run0 Sample.game1 (initial Sample.page0 []) = Some st /\
    step0 ClickRestartGame st = Some st1 /\
    currentCardIndex (mem st1) = 0 /\
    textContent (page st1) flashcardTermEl = "Cell" /\
    step0 ClickExitGame st = Some st2 /\
    flashcards (mem st2) = [] /\
    classList (page st2) gameSection hidden = true.
Proof.
  destruct (run0 Sample.game1 (initial Sample.page0 [])) as [st|] eqn:E;
    [|vm_compute in E; discriminate E].
  assert (H : flashcards (mem st) = [Sample.card1] /\
              clickable (page st) restartGameBtn = true /\
              clickable (page st) exitGameBtn = true)
    by (concrete E; auto).
  destruct H as (H1 & H2 & H3).
  destruct (game_restart_and_exit
              JS.ascii_trim JS.ascii_toLowerCase Sample.toISOString Sample.getTime
              st Sample.card1 [] H1) as (R & X).
  destruct (R H2) as (st1 & R1 & _ & I1 & _ & _ & _ & _ & _ & T1 & _).
  destruct (X H3) as (st2 & R2 & F2 & _ & _ & G2 & _).
  exists st, st1, st2. auto 10.
Defined.
